(** * A shallow embedding of the voicebot-live-kit customer-service agent

    The development follows the four Python modules that carry the decision
    logic of the repository:

    - [intent_classifier.py]   intent labels and entity extraction,
    - [shopify_handler.py]     the commerce REST client,
    - [retrieved_documents.py] the vector-index searcher,
    - [intellizen_voicebot2.py] the call session and its callbacks.

    External collaborators (the language model, the HTTP server, the vector
    index, Redis, the SQL engine, the clock) are events of an interaction
    tree; a handler gives them meaning.  Python exceptions are values of type
    [result]. *)

From Stdlib Require Import String Ascii List ZArith QArith Bool Arith Lia.
From Stdlib Require Import DecimalString.
Import ListNotations.
Close Scope Q_scope.
Local Open Scope nat_scope.
Local Open Scope string_scope.
Local Open Scope list_scope.

Set Implicit Arguments.
Set Warnings "-register-all".

(** ** Python strings

    A Python [str] is modelled by the sequence of its code points, one
    [ascii] per code point; the model covers the code points below 256, on
    which the character tables below agree with CPython's. *)

Module PyStr.

Definition code (c : ascii) : N := N_of_ascii c.

Definition in_range (lo hi : N) (c : ascii) : bool :=
  (lo <=? code c)%N && (code c <=? hi)%N.

(** [str.isspace] on one character; also the class [\s] of the [re] module. *)
Definition is_space (c : ascii) : bool :=
  in_range 9 13 c || in_range 28 32 c
  || (code c =? 133)%N || (code c =? 160)%N.

(** [\d] on the code points of the model: below 256 the decimal digits
    (category [Nd]) are [0] to [9].  On a [str] the class also matches the
    decimal digits of other scripts, which all lie from U+0660 on, outside
    the model: what is proved of a pattern with [\d] is proved of subjects
    made of code points below 256. *)
Definition is_digit (c : ascii) : bool := in_range 48 57 c.

Definition is_ascii_upper (c : ascii) : bool := in_range 65 90 c.
Definition is_ascii_lower (c : ascii) : bool := in_range 97 122 c.

(** [\w]: alphanumeric characters and the underscore. *)
Definition is_word (c : ascii) : bool :=
  is_digit c || is_ascii_upper c || is_ascii_lower c || (code c =? 95)%N
  || (code c =? 170)%N || (code c =? 178)%N || (code c =? 179)%N
  || (code c =? 181)%N || (code c =? 185)%N || (code c =? 186)%N
  || in_range 188 190 c || in_range 192 214 c || in_range 216 246 c
  || in_range 248 255 c.

(** [str.lower] on one character. *)
Definition lower_char (c : ascii) : ascii :=
  if is_ascii_upper c || in_range 192 214 c || in_range 216 222 c
  then ascii_of_N (code c + 32) else c.

Fixpoint lower (s : string) : string :=
  match s with
  | EmptyString => EmptyString
  | String c s' => String (lower_char c) (lower s')
  end.

Fixpoint lstrip (s : string) : string :=
  match s with
  | EmptyString => EmptyString
  | String c s' => if is_space c then lstrip s' else s
  end.

Fixpoint rstrip (s : string) : string :=
  match s with
  | EmptyString => EmptyString
  | String c s' =>
      match rstrip s' with
      | EmptyString => if is_space c then EmptyString else String c EmptyString
      | r => String c r
      end
  end.

(** [str.strip()] without arguments. *)
Definition strip (s : string) : string := rstrip (lstrip s).

(** [sub in s] for strings. *)
Fixpoint contains (sub s : string) : bool :=
  prefix sub s ||
  match s with
  | EmptyString => false
  | String _ s' => contains sub s'
  end.

(** [sep.join(l)]. *)
Fixpoint join (sep : string) (l : list string) : string :=
  match l with
  | [] => ""
  | [x] => x
  | x :: rest => x ++ sep ++ join sep rest
  end.

(** [x in l] for a list of strings. *)
Definition mem (x : string) (l : list string) : bool :=
  existsb (String.eqb x) l.

Definition is_empty (s : string) : bool :=
  match s with EmptyString => true | _ => false end.

(** [s.split(sep)] for a non-empty separator; [skip] counts the characters
    of a separator that remain to be passed. *)
Fixpoint split_go (sep s : string) (skip : nat) (cur : string)
  : list string :=
  match s with
  | EmptyString => [cur]
  | String c s' =>
      match skip with
      | S n => split_go sep s' n cur
      | O =>
          if prefix sep s
          then cur :: split_go sep s' (String.length sep - 1) EmptyString
          else split_go sep s' 0 (cur ++ String c EmptyString)
      end
  end.

Definition split (sep s : string) : list string :=
  split_go sep s 0 EmptyString.

(** [str(n)] for an integer. *)
Definition of_Z (z : Z) : string := NilZero.string_of_int (Z.to_int z).

End PyStr.

(** ** Python values and dictionaries *)

Inductive value : Type :=
| VNone
| VBool (b : bool)
| VInt (z : Z)
| VFloat (q : Q)
| VStr (s : string)
| VList (l : list value)
| VDict (d : list (string * value))
| VDatetime (us : Z).

(** A [dict] keeps insertion order and has no duplicate key. *)
Definition dict := list (string * value).

Module PyDict.

Fixpoint lookup (k : string) (d : dict) : option value :=
  match d with
  | [] => None
  | (k', v) :: d' => if String.eqb k k' then Some v else lookup k d'
  end.

(** [d.get(k)]. *)
Definition get (k : string) (d : dict) : value :=
  match lookup k d with Some v => v | None => VNone end.

(** [d.get(k, default)]. *)
Definition get_default (k : string) (default : value) (d : dict) : value :=
  match lookup k d with Some v => v | None => default end.

(** [k in d]. *)
Definition has_key (k : string) (d : dict) : bool :=
  match lookup k d with Some _ => true | None => false end.

(** [d[k] = v]. *)
Fixpoint set (k : string) (v : value) (d : dict) : dict :=
  match d with
  | [] => [(k, v)]
  | (k', v') :: d' =>
      if String.eqb k k' then (k, v) :: d' else (k', v') :: set k v d'
  end.

(** [d.update(other)]. *)
Definition update (d other : dict) : dict :=
  fold_left (fun acc kv => set (fst kv) (snd kv) acc) other d.

(** [list(d.keys())]. *)
Definition keys (d : dict) : list string := map fst d.

End PyDict.

(** Truth value of an object, as tested by [if x:] and [not x]. *)
Definition truthy (v : value) : bool :=
  match v with
  | VNone => false
  | VBool b => b
  | VInt z => negb (z =? 0)%Z
  | VFloat q => negb (Qeq_bool q 0)
  | VStr s => negb (PyStr.is_empty s)
  | VList l => match l with [] => false | _ => true end
  | VDict d => match d with [] => false | _ => true end
  | VDatetime _ => true
  end.

(** An [Optional[str]] argument: [None] is [None]. *)
Definition opt_truthy (o : option string) : bool :=
  match o with
  | Some s => negb (PyStr.is_empty s)
  | None => false
  end.

Definition opt_value (o : option string) : value :=
  match o with Some s => VStr s | None => VNone end.

(** The text of an [Optional[str]] inside an f-string. *)
Definition opt_str (o : option string) : string :=
  match o with Some s => s | None => "None" end.

(** [if x: d[key] = x] for an [Optional[str]]. *)
Definition set_if (key : string) (x : option string) (d : dict) : dict :=
  if opt_truthy x then PyDict.set key (opt_value x) d else d.

(** ** Exceptions *)

Inductive exn : Type :=
| HTTPError (status : Z)
| RequestException (msg : string)
| JSONDecodeError
| OutputParserException
| KeyError (key : string)
| AttributeError
| TypeError
| ExternalError (msg : string).

Inductive result (A : Type) : Type :=
| Ok (a : A)
| Raise (e : exn).

Arguments Ok {A} a.
Arguments Raise {A} e.

(** ** Chat messages

    The content of an [llm.ChatMessage]: a string, a list of strings and
    images, or nothing. *)

Inductive chat_item : Type :=
| ChatText (s : string)
| ChatImage.

Inductive chat_content : Type :=
| ContentStr (s : string)
| ContentList (items : list chat_item)
| ContentNone.

(** ** Text of objects

    [str(x)] and the [{x}] of an f-string.  The text of [None], of booleans,
    integers and strings is computed; the text Python gives to floats,
    containers, timestamps and exceptions is an interface, and every
    statement below holds for each of its implementations. *)

Class PyText : Type := {
  str_float : Q -> string;
  str_list : list value -> string;
  str_dict : list (string * value) -> string;
  str_datetime : Z -> string;
  str_exn : exn -> string;
  str_chat_items : list chat_item -> string
}.

Definition py_str `{PyText} (v : value) : string :=
  match v with
  | VNone => "None"
  | VBool true => "True"
  | VBool false => "False"
  | VInt z => PyStr.of_Z z
  | VFloat q => str_float q
  | VStr s => s
  | VList l => str_list l
  | VDict d => str_dict d
  | VDatetime t => str_datetime t
  end.

(** [set.add] and [sorted] on arbitrary objects: hashing and ordering of
    Python objects are an interface as well.  A set is the list of its
    members. *)
Class PySet : Type := {
  set_add : list value -> value -> result (list value);
  sorted : list value -> result (list value)
}.

(** [x == s] for a string [s]. *)
Definition eq_str (x : value) (s : string) : bool :=
  match x with VStr s' => String.eqb s' s | _ => false end.

(** [x.get], which only dictionaries have. *)
Definition as_dict (x : value) : result dict :=
  match x with VDict d => Ok d | _ => Raise AttributeError end.

(** An object used where only a string works (slicing then joining). *)
Definition as_str (x : value) : result string :=
  match x with VStr s => Ok s | _ => Raise TypeError end.

(** [for item in x]: the items a [for] loop visits. *)
Definition iterate (x : value) : result (list value) :=
  match x with
  | VList l => Ok l
  | VDict d => Ok (map VStr (PyDict.keys d))
  | VStr s => Ok (map (fun c => VStr (String c EmptyString))
                    (list_ascii_of_string s))
  | _ => Raise TypeError
  end.

(** ** The outside world

    Data exchanged with the HTTP server and with the vector index. *)

Inductive http_method : Type := GET | POST | PUT.

(** A [requests.Response]: [body] is [None] when the payload is not JSON. *)
Record response : Type := mkResponse {
  status_code : Z;
  body : option value
}.

(** Filters of [qdrant_models]: [FieldCondition(key, match=MatchValue(value))]
    and [Filter(must=..., should=..., should_score=...)]; an absent keyword
    is the empty list, respectively [None]. *)
Inductive condition : Type :=
| FieldCondition (key : string) (match_value : value)
| NestedFilter (f : filter)
with filter : Type :=
| Filter (must : list condition) (should : list condition)
         (should_score : option Z).

Record scored_point : Type := mkScoredPoint {
  sp_id : value;
  sp_score : Q;
  sp_payload : dict
}.

Record record : Type := mkRecord {
  rec_id : value;
  rec_payload : dict
}.

Record search_request : Type := mkSearch {
  search_collection : string;
  search_vector : list Q;
  search_filter : option filter;
  search_limit : Z;
  search_threshold : option Q
}.

Record scroll_request : Type := mkScroll {
  scroll_collection : string;
  scroll_filter : option filter;
  scroll_limit : Z;
  scroll_offset : option value
}.

(** The prompts of the entity extractor, one per intent. *)
Inductive extraction_prompt : Type :=
| OrderStatusPrompt
| OrderUpdatePrompt
| OrderCancelPrompt
| ProductPrompt
| StoreInfoPrompt.

(** ** Events

    One constructor per call that leaves the process.  The index of the
    family is the type of the answer; an answer of type [result X] is a call
    that may raise.  [print] and [logger] calls are not events.  The vector
    index and Redis offer write operations too (the ingestion and set-up
    scripts use them), so they are events as well. *)
Inductive event : Type -> Type :=
| HttpRequest (m : http_method) (url : string) (headers : option dict)
              (json : option value) : event (result response)
| QdrantSearch (req : search_request) : event (result (list scored_point))
| QdrantScroll (req : scroll_request)
    : event (result (list record * option value))
| QdrantUpsert (collection : string) (points : list scored_point)
    : event (result unit)
| QdrantDelete (collection : string) (ids : list value) : event (result unit)
| QdrantCreateCollection (collection : string) : event (result unit)
| QdrantDeleteCollection (collection : string) : event (result unit)
| EmbedQuery (text : string) : event (result (list Q))
| LlmClassify (examples_text history query : string) : event (result string)
| LlmExtract (p : extraction_prompt) (query : string) : event (result value)
| RedisHGetAll (key : string) : event (result (list (string * string)))
| RedisHGet (key field : string) : event (result (option string))
| RedisHSet (key field val : string) : event (result unit)
| RedisDelete (key : string) : event (result unit)
| DbConnect : event (result unit)
| DbExecute (parameters : dict) : event (result unit)
| DbCommit : event (result unit)
| DbClose : event (result unit)
| Now : event Z
| GetEnv (name : string) : event (option string)
| RoomConnect : event (result unit)
| ChatCtxAppend (role text : string) : event unit
| AgentStart : event unit
| AgentSay (text : string) : event (result unit)
| AgentParticipant : event (option string)
| SipTransfer (participant_identity : string) (room_name : option string)
              (transfer_to : string) : event (result unit)
| PathExists (path : string) : event bool
| MakeDirs (path : string) : event (result unit)
| WriteFile (path : string) (content : value) : event (result unit)
| Schedule : event bool.

(** ** Programs: finite interaction trees *)

Inductive prog (R : Type) : Type :=
| Ret (r : R)
| Vis (X : Type) (e : event X) (k : X -> prog R).

Arguments Ret {R} r.
Arguments Vis {R X} e k.

(** A computation that may raise. *)
Definition M (A : Type) : Type := prog (result A).

Definition ret {A} (a : A) : M A := Ret (Ok a).
Definition raise {A} (e : exn) : M A := Ret (Raise e).

Fixpoint bind {A B} (m : M A) (k : A -> M B) : M B :=
  match m with
  | Ret (Ok a) => k a
  | Ret (Raise e) => Ret (Raise e)
  | Vis e h => Vis e (fun x => bind (h x) k)
  end.

(** [try: m  except Exception as e: h e]. *)
Fixpoint try_catch {A} (m : M A) (h : exn -> M A) : M A :=
  match m with
  | Ret (Ok a) => Ret (Ok a)
  | Ret (Raise e) => h e
  | Vis e k => Vis e (fun x => try_catch (k x) h)
  end.

(** [try: m  finally: fin]. *)
Fixpoint try_finally {A} (m : M A) (fin : M unit) : M A :=
  match m with
  | Ret r => bind fin (fun _ => Ret r)
  | Vis e k => Vis e (fun x => try_finally (k x) fin)
  end.

(** A call that may raise, and one that does not. *)
Definition call {X} (e : event (result X)) : M X := Vis e (fun r => Ret r).
Definition perform {X} (e : event X) : M X := Vis e (fun x => Ret (Ok x)).

(** Lifting a pure step that may raise. *)
Definition lift {A} (r : result A) : M A := Ret r.

(** A list comprehension whose body may raise. *)
Fixpoint map_result {A B} (f : A -> result B) (l : list A)
  : result (list B) :=
  match l with
  | [] => Ok []
  | a :: rest =>
      match f a with
      | Ok b =>
          match map_result f rest with
          | Ok bs => Ok (b :: bs)
          | Raise e => Raise e
          end
      | Raise e => Raise e
      end
  end.

Declare Scope prog_scope.
Delimit Scope prog_scope with prog.
Notation "x <- m ;; k" := (bind m (fun x => k))
  (at level 61, m at next level, right associativity) : prog_scope.
Notation "m ;;; k" := (bind m (fun _ => k))
  (at level 61, right associativity) : prog_scope.
Local Open Scope prog_scope.

(** [await asyncio.gather(p, q)]: the two coroutines are interleaved, the
    scheduler choosing at each step which one moves. *)
Fixpoint gather {A B} (p : prog A) : prog B -> prog (A * B) :=
  fix gather_right (q : prog B) : prog (A * B) :=
    match p, q with
    | Ret a, Ret b => Ret (a, b)
    | Ret a, Vis e k => Vis e (fun x => gather_right (k x))
    | Vis e k, Ret b => Vis e (fun x => gather (k x) q)
    | Vis e k, Vis e' k' =>
        Vis Schedule (fun left : bool =>
          if left then Vis e (fun x => gather (k x) q)
          else Vis e' (fun x => gather_right (k' x)))
    end.

(** *** Running a program against a world *)

Definition handler (S : Type) : Type := forall X, event X -> S -> X * S.

Fixpoint run {S R} (h : handler S) (p : prog R) (s : S) : R * S :=
  match p with
  | Ret r => (r, s)
  | Vis e k => let (x, s') := h _ e s in run h (k x) s'
  end.

(** One exchange with the world: a call and its answer. *)
Inductive io : Type :=
| IO (X : Type) (e : event X) (x : X).

Arguments IO {X} e x.

(** [run_log h p s]: the result of [p], the final world, and the exchanges
    in the order they happened. *)
Fixpoint run_log {S R} (h : handler S) (p : prog R) (s : S)
  : R * S * list io :=
  match p with
  | Ret r => (r, s, [])
  | Vis e k =>
      let (x, s') := h _ e s in
      let '(r, s'', log) := run_log h (k x) s' in
      (r, s'', IO e x :: log)
  end.

(** Every event that [p] can ever issue satisfies [P]. *)
Fixpoint all_events {R} (P : forall X, event X -> Prop) (p : prog R) : Prop :=
  match p with
  | Ret _ => True
  | Vis e k => P _ e /\ forall x, all_events P (k x)
  end.

(** Every value that [p] can ever return satisfies [Q]. *)
Fixpoint all_leaves {R} (Q : R -> Prop) (p : prog R) : Prop :=
  match p with
  | Ret r => Q r
  | Vis e k => forall x, all_leaves Q (k x)
  end.

(** ** Regular expressions: the fragment of [re] the extractor uses

    Patterns are abstract syntax; next to each pattern of the extractor the
    Python literal is quoted.  Matching is leftmost and backtracking, with
    greedy repetition and ordered alternation, as in [re].  No pattern of the
    source repeats a body that can match the empty string, so an iteration
    that consumes nothing is never taken. *)

Module Re.

Local Open Scope nat_scope.

Inductive class_item : Type :=
| CChar (c : ascii)
| CRange (lo hi : ascii)
| CDigit
| CSpace.

Inductive regex : Type :=
| Eps
| Lit (c : ascii)
| Class (negated : bool) (items : list class_item)
| WordBoundary
| Seq (r1 r2 : regex)
| Alt (r1 r2 : regex)
| Repeat (r : regex) (min : nat) (max : option nat)
| Group (n : nat) (r : regex).

Definition upper_char (c : ascii) : ascii :=
  if PyStr.is_ascii_lower c || PyStr.in_range 224 246 c
     || PyStr.in_range 248 254 c
  then ascii_of_N (PyStr.code c - 32) else c.

Definition item_matches (x : ascii) (i : class_item) : bool :=
  match i with
  | CChar c => Ascii.eqb x c
  | CRange lo hi => PyStr.in_range (PyStr.code lo) (PyStr.code hi) x
  | CDigit => PyStr.is_digit x
  | CSpace => PyStr.is_space x
  end.

Definition in_class (icase : bool) (items : list class_item) (x : ascii)
  : bool :=
  existsb (item_matches x) items
  || (icase && (existsb (item_matches (PyStr.lower_char x)) items
                || existsb (item_matches (upper_char x)) items)).

Definition lit_matches (icase : bool) (c x : ascii) : bool :=
  if icase then Ascii.eqb (PyStr.lower_char c) (PyStr.lower_char x)
  else Ascii.eqb c x.

(** A position in the subject: the character before it, what remains, and
    its index. *)
Record cursor : Type := mkCursor {
  cur_prev : option ascii;
  cur_rest : list ascii;
  cur_pos : nat
}.

Definition captures : Type := list (nat * (nat * nat)).

Definition step_char (p : ascii -> bool) (c : cursor) : option cursor :=
  match cur_rest c with
  | x :: rest => if p x then Some (mkCursor (Some x) rest (S (cur_pos c)))
                 else None
  | [] => None
  end.

Definition opt_word (o : option ascii) : bool :=
  match o with Some x => PyStr.is_word x | None => false end.

Definition at_boundary (c : cursor) : bool :=
  xorb (opt_word (cur_prev c)) (opt_word (hd_error (cur_rest c))).

Definition under (count : nat) (max : option nat) : bool :=
  match max with Some m => count <? m | None => true end.

Definition cont : Type := cursor -> captures -> option (cursor * captures).

Fixpoint go (icase : bool) (r : regex) (c : cursor) (caps : captures)
  (k : cont) {struct r} : option (cursor * captures) :=
  match r with
  | Eps => k c caps
  | Lit ch =>
      match step_char (lit_matches icase ch) c with
      | Some c' => k c' caps
      | None => None
      end
  | Class neg items =>
      match step_char (fun x => xorb neg (in_class icase items x)) c with
      | Some c' => k c' caps
      | None => None
      end
  | WordBoundary => if at_boundary c then k c caps else None
  | Seq r1 r2 => go icase r1 c caps (fun c' caps' => go icase r2 c' caps' k)
  | Alt r1 r2 =>
      match go icase r1 c caps k with
      | Some m => Some m
      | None => go icase r2 c caps k
      end
  | Repeat body mn mx =>
      (fix loop (fuel count : nat) (c : cursor) (caps : captures)
         : option (cursor * captures) :=
         match fuel with
         | O => None
         | S fuel' =>
             let more :=
               if under count mx then
                 go icase body c caps (fun c' caps' =>
                   if cur_pos c <? cur_pos c'
                   then loop fuel' (S count) c' caps' else None)
               else None in
             match more with
             | Some m => Some m
             | None => if mn <=? count then k c caps else None
             end
         end) (S (length (cur_rest c))) O c caps
  | Group n body =>
      go icase body c caps (fun c' caps' =>
        k c' ((n, (cur_pos c, cur_pos c')) :: caps'))
  end.

(** A match object: the subject, the span of the match and of its groups. *)
Record match_object : Type := mkMatch {
  m_subject : list ascii;
  m_start : nat;
  m_end : nat;
  m_caps : captures
}.

Definition slice (l : list ascii) (i j : nat) : string :=
  string_of_list_ascii (firstn (j - i) (skipn i l)).

Fixpoint find_cap (n : nat) (caps : captures) : option (nat * nat) :=
  match caps with
  | [] => None
  | (m, span) :: rest => if n =? m then Some span else find_cap n rest
  end.

(** [m.group(n)] for a group that took part in the match; [m.group(0)] is
    the whole match. *)
Definition group (m : match_object) (n : nat) : string :=
  match n with
  | O => slice (m_subject m) (m_start m) (m_end m)
  | _ => match find_cap n (m_caps m) with
         | Some (i, j) => slice (m_subject m) i j
         | None => ""
         end
  end.

(** The first match that starts at or after the cursor. *)
Fixpoint search_from (icase : bool) (r : regex) (subject : list ascii)
  (fuel : nat) (c : cursor) : option match_object :=
  match go icase r c [] (fun c' caps' => Some (c', caps')) with
  | Some (c', caps') =>
      Some (mkMatch subject (cur_pos c) (cur_pos c') caps')
  | None =>
      match fuel, cur_rest c with
      | S fuel', x :: rest =>
          search_from icase r subject fuel'
            (mkCursor (Some x) rest (S (cur_pos c)))
      | _, _ => None
      end
  end.

(** [re.search(pattern, subject)], with [icase] for [re.IGNORECASE]. *)
Definition search (icase : bool) (r : regex) (subject : string)
  : option match_object :=
  let l := list_ascii_of_string subject in
  search_from icase r l (length l) (mkCursor None l O).

(** The cursor at index [i] of the subject. *)
Fixpoint cursor_at (prev : option ascii) (l : list ascii) (pos i : nat)
  : cursor :=
  match i, l with
  | S i', x :: rest => cursor_at (Some x) rest (S pos) i'
  | _, _ => mkCursor prev l pos
  end.

(** [re.findall(pattern, subject)] for a pattern without groups: the
    successive non-overlapping matches. *)
Fixpoint findall_from (icase : bool) (r : regex) (subject : list ascii)
  (fuel : nat) (i : nat) : list string :=
  match fuel with
  | O => []
  | S fuel' =>
      match search_from icase r subject (length subject)
              (cursor_at None subject O i) with
      | Some m =>
          slice subject (m_start m) (m_end m)
          :: findall_from icase r subject fuel'
               (if m_start m <? m_end m then m_end m else S (m_end m))
      | None => []
      end
  end.

Definition findall (icase : bool) (r : regex) (subject : string)
  : list string :=
  let l := list_ascii_of_string subject in
  findall_from icase r l (S (length l)) O.

(** [re.sub(r'[^\d+]', '', s)]: keep the digits and the plus signs. *)
Fixpoint keep_digits_plus (s : string) : string :=
  match s with
  | EmptyString => EmptyString
  | String c s' =>
      if PyStr.is_digit c || Ascii.eqb c "+"%char
      then String c (keep_digits_plus s') else keep_digits_plus s'
  end.

(** *** Pattern combinators *)

Fixpoint str (s : string) : regex :=
  match s with
  | EmptyString => Eps
  | String c EmptyString => Lit c
  | String c s' => Seq (Lit c) (str s')
  end.

Fixpoint seq (l : list regex) : regex :=
  match l with
  | [] => Eps
  | [r] => r
  | r :: rest => Seq r (seq rest)
  end.

Fixpoint alt (l : list regex) : regex :=
  match l with
  | [] => Eps
  | [r] => r
  | r :: rest => Alt r (alt rest)
  end.

Definition star (r : regex) : regex := Repeat r 0 None.
Definition plus (r : regex) : regex := Repeat r 1 None.
Definition opt (r : regex) : regex := Repeat r 0 (Some 1).
Definition digit : regex := Class false [CDigit].
Definition space : regex := Class false [CSpace].

End Re.

(** ** [intent_classifier.py] *)

Module IntentClassifier.

Import Re.
Local Open Scope string_scope.

Definition nl : string := String (ascii_of_nat 10) EmptyString.

(** [self.intents]. *)
Definition intents : list string :=
  ["product"; "order"; "update_order"; "cancel_order"; "store_info";
   "general"].

(** [self.intent_examples]. *)
Definition intent_examples : list (string * list string) :=
  [("product",
    ["Do you have any blue t-shirts?";
     "What products do you sell?";
     "Tell me about your bestselling items";
     "How much does this product cost?";
     "Can you recommend something similar to this?";
     "Do you have this in other colors?";
     "What are the features of this product?";
     "Is this product in stock?";
     "When will this item be available?"]);
   ("order",
    ["Where is my order?";
     "Can you check the status of my order?";
     "Has my order shipped yet?";
     "When will my order arrive?";
     "I want to track my order";
     "Can you tell me about my recent purchase?";
     "I haven't received my order yet";
     "Is my order being delivered today?";
     "What's the status of order #12345?"]);
   ("update_order",
    ["I need to change my shipping address";
     "Can I update my email on my order?";
     "I entered the wrong phone number for my order";
     "I want to change the delivery option";
     "Need to modify my recent purchase";
     "Can you update my contact information?";
     "I put in the wrong address for my order";
     "Change my order details";
     "Update my order information"]);
   ("cancel_order",
    ["I want to cancel my order";
     "How do I get a refund?";
     "I changed my mind about my purchase";
     "Please cancel order #12345";
     "I don't want this order anymore";
     "Can I return this item?";
     "I need to cancel my recent purchase";
     "Stop my order from being processed";
     "Cancel my entire order"]);
   ("store_info",
    ["What are your store hours?";
     "Where is your store located?";
     "Tell me about your return policy";
     "How can I contact the store?";
     "What payment methods do you accept?";
     "Do you offer international shipping?";
     "What is your refund policy?";
     "How long does shipping take?";
     "Tell me about your company"]);
   ("general",
    ["Hello there";
     "Thanks for your help";
     "Goodbye";
     "Who are you?";
     "What can you help me with?";
     "I need assistance";
     "Can you help me?";
     "I have a question";
     "Good morning"])].

(** The examples block of the prompt: three examples for each intent. *)
Definition examples_text : string :=
  fold_left
    (fun acc entry =>
       fold_left
         (fun acc example =>
            acc ++ nl ++ "Query: " ++ example ++ nl
                ++ "Intent: " ++ fst entry ++ nl)
         (firstn 3 (snd entry)) acc)
    intent_examples "".

(** [classify_intent(history, query)].  The chain
    [prompt_template | self.llm | StrOutputParser()] is the event
    [LlmClassify]; the fixed instruction text of the prompt stays outside the
    model. *)
Definition classify_intent (history query : string) : M string :=
  (response <- call (LlmClassify examples_text history query) ;;
   let intent := PyStr.lower (PyStr.strip response) in
   if negb (PyStr.mem intent intents) then
     ret "store_info"
   else
     ret intent)%prog.

(** *** Patterns of the fallback extractor *)

(** [(?:is|:)?]. *)
Definition is_or_colon : regex := opt (alt [str "is"; Lit ":"]).

(** [[^\.,]+]. *)
Definition up_to_stop : regex := plus (Class true [CChar "."; CChar ","]).

(** [[-.\s]?]. *)
Definition sep : regex := opt (Class false [CChar "-"; CChar "."; CSpace]).

(** The four patterns of [extract_order_id_regex]:
    - [order\s+(?:#|number|id|no\.?)\s*(\d+)]
    - [order\s+(\d+)]
    - [#(\d+)]
    - [(\d{6,})]. *)
Definition order_id_patterns : list regex :=
  [seq [str "order"; plus space;
        alt [Lit "#"; str "number"; str "id"; Seq (str "no") (opt (Lit "."))];
        star space; Group 1 (plus digit)];
   seq [str "order"; plus space; Group 1 (plus digit)];
   seq [Lit "#"; Group 1 (plus digit)];
   Group 1 (Repeat digit 6 None)].

(** [[a-zA-Z0-9._%+-]+@[a-zA-Z0-9.-]+\.[a-zA-Z]{2,}]. *)
Definition email_pattern : regex :=
  seq [plus (Class false [CRange "a" "z"; CRange "A" "Z"; CRange "0" "9";
                          CChar "."; CChar "_"; CChar "%"; CChar "+";
                          CChar "-"]);
       Lit "@";
       plus (Class false [CRange "a" "z"; CRange "A" "Z"; CRange "0" "9";
                          CChar "."; CChar "-"]);
       Lit ".";
       Repeat (Class false [CRange "a" "z"; CRange "A" "Z"]) 2 None].

(** The three patterns of [extract_phone_regex]:
    - [\b(?:\+\d{1,3}[-.\s]?)?(?:\(?\d{3}\)?[-.\s]?)?(?:\d{3}[-.\s]?\d{4})\b]
    - [\b\d{10}\b]
    - [\b\d{3}[-.\s]?\d{3}[-.\s]?\d{4}\b]. *)
Definition phone_patterns : list regex :=
  [seq [WordBoundary;
        opt (seq [Lit "+"; Repeat digit 1 (Some 3); sep]);
        opt (seq [opt (Lit "("); Repeat digit 3 (Some 3); opt (Lit ")"); sep]);
        seq [Repeat digit 3 (Some 3); sep; Repeat digit 4 (Some 4)];
        WordBoundary];
   seq [WordBoundary; Repeat digit 10 (Some 10); WordBoundary];
   seq [WordBoundary; Repeat digit 3 (Some 3); sep; Repeat digit 3 (Some 3);
        sep; Repeat digit 4 (Some 4); WordBoundary]].

(** [address_patterns]:
    - [address(?:\s+\d+)?\s+(?:is|:)?\s+([^\.,]+)], key [address1]
    - [address\s*line\s*1\s*(?:is|:)?\s+([^\.,]+)], key [address1]
    - [address\s*line\s*2\s*(?:is|:)?\s+([^\.,]+)], key [address2]. *)
Definition address_patterns : list (regex * string) :=
  [(seq [str "address"; opt (seq [plus space; plus digit]); plus space;
         is_or_colon; plus space; Group 1 up_to_stop], "address1");
   (seq [str "address"; star space; str "line"; star space; Lit "1";
         star space; is_or_colon; plus space; Group 1 up_to_stop],
    "address1");
   (seq [str "address"; star space; str "line"; star space; Lit "2";
         star space; is_or_colon; plus space; Group 1 up_to_stop],
    "address2")].

(** [<keywords>\s+(?:is|:)?\s+(<value>)]. *)
Definition field_pattern (keywords : list string) (val : regex) : regex :=
  seq [alt (map str keywords); plus space; is_or_colon; plus space;
       Group 1 val].

(** [city\s+(?:is|:)?\s+([^\.,]+)]. *)
Definition city_pattern : regex := field_pattern ["city"] up_to_stop.

(** [(?:last name|surname|family name)\s+(?:is|:)?\s+([^\.,]+)]. *)
Definition name_pattern : regex :=
  field_pattern ["last name"; "surname"; "family name"] up_to_stop.

(** [country\s+(?:is|:)?\s+([^\.,]+)]. *)
Definition country_pattern : regex := field_pattern ["country"] up_to_stop.

(** [(?:zip|postal|zip code|postal code)\s+(?:is|:)?\s+([^\.,\s]+)]. *)
Definition zip_pattern : regex :=
  field_pattern ["zip"; "postal"; "zip code"; "postal code"]
    (plus (Class true [CChar "."; CChar ","; CSpace])).

(** [(?:state|province)\s+(?:is|:)?\s+([^\.,]+)]. *)
Definition state_pattern : regex :=
  field_pattern ["state"; "province"] up_to_stop.

(** [\b(?:shirt|shoes|jacket|pants|dress|product|item)\b]. *)
Definition product_words_pattern : regex :=
  seq [WordBoundary;
       alt (map str ["shirt"; "shoes"; "jacket"; "pants"; "dress"; "product";
                     "item"]);
       WordBoundary].

(** *** Regex helper methods *)

Fixpoint extract_order_id_from (patterns : list regex) (query : string)
  : option string :=
  match patterns with
  | [] => None
  | pattern :: rest =>
      match search true pattern query with
      | Some matches => Some (group matches 1)
      | None => extract_order_id_from rest query
      end
  end.

Definition extract_order_id_regex (query : string) : option string :=
  extract_order_id_from order_id_patterns query.

Definition extract_email_regex (query : string) : option string :=
  match search false email_pattern query with
  | Some matches => Some (group matches 0)
  | None => None
  end.

Fixpoint extract_phone_from (patterns : list regex) (query : string)
  : option string :=
  match patterns with
  | [] => None
  | pattern :: rest =>
      match search false pattern query with
      | Some matches => Some (keep_digits_plus (group matches 0))
      | None => extract_phone_from rest query
      end
  end.

Definition extract_phone_regex (query : string) : option string :=
  extract_phone_from phone_patterns query.

(** [if m: info[key] = m.group(1).strip()]. *)
Definition set_group (pattern : regex) (key : string) (query : string)
  (info : dict) : dict :=
  match search true pattern query with
  | Some matches =>
      PyDict.set key (VStr (PyStr.strip (group matches 1))) info
  | None => info
  end.

Definition extract_address_info_regex (query : string) : dict :=
  let address_info :=
    fold_left (fun info pk => set_group (fst pk) (snd pk) query info)
      address_patterns [] in
  let address_info := set_group city_pattern "city" query address_info in
  let address_info := set_group name_pattern "last_name" query address_info in
  let address_info := set_group country_pattern "country" query address_info in
  let address_info := set_group zip_pattern "zip" query address_info in
  set_group state_pattern "province_code" query address_info.

(** *** Fallback regex-based extraction methods *)

Definition extract_order_entities_regex (query : string) : dict :=
  set_if "order_id" (extract_order_id_regex query) [].

Definition extract_update_order_entities_regex (query : string) : dict :=
  let entities := set_if "order_id" (extract_order_id_regex query) [] in
  let entities := set_if "email" (extract_email_regex query) entities in
  let entities := set_if "phone" (extract_phone_regex query) entities in
  let address_info := extract_address_info_regex query in
  if truthy (VDict address_info) then PyDict.update entities address_info
  else entities.

Definition extract_cancel_order_entities_regex (query : string) : dict :=
  set_if "order_id" (extract_order_id_regex query) [].

(** *** Prompted extraction with its fallbacks

    The chain [prompt | self.llm | JsonOutputParser()] and its [invoke] are
    the event [LlmExtract]; it answers the parsed JSON value or raises.  The
    templates are built before the [try]; their text holds no brace but
    that of [query], so they are well formed. *)

Definition extract_order_entities (query : string) : M value :=
  try_catch (call (LlmExtract OrderStatusPrompt query))
    (fun _ => ret (VDict (extract_order_entities_regex query))).

Definition extract_update_order_entities (query : string) : M value :=
  try_catch (call (LlmExtract OrderUpdatePrompt query))
    (fun _ => ret (VDict (extract_update_order_entities_regex query))).

Definition extract_cancel_order_entities (query : string) : M value :=
  try_catch (call (LlmExtract OrderCancelPrompt query))
    (fun _ => ret (VDict (extract_cancel_order_entities_regex query))).

Definition extract_product_entities (query : string) : M value :=
  try_catch (call (LlmExtract ProductPrompt query))
    (fun _ =>
       let product_words := findall true product_words_pattern query in
       ret (VDict [("product_keywords", VList (map VStr product_words))])).

Definition extract_store_info_entities (query : string) : M value :=
  try_catch (call (LlmExtract StoreInfoPrompt query))
    (fun _ => ret (VDict [("query_type", VStr "store_info")])).

Definition extract_basic_entities (query : string) : M value :=
  ret (VDict [("query", VStr query)]).

(** [extract_entities(query, intent)]. *)
Definition extract_entities (query intent : string) : M value :=
  if String.eqb intent "order" then extract_order_entities query
  else if String.eqb intent "update_order" then
    extract_update_order_entities query
  else if String.eqb intent "cancel_order" then
    extract_cancel_order_entities query
  else if String.eqb intent "product" then extract_product_entities query
  else if String.eqb intent "store_info" then
    extract_store_info_entities query
  else extract_basic_entities query.

(** A call [self.classify_intent(...)] with positional arguments: the method
    has the two parameters [history] and [query], neither with a default, so
    any other number of arguments is a [TypeError]. *)
Definition classify_intent_call (args : list string) : M string :=
  match args with
  | [history; query] => classify_intent history query
  | _ => raise TypeError
  end.

(** [process_query(query)]. *)
Definition process_query (query : string) : M value :=
  (* Classify intent *)
  (intent <- classify_intent_call [query] ;;
   (* Extract entities based on intent *)
   entities <- extract_entities query intent ;;
   (* Return results *)
   ret (VDict [("intent", VStr intent);
               ("entities", entities);
               ("query", VStr query)]))%prog.

End IntentClassifier.

(** ** [shopify_handler.py] *)

Module Shopify.

Local Open Scope string_scope.

(** Required fields to filter order information. *)
Definition required_fields : list string :=
  ["id"; "order_number"; "created_at"; "updated_at"; "processed_at";
   "financial_status"; "fulfillment_status"; "total_price"; "subtotal_price";
   "total_tax"; "currency"; "email"; "phone"; "line_items";
   "shipping_address"; "fulfillments"; "payment_gateway_names";
   "total_discounts"; "total_weight"; "tags"].

(** [ShopifyDataCollector]. *)
Record collector : Type := mkCollector {
  temp_storage_path : string;
  access_token : option string;
  BASE_URL : option string;
  shop_name : option string;
  headers : option dict
}.

(** The shop name inside a URL such as
    [https://shop-name.myshopify.com/admin/api/2025-01]. *)
Definition shop_name_of (shopify_base_url : option string) : option string :=
  if opt_truthy shopify_base_url then
    match PyStr.split "//" (opt_str shopify_base_url) with
    | _ :: part :: _ =>
        let domain := hd "" (PyStr.split "/" part) in
        Some (hd "" (PyStr.split "." domain))
    | _ => None
    end
  else None.

(** [ShopifyDataCollector.__init__]. *)
Definition __init__ (shopify_access_token shopify_base_url : option string)
  (temp_storage_path : string) : M collector :=
  (let self :=
     mkCollector temp_storage_path shopify_access_token shopify_base_url
       (shop_name_of shopify_base_url)
       (if opt_truthy shopify_access_token then
          Some [("Content-Type", VStr "application/json");
                ("X-Shopify-Access-Token", opt_value shopify_access_token)]
        else None) in
   exists_ <- perform (PathExists temp_storage_path) ;;
   if negb exists_ then
     call (MakeDirs temp_storage_path) ;;; ret self
   else ret self)%prog.

(** The decorator [_handle_auth_error] around the body [func] of a method.
    A method never returns a [requests.Response], so the test on the result
    of [func] never fires. *)
Definition _handle_auth_error (self : collector) (func : M value) : M value :=
  try_catch
    (if negb (truthy (match headers self with
                      | Some h => VDict h | None => VNone end))
        || negb (opt_truthy (BASE_URL self))
     then ret VNone
     else func)
    (fun e =>
       match e with
       | HTTPError status =>
           if (status =? 401)%Z then ret VNone else raise e
       | _ => ret VNone
       end).

(** [response.raise_for_status()]. *)
Definition raise_for_status (r : response) : M unit :=
  if ((400 <=? status_code r) && (status_code r <? 600))%Z
  then raise (HTTPError (status_code r))
  else ret tt.

(** [response.json()]. *)
Definition json (r : response) : M value :=
  match body r with
  | Some v => ret v
  | None => raise JSONDecodeError
  end.

(** [requests.get(url, headers=self.headers)] followed by
    [response.raise_for_status()]. *)
Definition get_checked (self : collector) (url : string) : M response :=
  (response <- call (HttpRequest GET url (headers self) None) ;;
   raise_for_status response ;;;
   ret response)%prog.

Section Methods.

Context `{PyText}.

(** The customer whose [phone] is the one asked for. *)
Fixpoint find_customer (phone : option string) (customers : list value)
  : result value :=
  match customers with
  | [] => Ok VNone
  | customer :: rest =>
      match as_dict customer with
      | Ok c =>
          if match phone, PyDict.get "phone" c with
             | Some p, v => eq_str v p
             | None, VNone => true
             | None, _ => false
             end
          then Ok (PyDict.get "id" c)
          else find_customer phone rest
      | Raise e => Raise e
      end
  end.

(** [fetch_customer_id(phone)]. *)
Definition fetch_customer_id (self : collector) (phone : option string)
  : M value :=
  _handle_auth_error self
    (let url := opt_str (BASE_URL self) ++ "/customers.json?phone="
                ++ opt_str phone in
     let url := if negb (PyStr.contains "https://" url)
                then "https://" ++ url else url in
     response <- get_checked self url ;;
     data_customers <- json response ;;
     d <- lift (as_dict data_customers) ;;
     customers <- lift (iterate (PyDict.get_default "customers" (VList []) d)) ;;
     lift (find_customer phone customers))%prog.

(** [{key: order.get(key) for key in required_fields}]. *)
Definition required_of (order : dict) : dict :=
  fold_left (fun acc key => PyDict.set key (PyDict.get key order) acc)
    required_fields [].

(** [{'customer_id': customer_id, **{...}}]. *)
Definition filter_order (customer_id : value) (order : dict) : dict :=
  PyDict.update [("customer_id", customer_id)] (required_of order).

(** [get_customer_orders(customer_id)]: both the [else] branch and the
    [except] clause fall through to the final [return None]. *)
Definition get_customer_orders (self : collector) (customer_id : value)
  : M value :=
  _handle_auth_error self
    (try_catch
       (let url := opt_str (BASE_URL self) ++ "/orders.json?query=customer_id:"
                   ++ py_str customer_id ++ "&status=any" in
        response <- get_checked self url ;;
        data <- json response ;;
        d <- lift (as_dict data) ;;
        let orders := PyDict.get_default "orders" (VList []) d in
        if truthy orders then
          items <- lift (iterate orders) ;;
          filtered_orders <-
            lift (map_result
                    (fun order =>
                       match as_dict order with
                       | Ok o => Ok (VDict (filter_order customer_id o))
                       | Raise e => Raise e
                       end) items) ;;
          ret (VList filtered_orders)
        else ret VNone)
       (fun _ => ret VNone))%prog.

(** [get_all_orders()]. *)
Definition get_all_orders (self : collector) : M value :=
  _handle_auth_error self
    (try_catch
       (let url := opt_str (BASE_URL self) ++ "/orders.json" in
        response <- get_checked self url ;;
        data <- json response ;;
        d <- lift (as_dict data) ;;
        ret (PyDict.get_default "orders" (VList []) d))
       (fun _ => ret VNone))%prog.

(** [cancel_order(order_id, reason)]. *)
Definition cancel_order (self : collector) (order_id : string)
  (reason : option string) : M value :=
  _handle_auth_error self
    (try_catch
       (let url := opt_str (BASE_URL self) ++ "/orders/" ++ order_id
                   ++ "/cancel.json" in
        let data := if opt_truthy reason
                    then [("reason", opt_value reason)] else [] in
        response <- call (HttpRequest POST url (headers self)
                            (Some (VDict data))) ;;
        raise_for_status response ;;;
        ret (VBool true))
       (fun _ => ret (VBool false)))%prog.

(** Step 3 of [update_order]: the update payload. *)
Definition update_payload (order_id : string)
  (email phone address1 address2 city last_name province_code country zip1
     : option string) : value :=
  let order := [("id", VStr order_id)] in
  let order := if opt_truthy email
               then PyDict.set "contact_email" (opt_value email)
                      (PyDict.set "email" (opt_value email) order)
               else order in
  let order := set_if "phone" phone order in
  let order :=
    if opt_truthy address1 || opt_truthy address2 || opt_truthy city
       || opt_truthy last_name || opt_truthy country
       || opt_truthy province_code || opt_truthy zip1
    then
      let shipping_address := set_if "address1" address1 [] in
      let shipping_address := set_if "address2" address2 shipping_address in
      let shipping_address := set_if "city" city shipping_address in
      let shipping_address := set_if "last_name" last_name shipping_address in
      let shipping_address := set_if "country" country shipping_address in
      let shipping_address :=
        set_if "province_code" province_code shipping_address in
      let shipping_address := set_if "province" zip1 shipping_address in
      PyDict.set "shipping_address" (VDict shipping_address) order
    else order in
  VDict [("order", VDict order)].

(** [update_order(order_id, email, phone, address1, ..., zip1)]. *)
Definition update_order (self : collector) (order_id : string)
  (email phone address1 address2 city last_name province_code country zip1
     : option string) : M value :=
  _handle_auth_error self
    (try_catch
       ((* Step 1: retrieve the current order details *)
        let url := opt_str (BASE_URL self) ++ "/orders/" ++ order_id
                   ++ ".json" in
        response <- get_checked self url ;;
        data <- json response ;;
        d <- lift (as_dict data) ;;
        let order_data := PyDict.get "order" d in
        if negb (truthy order_data) then ret VNone
        else
          (* Step 2: check fulfillment and cancellation status *)
          o <- lift (as_dict order_data) ;;
          let fulfillment_status := PyDict.get "fulfillment_status" o in
          let cancelled_at := PyDict.get "cancelled_at" o in
          if eq_str fulfillment_status "fulfilled" then ret VNone
          else if match cancelled_at with VNone => false | _ => true end
          then ret VNone
          else
            (* Step 3: prepare the update payload *)
            let update_data :=
              update_payload order_id email phone address1 address2 city
                last_name province_code country zip1 in
            (* Step 4: update the order *)
            response <- call (HttpRequest PUT url (headers self)
                                (Some update_data)) ;;
            raise_for_status response ;;;
            data <- json response ;;
            d <- lift (as_dict data) ;;
            let order_data := PyDict.get "order" d in
            if truthy order_data then
              call (WriteFile ("order_" ++ order_id ++ ".json") order_data) ;;;
              ret order_data
            else ret order_data)
       (fun _ => ret VNone))%prog.

(** [get_customer_by_id(customer_id)]. *)
Definition get_customer_by_id (self : collector) (customer_id : string)
  : M value :=
  _handle_auth_error self
    (try_catch
       (let url := opt_str (BASE_URL self) ++ "/customers/" ++ customer_id
                   ++ ".json" in
        response <- get_checked self url ;;
        data <- json response ;;
        d <- lift (as_dict data) ;;
        ret (PyDict.get "customer" d))
       (fun _ => ret VNone))%prog.

(** [get_all_customers()]. *)
Definition get_all_customers (self : collector) : M value :=
  _handle_auth_error self
    (try_catch
       (let url := opt_str (BASE_URL self) ++ "/customers.json" in
        response <- get_checked self url ;;
        data <- json response ;;
        d <- lift (as_dict data) ;;
        ret (PyDict.get_default "customers" (VList []) d))
       (fun _ => ret VNone))%prog.

(** [get_all_products()]. *)
Definition get_all_products (self : collector) : M value :=
  _handle_auth_error self
    (try_catch
       (let url := opt_str (BASE_URL self) ++ "/products.json" in
        response <- get_checked self url ;;
        data <- json response ;;
        d <- lift (as_dict data) ;;
        let products := PyDict.get_default "products" (VList []) d in
        ret products)
       (fun _ => ret VNone))%prog.

(** [get_product_by_id(product_id)]. *)
Definition get_product_by_id (self : collector) (product_id : string)
  : M value :=
  _handle_auth_error self
    (try_catch
       (let url := opt_str (BASE_URL self) ++ "/products/" ++ product_id
                   ++ ".json" in
        response <- get_checked self url ;;
        data <- json response ;;
        d <- lift (as_dict data) ;;
        ret (PyDict.get "product" d))
       (fun _ => ret VNone))%prog.

(** [get_shop_details()]. *)
Definition get_shop_details (self : collector) : M value :=
  _handle_auth_error self
    (try_catch
       (let url := opt_str (BASE_URL self) ++ "/shop.json" in
        response <- get_checked self url ;;
        data <- json response ;;
        d <- lift (as_dict data) ;;
        ret (PyDict.get "shop" d))
       (fun _ => ret VNone))%prog.

End Methods.

End Shopify.

(** ** [retrieved_documents.py] *)

Module Qdrant.

Local Open Scope string_scope.
Local Open Scope prog_scope.

(** [QdrantSearcher]: the two collections it reads. *)
Record searcher : Type := mkSearcher {
  document_collection : string;
  product_collection : string
}.

(** [QdrantSearcher()] with its default arguments. *)
Definition default_searcher : searcher :=
  mkSearcher "document_store" "softmaxai-parshva.myshopify.com".

(** [_get_embedding(text)]. *)
Definition _get_embedding (text : string) : M (list Q) :=
  call (EmbedQuery text).

(** [FieldCondition(key=key, match=MatchValue(value=v))]. *)
Definition field_eq (key : string) (v : value) : condition :=
  FieldCondition key v.

(** [Filter(must=conditions)]. *)
Definition must_filter (conditions : list condition) : filter :=
  Filter conditions [] None.

(** The first point that carries [store_details]. *)
Fixpoint first_with_details (store_name : option string)
  (points : list record) : option value :=
  match points with
  | [] => None
  | point :: rest =>
      if PyDict.has_key "store_details" (rec_payload point) then
        Some (VDict
          [("store_name", opt_value store_name);
           ("store_details", PyDict.get "store_details" (rec_payload point));
           ("source",
            PyDict.get_default "source" (VStr "Unknown") (rec_payload point))])
      else first_with_details store_name rest
  end.

(** [get_store_details(store_name)]. *)
Definition get_store_details (self : searcher) (store_name : option string)
  : M value :=
  try_catch
    (let search_filter :=
       must_filter [field_eq "store" (opt_value store_name)] in
     page <- call (QdrantScroll
                     (mkScroll (document_collection self) (Some search_filter)
                        100 None)) ;;
     let points := fst page in
     match first_with_details store_name points with
     | Some details => ret details
     | None =>
         match points with
         | [] => ret VNone
         | _ =>
             query_embedding <-
               _get_embedding "store information description about" ;;
             search_results <-
               call (QdrantSearch
                       (mkSearch (document_collection self) query_embedding
                          (Some search_filter) 5 None)) ;;
             match search_results with
             | [] => ret VNone
             | _ =>
                 texts <-
                   lift (map_result
                           (fun r =>
                              match as_str (PyDict.get_default "text" (VStr "")
                                              (sp_payload r)) with
                              | Ok t => Ok (substring 0 1000 t)
                              | Raise e => Raise e
                              end) search_results) ;;
                 let combined_text :=
                   PyStr.join (IntentClassifier.nl ++ IntentClassifier.nl)
                     texts in
                 ret (VDict
                   [("store_name", opt_value store_name);
                    ("store_details",
                     VStr ("Store information compiled from "
                           ++ PyStr.of_Z (Z.of_nat (length search_results))
                           ++ " documents"));
                    ("text_sample",
                     VStr (substring 0 500 combined_text ++ "..."));
                    ("note",
                     VStr "No explicit store_details found; this is compiled from relevant documents")])
             end
         end
     end)
    (fun _ => ret VNone).

(** [if x: conditions.append(FieldCondition(key, MatchValue(x)))]. *)
Definition append_if (key : string) (x : option string)
  (conditions : list condition) : list condition :=
  if opt_truthy x then conditions ++ [field_eq key (opt_value x)]
  else conditions.

(** The filter conditions of [search_documents]. *)
Definition document_conditions (store_name doc_type source : option string)
  : list condition :=
  append_if "source" source
    (append_if "type" doc_type (append_if "store" store_name [])).

(** One formatted document. *)
Definition format_document (r : scored_point) : value :=
  VDict
    [("id", sp_id r);
     ("score", VFloat (sp_score r));
     ("text", PyDict.get_default "text" (VStr "") (sp_payload r));
     ("metadata",
      VDict (List.filter (fun kv => negb (String.eqb (fst kv) "text"))
               (sp_payload r)))].

(** [search_documents(query, store_name, doc_type, source, limit,
    score_threshold)]. *)
Definition search_documents (self : searcher) (query : string)
  (store_name doc_type source : option string) (limit : Z)
  (score_threshold : Q) : M value :=
  try_catch
    (query_embedding <- _get_embedding query ;;
     let filter_conditions :=
       document_conditions store_name doc_type source in
     let search_filter :=
       match filter_conditions with
       | [] => None
       | _ => Some (must_filter filter_conditions)
       end in
     search_results <-
       call (QdrantSearch
               (mkSearch (document_collection self) query_embedding
                  search_filter limit (Some score_threshold))) ;;
     ret (VList (map format_document search_results)))
    (fun _ => ret (VList []))%prog.

(** The filter conditions of [search_products]: the product type first,
    then the optional equalities, then the alternative over the tags.  The
    constructors of [qdrant_models] are data here; were the client library to
    refuse one of their keywords, the [except] clause of [search_products]
    would return the empty list. *)
Definition product_conditions (store_name product_type vendor : option string)
  (tags : option (list string)) : list condition :=
  let filter_conditions := [field_eq "type" (VStr "shopify_product")] in
  let filter_conditions := append_if "store" store_name filter_conditions in
  let filter_conditions :=
    append_if "product_type" product_type filter_conditions in
  let filter_conditions := append_if "vendor" vendor filter_conditions in
  match tags with
  | Some (tag :: rest) =>
      let tag_conditions :=
        map (fun tag => field_eq "tags" (VStr tag)) (tag :: rest) in
      filter_conditions ++ [NestedFilter (Filter [] tag_conditions (Some 1%Z))]
  | _ => filter_conditions
  end.

(** One formatted product. *)
Definition format_product (r : scored_point) : value :=
  VDict
    [("id", sp_id r);
     ("score", VFloat (sp_score r));
     ("title", PyDict.get_default "title" (VStr "") (sp_payload r));
     ("product_id", PyDict.get_default "product_id" (VStr "") (sp_payload r));
     ("vendor", PyDict.get_default "vendor" (VStr "") (sp_payload r));
     ("product_type",
      PyDict.get_default "product_type" (VStr "") (sp_payload r));
     ("tags", PyDict.get_default "tags" (VList []) (sp_payload r));
     ("store", PyDict.get_default "store" (VStr "") (sp_payload r))].

(** [search_products(query, store_name, product_type, vendor, tags, limit,
    score_threshold)]. *)
Definition search_products (self : searcher) (query : string)
  (store_name product_type vendor : option string)
  (tags : option (list string)) (limit : Z) (score_threshold : Q) : M value :=
  try_catch
    (query_embedding <- _get_embedding query ;;
     let search_filter :=
       must_filter (product_conditions store_name product_type vendor tags) in
     search_results <-
       call (QdrantSearch
               (mkSearch (product_collection self) query_embedding
                  (Some search_filter) limit (Some score_threshold))) ;;
     ret (VList (map format_product search_results)))
    (fun _ => ret (VList []))%prog.

(** [search_all(query, store_name, limit, score_threshold)]: both searches
    run under [asyncio.gather]. *)
Definition search_all (self : searcher) (query : string)
  (store_name : option string) (limit : Z) (score_threshold : Q) : M value :=
  (fix finish (p : prog (result value * result value)) : M value :=
     match p with
     | Ret (Ok document_results, Ok product_results) =>
         ret (VDict [("documents", document_results);
                     ("products", product_results)])
     | Ret (Raise e, _) => raise e
     | Ret (_, Raise e) => raise e
     | Vis e k => Vis e (fun x => finish (k x))
     end)
    (gather
       (search_documents self query store_name None None limit
          score_threshold)
       (search_products self query store_name None None None limit
          score_threshold)).

(** [search_by_metadata(field, value, collection_name, limit)]. *)
Definition search_by_metadata (self : searcher) (field : string) (v : value)
  (collection_name : option string) (limit : Z) : M value :=
  try_catch
    (let collection :=
       if opt_truthy collection_name then opt_str collection_name
       else document_collection self in
     let search_filter := must_filter [field_eq field v] in
     search_results <-
       call (QdrantScroll
               (mkScroll collection (Some search_filter) limit None)) ;;
     ret (VList
            (map (fun point =>
                    VDict (PyDict.update [("id", rec_id point)]
                             (rec_payload point)))
               (fst search_results))))
    (fun _ => ret (VList []))%prog.

Section StoreNames.

Context `{PySet}.

(** The [for] loop over one batch of points. *)
Fixpoint add_stores (points : list record) (store_names : list value)
  : result (list value) :=
  match points with
  | [] => Ok store_names
  | point :: rest =>
      if PyDict.has_key "store" (rec_payload point) then
        match set_add store_names (PyDict.get "store" (rec_payload point)) with
        | Ok store_names' => add_stores rest store_names'
        | Raise e => Raise e
        end
      else add_stores rest store_names
  end.

(** The [while True] loop of [get_all_store_names]; [None] is a loop that
    is still running after [fuel] batches. *)
Fixpoint scroll_loop (fuel : nat) (self : searcher) (offset : option value)
  (store_names : list value) : M (option (list value)) :=
  match fuel with
  | O => ret None
  | S fuel' =>
      (batch <- call (QdrantScroll
                        (mkScroll (document_collection self) None 1000
                           offset)) ;;
       store_names <- lift (add_stores (fst batch) store_names) ;;
       match snd batch with
       | None => ret (Some store_names)
       | Some next => scroll_loop fuel' self (Some next) store_names
       end)%prog
  end.

(** [get_all_store_names()]. *)
Definition get_all_store_names (fuel : nat) (self : searcher)
  : M (option value) :=
  try_catch
    (names <- scroll_loop fuel self None [] ;;
     match names with
     | None => ret None
     | Some store_names =>
         l <- lift (sorted store_names) ;;
         ret (Some (VList l))
     end)
    (fun _ => ret (Some (VList [])))%prog.

End StoreNames.

End Qdrant.

(** ** [intellizen_voicebot2.py] *)

Module Voicebot.

Local Open Scope string_scope.
Local Open Scope prog_scope.

Definition nl : string := IntentClassifier.nl.

(** *** The state of the worker process *)

(** The field [shopify] of the function context: [None], a string (the
    entry point passes the room name in this position), or a collector. *)
Inductive shopify_field : Type :=
| NoShopify
| RoomName (s : string)
| Collector (c : Shopify.collector).

(** [ShopifyFunctions]. *)
Record fnc_ctx : Type := mkFnc {
  room_name : option string;
  shopify : shopify_field;
  qdrant_searcher : option Qdrant.searcher
}.

(** The session variables of [entrypoint], shared by its callbacks. *)
Record session : Type := mkSession {
  session_id : string;
  session_start_time : Z;
  conversation_log : list string;
  user_id : Z;
  store_id : Z;
  detected_intent : option string;
  escalation_requested : bool
}.

(** The module-level globals, the function context and the session.
    [customer_id] records whether the global holds the task created when the
    participant connected; [engine] whether the SQL engine could be
    created. *)
Record state : Type := mkState {
  store_name : option string;
  store_details : option string;
  shopify_access_token : option string;
  shopify_base_url : option string;
  called_number : option string;
  caller_number : option string;
  customer_id : bool;
  engine : bool;
  fnc : fnc_ctx;
  sess : session
}.

(** The store profile: the four values read from Redis. *)
Definition store_profile (s : state)
  : option string * option string * option string * option string :=
  (store_name s, store_details s, shopify_access_token s, shopify_base_url s).

Definition with_fnc (f : fnc_ctx) (s : state) : state :=
  mkState (store_name s) (store_details s) (shopify_access_token s)
    (shopify_base_url s) (called_number s) (caller_number s) (customer_id s)
    (engine s) f (sess s).

Definition with_sess (x : session) (s : state) : state :=
  mkState (store_name s) (store_details s) (shopify_access_token s)
    (shopify_base_url s) (called_number s) (caller_number s) (customer_id s)
    (engine s) (fnc s) x.

(** *** Stateful computations that may raise *)

Definition SM (A : Type) : Type := state -> prog (result A * state).

Fixpoint pbind {A B} (p : prog A) (k : A -> prog B) : prog B :=
  match p with
  | Ret a => k a
  | Vis e h => Vis e (fun x => pbind (h x) k)
  end.

Definition sret {A} (a : A) : SM A := fun s => Ret (Ok a, s).

Definition sbind {A B} (m : SM A) (k : A -> SM B) : SM B :=
  fun s =>
    pbind (m s) (fun rs =>
      match fst rs with
      | Ok a => k a (snd rs)
      | Raise e => Ret (Raise e, snd rs)
      end).

(** [try: m  except Exception as e: h e]. *)
Definition stry {A} (m : SM A) (h : exn -> SM A) : SM A :=
  fun s =>
    pbind (m s) (fun rs =>
      match fst rs with
      | Ok a => Ret (Ok a, snd rs)
      | Raise e => h e (snd rs)
      end).

(** A computation that does not touch the state. *)
Definition io_ {A} (m : M A) : SM A :=
  fun s => pbind m (fun r => Ret (r, s)).

Definition get_state : SM state := fun s => Ret (Ok s, s).
Definition put_state (s' : state) : SM unit := fun _ => Ret (Ok tt, s').

Notation "x <~ m ;; k" := (sbind m (fun x => k))
  (at level 61, m at next level, right associativity) : prog_scope.
Notation "m ~~ k" := (sbind m (fun _ => k))
  (at level 61, right associativity) : prog_scope.

(** *** Session logging *)

(** [d[k]]. *)
Definition subscript (k : string) (d : dict) : result value :=
  match PyDict.lookup k d with
  | Some v => Ok v
  | None => Raise (KeyError k)
  end.

(** The columns of the [Conversations] table. *)
Definition columns : list string :=
  ["Conversation"; "User_ID"; "Store_ID"; "Session_ID"; "Session_Time";
   "Duration_of_Call"; "Call_Reason"; "Escalation"; "Query_Type"].

(** The [parameters] dictionary of the insert statement: one subscript of
    [conversation_data] per column, in this order. *)
Definition parameters_of (conversation_data : dict) : result dict :=
  map_result
    (fun column =>
       match subscript column conversation_data with
       | Ok v => Ok (column, v)
       | Raise e => Raise e
       end) columns.

(** [insert_conversation_to_db(conversation_data)].  The connection is
    opened before the [try]; [connection.close()] is the [finally] clause,
    and an exception it raises replaces the value about to be returned. *)
Definition insert_conversation_to_db (engine : bool)
  (conversation_data : dict) : M bool :=
  if negb engine then ret false
  else
    call DbConnect ;;;
    try_finally
      (try_catch
         (parameters <- lift (parameters_of conversation_data) ;;
          call (DbExecute parameters) ;;;
          call DbCommit ;;;
          ret true)
         (fun _ => ret false))
      (call DbClose).

(** [(datetime.now() - session_start_time).seconds], times in
    microseconds. *)
Definition timedelta_seconds (now start : Z) : Z :=
  (((now - start) / 1000000) mod 86400)%Z.

(** The dictionary built by [save_conversation_to_db]. *)
Definition conversation_data_of (x : session) (now : Z) : dict :=
  [("Conversation", VStr (String.concat "" (conversation_log x)));
   ("User_ID", VInt (user_id x));
   ("Store_ID", VInt (store_id x));
   ("Session_ID", VStr (session_id x));
   ("Session_Time", VDatetime (session_start_time x));
   ("Duration_of_Call", VInt (timedelta_seconds now (session_start_time x)));
   ("Escalation", VBool (escalation_requested x));
   ("Query_Type", match detected_intent x with
                  | Some i => VStr i | None => VNone end)].

(** [save_conversation_to_db()], the shutdown callback. *)
Definition save_conversation_to_db : SM unit :=
  fun s =>
    io_ (try_catch
           (now <- perform Now ;;
            let conversation_data := conversation_data_of (sess s) now in
            insert_conversation_to_db (engine s) conversation_data ;;;
            ret tt)
           (fun _ => ret tt)) s.

(** *** Speech callbacks *)

(** The text of the message after the [isinstance(content, list)] step;
    [None] stays [None]. *)
Definition flatten_content (content : chat_content) : option string :=
  match content with
  | ContentStr s => Some s
  | ContentList items =>
      Some (PyStr.join nl
              (map (fun x => match x with
                             | ChatImage => "[image]"
                             | ChatText t => t
                             end) items))
  | ContentNone => None
  end.

(** The test of the escalation phrases; [content.lower()] raises on
    [None]. *)
Definition asks_for_human (content : option string) : result bool :=
  match content with
  | Some c =>
      Ok (PyStr.contains "speak to human" (PyStr.lower c)
          || PyStr.contains "talk to agent" (PyStr.lower c)
          || PyStr.contains "agent please" (PyStr.lower c))
  | None => Raise AttributeError
  end.

(** [on_user_speech_committed(msg)].  Under the comment [Detect intent from
    user message] the source has the call of the classifier and the
    assignment to [detected_intent] commented out; what runs is the test for
    an escalation and the entry in the log. *)
Definition on_user_speech_committed (msg : chat_content) (x : session)
  : session :=
  let content := flatten_content msg in
  let escalation :=
    match asks_for_human content with
    | Ok true => true
    | Ok false => escalation_requested x
    | Raise _ => escalation_requested x
    end in
  mkSession (session_id x) (session_start_time x)
    (conversation_log x ++ ["USER:" ++ nl ++ opt_str content ++ nl ++ nl])
    (user_id x) (store_id x) (detected_intent x) escalation.

Section AgentSpeech.

Context `{PyText}.

(** The text of [msg.content] inside an f-string. *)
Definition content_text (content : chat_content) : string :=
  match content with
  | ContentStr s => s
  | ContentList items => str_chat_items items
  | ContentNone => "None"
  end.

(** [on_agent_speech_committed(msg)]. *)
Definition on_agent_speech_committed (msg : chat_content) (x : session)
  : session :=
  mkSession (session_id x) (session_start_time x)
    (conversation_log x ++ ["AGENT:" ++ nl ++ content_text msg ++ nl ++ nl])
    (user_id x) (store_id x) (detected_intent x) (escalation_requested x).

End AgentSpeech.

(** *** The function context *)

Definition shopify_truthy (f : shopify_field) : bool :=
  match f with
  | NoShopify => false
  | RoomName r => negb (PyStr.is_empty r)
  | Collector _ => true
  end.

(** [self.shopify.<method>]: only a collector has the methods. *)
Definition the_collector (f : shopify_field) : result Shopify.collector :=
  match f with
  | Collector c => Ok c
  | _ => Raise AttributeError
  end.

(** [self.shopify = ShopifyDataCollector(shopify_access_token=...,
    shopify_base_url=...)], from the globals. *)
Definition create_shopify : SM unit :=
  fun s =>
    pbind (Shopify.__init__ (shopify_access_token s) (shopify_base_url s)
             "temp_data")
      (fun r =>
         match r with
         | Ok c =>
             Ret (Ok tt,
                  with_fnc (mkFnc (room_name (fnc s)) (Collector c)
                              (qdrant_searcher (fnc s))) s)
         | Raise e => Ret (Raise e, s)
         end).

(** [self.qdrant_searcher = QdrantSearcher()]. *)
Definition create_searcher : SM unit :=
  fun s =>
    Ret (Ok tt,
         with_fnc (mkFnc (room_name (fnc s)) (shopify (fnc s))
                     (Some Qdrant.default_searcher)) s).

(** [if not self.shopify: self.shopify = ShopifyDataCollector(...)]. *)
Definition ensure_shopify : SM unit :=
  s <~ get_state ;;
  if negb (shopify_truthy (shopify (fnc s))) then create_shopify
  else sret tt.

(** [self.qdrant_searcher.<method>]. *)
Definition the_searcher (o : option Qdrant.searcher)
  : result Qdrant.searcher :=
  match o with
  | Some q => Ok q
  | None => Raise AttributeError
  end.

(** [sep.join(l)] on objects: every item has to be a string. *)
Fixpoint join_values (sep : string) (l : list value) : result string :=
  match l with
  | [] => Ok ""
  | [VStr x] => Ok x
  | VStr x :: rest =>
      match join_values sep rest with
      | Ok r => Ok (x ++ sep ++ r)
      | Raise e => Raise e
      end
  | _ => Raise TypeError
  end.

(** A comprehension over the dictionaries of an iterable. *)
Definition for_dicts {B} (f : dict -> result B) (x : value)
  : result (list B) :=
  match iterate x with
  | Ok items =>
      map_result (fun item =>
                    match as_dict item with
                    | Ok d => f d
                    | Raise e => Raise e
                    end) items
  | Raise e => Raise e
  end.

Section Functions.

Context `{PyText}.

(** [_get_order_by_id(order_id)]. *)
Fixpoint next_order (order_id : string) (all_orders : list value)
  : result value :=
  match all_orders with
  | [] => Ok VNone
  | o :: rest =>
      match as_dict o with
      | Ok d =>
          if String.eqb (py_str (PyDict.get "id" d)) order_id
             || String.eqb (py_str (PyDict.get "order_number" d)) order_id
          then Ok o
          else next_order order_id rest
      | Raise e => Raise e
      end
  end.

Definition _get_order_by_id (order_id : string) : SM value :=
  fun s =>
    io_ (try_catch
           (c <- lift (the_collector (shopify (fnc s))) ;;
            all_orders <- Shopify.get_all_orders c ;;
            items <- lift (iterate all_orders) ;;
            lift (next_order order_id items))
           (fun _ => ret VNone)) s.

(** [_format_address(address)]. *)
Definition truthy_items (keys : list string) (address : dict)
  : list value :=
  List.filter truthy (map (fun k => PyDict.get k address) keys).

Definition _format_address (address : value) : result string :=
  if negb (truthy address) then Ok "No address information available"
  else
    match as_dict address with
    | Raise e => Raise e
    | Ok a =>
        let components := truthy_items ["name"; "address1"; "address2"] a in
        let city_state_zip := truthy_items ["city"; "province_code"; "zip"] a in
        match
          match city_state_zip with
          | [] => Ok components
          | _ =>
              match join_values ", " city_state_zip with
              | Ok line => Ok (components ++ [VStr line])%list
              | Raise e => Raise e
              end
          end
        with
        | Raise e => Raise e
        | Ok components =>
            let components := (components ++ truthy_items ["country"] a)%list in
            match components with
            | [] => Ok "No address information available"
            | _ => join_values nl components
            end
        end
    end.

(** [get_product_information(product_query)]. *)
Definition product_info_of (product : dict) : result value :=
  Ok (VDict
        [("product_id", PyDict.get_default "product_id" (VStr "") product);
         ("title", PyDict.get_default "title" (VStr "") product);
         ("vendor", PyDict.get_default "vendor" (VStr "") product);
         ("product_type",
          PyDict.get_default "product_type" (VStr "") product);
         ("price", PyDict.get_default "price" (VStr "") product);
         ("tags", PyDict.get_default "tags" (VList []) product);
         ("availability",
          PyDict.get_default "available" (VBool true) product)]).

Definition text_of_doc (doc : dict) : result value :=
  Ok (PyDict.get_default "text" (VStr "") doc).

Definition threshold : Q := 6 # 10.

Definition get_product_information (product_query : string) : SM value :=
  io_ (call (AgentSay "Let me look up that product information for you.")) ~~
  stry
    (s <~ get_state ;;
     (if negb (shopify_truthy (shopify (fnc s)))
         || match qdrant_searcher (fnc s) with
            | Some _ => false | None => true end
      then create_shopify ~~ create_searcher
      else sret tt) ~~
     s <~ get_state ;;
     q <~ io_ (lift (the_searcher (qdrant_searcher (fnc s)))) ;;
     product_results <~
       io_ (Qdrant.search_products q product_query (store_name s) None None
              None 3 threshold) ;;
     doc_results <~
       io_ (Qdrant.search_documents q product_query (store_name s)
              (Some "product_document") None 2 threshold) ;;
     products_info <~
       io_ (lift (if truthy product_results
                  then for_dicts product_info_of product_results
                  else Ok [])) ;;
     docs_text <~
       io_ (lift (if truthy doc_results
                  then for_dicts text_of_doc doc_results
                  else Ok [])) ;;
     additional_info <~
       io_ (lift (match docs_text with
                  | [] => Ok "No additional product details available."
                  | _ => join_values (nl ++ nl) docs_text
                  end)) ;;
     sret (VDict [("products", VList products_info);
                  ("additional_info", VStr additional_info)]))
    (fun e =>
       sret (VDict
         [("error",
           VStr ("I encountered an error while retrieving product information: "
                 ++ str_exn e));
          ("products", VList []);
          ("additional_info", VStr "")])).

(** One entry of [formatted_orders]. *)
Definition item_of (item : dict) : result value :=
  Ok (VDict
        [("name", PyDict.get_default "name" (VStr "Unknown item") item);
         ("quantity", PyDict.get_default "quantity" (VInt 1) item);
         ("price", PyDict.get_default "price" (VStr "N/A") item)]).

Definition order_date_of (order : dict) : result value :=
  if truthy (PyDict.get "created_at" order) then
    match PyDict.get_default "created_at" (VStr "N/A") order with
    | VStr created_at => Ok (VStr (hd "" (PyStr.split "T" created_at)))
    | _ => Raise AttributeError
    end
  else Ok (VStr "N/A").

Definition formatted_order_of (order : dict) : result value :=
  match order_date_of order with
  | Raise e => Raise e
  | Ok order_date =>
      match _format_address
              (PyDict.get_default "shipping_address" (VDict []) order) with
      | Raise e => Raise e
      | Ok shipping_address =>
          match for_dicts item_of
                  (PyDict.get_default "line_items" (VList []) order) with
          | Raise e => Raise e
          | Ok items =>
              Ok (VDict
                [("order_number",
                  PyDict.get_default "order_number" (VStr "N/A") order);
                 ("order_date", order_date);
                 ("total_price",
                  PyDict.get_default "total_price" (VStr "N/A") order);
                 ("payment_status",
                  PyDict.get_default "financial_status" (VStr "N/A") order);
                 ("fulfillment_status",
                  let status :=
                    PyDict.get_default "fulfillment_status"
                      (VStr "processing") order in
                  if truthy status then status else VStr "processing");
                 ("tracking_number", VNone);
                 ("shipping_address", VStr shipping_address);
                 ("items", VList items)])
          end
      end
  end.

(** [orders[:3]]. *)
Definition first_three (orders : value) : result value :=
  match orders with
  | VList l => Ok (VList (firstn 3 l))
  | VStr x => Ok (VStr (substring 0 3 x))
  | _ => Raise TypeError
  end.

(** [get_order_status(order_id)]. *)
Definition get_order_status (order_id : option string) : SM value :=
  io_ (call (AgentSay "Let me check that order status for you.")) ~~
  stry
    (ensure_shopify ~~
     (* Try direct order lookup if ID is provided *)
     orders <~
       (if opt_truthy order_id then
          order <~ _get_order_by_id (opt_str order_id) ;;
          sret (if truthy order then VList [order] else VList [])
        else sret (VList [])) ;;
     (* Fallback to customer lookup *)
     s <~ get_state ;;
     found <~
       (if negb (truthy orders) && opt_truthy (caller_number s) then
          c <~ io_ (lift (the_collector (shopify (fnc s)))) ;;
          customer_id <~
            io_ (Shopify.fetch_customer_id c
                   (Some (opt_str (caller_number s)))) ;;
          if truthy customer_id then
            orders <~ io_ (Shopify.get_customer_orders c customer_id) ;;
            sret (orders, customer_id)
          else sret (orders, customer_id)
        else sret (orders, VNone)) ;;
     let orders := fst found in
     let customer_id := snd found in
     if negb (truthy orders) then
       let error_msg := "I couldn't find any orders" in
       let error_msg :=
         if opt_truthy order_id
         then error_msg ++ " matching #" ++ opt_str order_id
         else error_msg in
       let error_msg :=
         if truthy customer_id
         then error_msg ++ " associated with your account"
         else error_msg in
       sret (VDict [("found", VBool false);
                    ("error", VStr error_msg);
                    ("orders", VList [])])
     else
       recent <~ io_ (lift (first_three orders)) ;;
       formatted_orders <~
         io_ (lift (for_dicts formatted_order_of recent)) ;;
       sret (VDict [("found", VBool true);
                    ("orders", VList formatted_orders);
                    ("specific_order_id", opt_value order_id)]))
    (fun e =>
       sret (VDict
         [("found", VBool false);
          ("error",
           VStr ("I encountered an error while retrieving order information: "
                 ++ str_exn e));
          ("orders", VList [])])).

(** [update_order(order_id, email, phone, address1, ..., zip_code)]. *)
Definition update_order (order_id : string)
  (email phone address1 address2 city last_name province_code country
     zip_code : option string) : SM value :=
  io_ (call (AgentSay "I'm processing your order update request.")) ~~
  stry
    (ensure_shopify ~~
     (* Verify the order exists *)
     order <~ _get_order_by_id order_id ;;
     if negb (truthy order) then
       sret (VDict
         [("success", VBool false);
          ("error",
           VStr ("I couldn't find order #" ++ order_id
                 ++ ". Please verify the order number."))])
     else
       (* Check what fields are being updated *)
       let updated_fields :=
         ((if opt_truthy email then ["email"] else [])
          ++ (if opt_truthy phone then ["phone number"] else [])
          ++ (if existsb opt_truthy
                   [address1; address2; city; last_name; province_code;
                    country; zip_code]
              then ["shipping address"] else []))%list in
       match updated_fields with
       | [] =>
           sret (VDict
             [("success", VBool false);
              ("error",
               VStr "No update information provided. Please specify what you'd like to update.")])
       | _ =>
           (* Attempt to update the order *)
           s <~ get_state ;;
           c <~ io_ (lift (the_collector (shopify (fnc s)))) ;;
           result <~
             io_ (Shopify.update_order c order_id email phone address1
                    address2 city last_name province_code country zip_code) ;;
           if truthy result then
             let fields_str := PyStr.join ", " updated_fields in
             sret (VDict
               [("success", VBool true);
                ("order_id", VStr order_id);
                ("updated_fields", VList (map VStr updated_fields));
                ("message",
                 VStr ("Successfully updated " ++ fields_str
                       ++ " for order #" ++ order_id ++ "."))])
           else
             sret (VDict
               [("success", VBool false);
                ("error",
                 VStr ("Unable to update order #" ++ order_id
                       ++ ". The order may be fulfilled, canceled, or there might be a system error."))])
       end)
    (fun e =>
       sret (VDict
         [("success", VBool false);
          ("error",
           VStr ("I encountered an error while updating your order: "
                 ++ str_exn e))])).

(** [cancel_order(order_id, reason)]. *)
Definition cancel_order (order_id : string) (reason : option string)
  : SM value :=
  io_ (call (AgentSay "I'm processing your cancellation request.")) ~~
  stry
    (ensure_shopify ~~
     (* Verify the order exists *)
     order <~ _get_order_by_id order_id ;;
     if negb (truthy order) then
       sret (VDict
         [("success", VBool false);
          ("error",
           VStr ("I couldn't find order #" ++ order_id
                 ++ ". Please verify the order number."))])
     else
       o <~ io_ (lift (as_dict order)) ;;
       (* Check if the order is already fulfilled *)
       if eq_str (PyDict.get "fulfillment_status" o) "fulfilled" then
         sret (VDict
           [("success", VBool false);
            ("error",
             VStr ("Order #" ++ order_id
                   ++ " has already been fulfilled and cannot be canceled. Please contact customer support for assistance."))])
       else
         (* Attempt to cancel the order *)
         s <~ get_state ;;
         c <~ io_ (lift (the_collector (shopify (fnc s)))) ;;
         result <~ io_ (Shopify.cancel_order c order_id reason) ;;
         if truthy result then
           sret (VDict
             [("success", VBool true);
              ("order_id", VStr order_id);
              ("message",
               VStr ("Successfully canceled order #" ++ order_id
                     ++ ". You'll receive a confirmation email shortly."))])
         else
           sret (VDict
             [("success", VBool false);
              ("error",
               VStr ("Unable to cancel order #" ++ order_id
                     ++ ". The order may already be fulfilled, shipped, or there might be a system error."))]))
    (fun e =>
       sret (VDict
         [("success", VBool false);
          ("error",
           VStr ("I encountered an error while canceling your order: "
                 ++ str_exn e))])).

(** [get_store_information(specific_info)]. *)
Definition get_store_information (specific_info : option string)
  : SM value :=
  io_ (call (AgentSay "Let me find that information for you.")) ~~
  stry
    (s <~ get_state ;;
     (match qdrant_searcher (fnc s) with
      | None => create_searcher
      | Some _ => sret tt
      end) ~~
     s <~ get_state ;;
     q <~ io_ (lift (the_searcher (qdrant_searcher (fnc s)))) ;;
     (* Prepare the query based on what specific information is requested *)
     let query := if opt_truthy specific_info then opt_str specific_info
                  else "store information" in
     (* Get store information *)
     io_ (Qdrant.get_store_details q (store_name s)) ~~
     (* Search for relevant store documents *)
     doc_results <~
       io_ (Qdrant.search_documents q query (store_name s) None None 3
              threshold) ;;
     (* Combine information *)
     let general_info :=
       if opt_truthy (store_details s) then opt_value (store_details s)
       else VStr "No general store information available." in
     relevant_info <~
       io_ (lift (if truthy doc_results then
                    match for_dicts text_of_doc doc_results with
                    | Ok relevant_docs => join_values (nl ++ nl) relevant_docs
                    | Raise e => Raise e
                    end
                  else Ok "No specific information found for your query.")) ;;
     sret (VDict [("store_name", opt_value (store_name s));
                  ("general_info", general_info);
                  ("relevant_info", VStr relevant_info)]))
    (fun e s =>
       sret (VDict
         [("error",
           VStr ("I encountered an error while retrieving store information: "
                 ++ str_exn e));
          ("store_name", opt_value (store_name s));
          ("general_info",
           if opt_truthy (store_details s) then opt_value (store_details s)
           else VStr "");
          ("relevant_info", VStr "")]) s).

(** [transfer_to_agent(reason)]. *)
Definition failure (message : string) : value :=
  VDict [("success", VBool false); ("error", VStr message)].

Definition transfer_to_agent (reason : option string) : SM value :=
  io_ (call (AgentSay "I understand you'd like to speak with a human representative. I'll transfer your call now.")) ~~
  stry
    (s <~ get_state ;;
     (* Determine the appropriate transfer number *)
     from_env <~ io_ (perform (GetEnv "TRANSFER_PHONE_NUMBER")) ;;
     transfer_number <~
       (if negb (opt_truthy from_env) then
          io_ (call (RedisHGet ("store:" ++ opt_str (called_number s))
                       "transfer_number"))
        else sret from_env) ;;
     if negb (opt_truthy transfer_number) then
       sret (failure "No transfer number configured for this store.")
     else
       (* Get the current call context *)
       participant_identity <~ io_ (perform AgentParticipant) ;;
       if negb (opt_truthy participant_identity) then
         sret (failure "Unable to identify current participant for transfer.")
       else
         (* Initialize LiveKit API client *)
         livekit_url <~ io_ (perform (GetEnv "LIVEKIT_URL")) ;;
         api_key <~ io_ (perform (GetEnv "LIVEKIT_API_KEY")) ;;
         api_secret <~ io_ (perform (GetEnv "LIVEKIT_API_SECRET")) ;;
         if negb (opt_truthy livekit_url && opt_truthy api_key
                  && opt_truthy api_secret) then
           sret (failure "Missing required API credentials for call transfer.")
         else
           (* Execute transfer *)
           io_ (call (SipTransfer (opt_str participant_identity)
                        (room_name (fnc s)) (opt_str transfer_number))) ~~
           sret (VDict
             [("success", VBool true);
              ("transfer_to", opt_value transfer_number);
              ("message",
               VStr "Successfully transferred call to human agent")]))
    (fun e =>
       sret (failure ("I encountered an error while transferring your call: "
                      ++ str_exn e))).

End Functions.

(** *** The entry point and the participant callback *)

(** [rtc.RemoteParticipant]: its identity and its SIP attributes. *)
Record participant : Type := mkParticipant {
  identity : string;
  attributes : list (string * string)
}.

(** [d.get(k)] on a dictionary of strings. *)
Fixpoint attr (k : string) (d : list (string * string)) : option string :=
  match d with
  | [] => None
  | (k', v) :: d' => if String.eqb k k' then Some v else attr k d'
  end.

(** [get_store_from_redis(phone_number)]: the store name, its details, the
    access token and the base URL. *)
Definition get_store_from_redis (phone_number : option string)
  : M (option string * option string * option string * option string) :=
  if negb (opt_truthy phone_number) then ret (None, None, None, None)
  else
    let redis_key := "store:" ++ opt_str phone_number in
    try_catch
      (store_data <- call (RedisHGetAll redis_key) ;;
       match store_data with
       | [] => ret (None, None, None, None)
       | _ =>
           ret (attr "store_name" store_data,
                attr "store_details" store_data,
                attr "shopify_access_token" store_data,
                attr "shopify_base_url" store_data)
       end)
      (fun _ => ret (None, None, None, None)).

(** [loop.create_task(coro)]: the task runs once the callback has returned;
    nobody awaits it, so its result and its exception are dropped. *)
Definition task {A} (coro : M A) : M unit :=
  try_catch (coro ;;; ret tt) (fun _ => ret tt).

Definition initial_prompt : string :=
  "You are a voice assistant for an online Shopify Store. Your interface with users will be voice. "
  ++ "You can manage orders, provide product information, and answer general store-related inquiries. "
  ++ "Keep your responses clear, concise, and conversational. Avoid using punctuation that would be awkward "
  ++ "in spoken language. When performing function calls, briefly let the user know that you're retrieving "
  ++ "or processing their request.".

Definition indent : string := "                    ".

Definition store_prompt (store_name store_details : option string) : string :=
  "You are a voice assistant for " ++ opt_str store_name
  ++ ". Your interface with users will be voice." ++ nl
  ++ indent ++ "You can deal with customer's orders, product inquiries, and general customer support." ++ nl
  ++ indent ++ "You should use short and concise responses, avoiding usage of unpronounceable punctuation." ++ nl
  ++ indent ++ "Below given are the details of this particular store:" ++ nl
  ++ indent ++ opt_str store_details ++ nl
  ++ indent ++ "" ++ nl
  ++ indent ++ "When customers ask about products, use the get_product_information function." ++ nl
  ++ indent ++ "When customers ask about orders, use the get_order_status function." ++ nl
  ++ indent ++ "When customers ask to update orders, use the update_order function." ++ nl
  ++ indent ++ "When customers ask to cancel orders, use the cancel_order function." ++ nl
  ++ indent ++ "When customers ask about store policies or information, use the get_store_information function." ++ nl
  ++ indent ++ "" ++ nl
  ++ indent ++ "Always be helpful and polite. If you cannot assist a customer with their request," ++ nl
  ++ indent ++ "apologize and offer to connect them with a human representative." ++ nl
  ++ "                ".

Definition fallback_prompt : string :=
  "You are a voice assistant for an online store. You can help with product inquiries, "
  ++ "order status, and general customer support. "
  ++ "Please note that we're experiencing some technical difficulties retrieving the store information. "
  ++ "I'll still do my best to help you with your query.".

Section Entry.

Context `{PyText}.

(** [entrypoint(ctx)] up to the registration of the callbacks: the function
    context and the session variables are created. *)
Definition entrypoint (room : string) : SM unit :=
  io_ (call RoomConnect) ~~
  io_ (perform (ChatCtxAppend "system" initial_prompt)) ~~
  now_id <~ io_ (perform Now) ;;
  now_start <~ io_ (perform Now) ;;
  s <~ get_state ;;
  put_state
    (with_sess
       (mkSession ("session_" ++ str_float (now_id # 1000000)) now_start []
          1 1 None false)
       (with_fnc (mkFnc None (RoomName room) None) s)).

(** [on_participant_connected(participant)]. *)
Definition on_participant_connected (p : participant) : SM unit :=
  s <~ get_state ;;
  (* Get the phone numbers *)
  let called := attr "sip.trunkPhoneNumber" (attributes p) in
  let caller := attr "sip.phoneNumber" (attributes p) in
  put_state
    (mkState (store_name s) (store_details s) (shopify_access_token s)
       (shopify_base_url s) called caller (customer_id s) (engine s) (fnc s)
       (sess s)) ~~
  (* Get store details from Redis *)
  profile <~ io_ (get_store_from_redis called) ;;
  let '(name, details, token, base_url) := profile in
  put_state
    (mkState name details token base_url called caller (customer_id s)
       (engine s) (fnc s) (sess s)) ~~
  (* Initialize ShopifyDataCollector with the store credentials *)
  c <~ io_ (Shopify.__init__ token
              (Some ("https://" ++ opt_str base_url ++ "/admin/api/2025-01"))
              "temp_data") ;;
  (* Update the function context with the initialized handlers *)
  put_state
    (mkState name details token base_url called caller true (engine s)
       (mkFnc (room_name (fnc s)) (Collector c) (qdrant_searcher (fnc s)))
       (sess s)) ~~
  (if opt_truthy name then
     io_ (perform (ChatCtxAppend "system" (store_prompt name details))) ~~
     io_ (perform AgentStart)
   else
     io_ (perform (ChatCtxAppend "system" fallback_prompt)) ~~
     io_ (perform AgentStart)) ~~
  (* the tasks created above *)
  io_ (task (Shopify.fetch_customer_id c caller)) ~~
  io_ (task (call (AgentSay
                     (if opt_truthy name
                      then "Hello, welcome to " ++ opt_str name
                           ++ ". How can I help you today?"
                      else "Hello, welcome to our online store. How can I help you today?")))).

End Entry.

End Voicebot.

(** ** A scripted world

    A handler for concrete runs: the answers of the collaborators are read
    off a script, and the rows inserted into the [Conversations] table are
    kept.  An event the script has no answer for succeeds with an empty
    answer, except the calls that fetch data, which raise. *)

Module World.

Inductive answer : Type :=
| AResponse (r : result response)
| APoints (r : result (list scored_point))
| APage (r : result (list record * option value))
| AVector (r : result (list Q))
| AString (r : result string)
| AValue (r : result value)
| AHash (r : result (list (string * string)))
| AField (r : result (option string))
| AUnit (r : result unit)
| ATime (t : Z)
| AEnv (o : option string)
| ABool (b : bool).

Record world : Type := mkWorld {
  script : list answer;
  conversations : list dict
}.

Definition unscripted {A} : result A := Raise (ExternalError "unscripted").

Definition next (w : world) : world :=
  mkWorld (tl (script w)) (conversations w).

(** The answer to a call without a result: the scripted one if the script
    has one next, success otherwise. *)
Definition unit_answer (w : world) : result unit * world :=
  match script w with
  | AUnit r :: _ => (r, next w)
  | _ => (Ok tt, w)
  end.

Definition oracle : handler world :=
  fun X (e : event X) (w : world) =>
    match e in event X return X * world with
    | HttpRequest _ _ _ _ =>
        match script w with
        | AResponse r :: _ => (r, next w)
        | _ => (unscripted, w)
        end
    | QdrantSearch _ =>
        match script w with
        | APoints r :: _ => (r, next w)
        | _ => (unscripted, w)
        end
    | QdrantScroll _ =>
        match script w with
        | APage r :: _ => (r, next w)
        | _ => (unscripted, w)
        end
    | EmbedQuery _ =>
        match script w with
        | AVector r :: _ => (r, next w)
        | _ => (Ok [], w)
        end
    | LlmClassify _ _ _ =>
        match script w with
        | AString r :: _ => (r, next w)
        | _ => (unscripted, w)
        end
    | LlmExtract _ _ =>
        match script w with
        | AValue r :: _ => (r, next w)
        | _ => (unscripted, w)
        end
    | RedisHGetAll _ =>
        match script w with
        | AHash r :: _ => (r, next w)
        | _ => (Ok [], w)
        end
    | RedisHGet _ _ =>
        match script w with
        | AField r :: _ => (r, next w)
        | _ => (Ok None, w)
        end
    | DbExecute parameters =>
        match unit_answer w with
        | (Ok tt, w') =>
            (Ok tt,
             mkWorld (script w') (conversations w' ++ [parameters]))
        | (Raise err, w') => (Raise err, w')
        end
    | Now =>
        match script w with
        | ATime t :: _ => (t, next w)
        | _ => (0%Z, w)
        end
    | GetEnv _ =>
        match script w with
        | AEnv o :: _ => (o, next w)
        | _ => (None, w)
        end
    | AgentParticipant =>
        match script w with
        | AEnv o :: _ => (o, next w)
        | _ => (None, w)
        end
    | PathExists _ =>
        match script w with
        | ABool b :: _ => (b, next w)
        | _ => (true, w)
        end
    | Schedule =>
        match script w with
        | ABool b :: _ => (b, next w)
        | _ => (true, w)
        end
    | ChatCtxAppend _ _ => (tt, w)
    | AgentStart => (tt, w)
    | QdrantUpsert _ _ => unit_answer w
    | QdrantDelete _ _ => unit_answer w
    | QdrantCreateCollection _ => unit_answer w
    | QdrantDeleteCollection _ => unit_answer w
    | RedisHSet _ _ _ => unit_answer w
    | RedisDelete _ => unit_answer w
    | DbConnect => unit_answer w
    | DbCommit => unit_answer w
    | DbClose => unit_answer w
    | RoomConnect => unit_answer w
    | AgentSay _ => unit_answer w
    | SipTransfer _ _ _ => unit_answer w
    | MakeDirs _ => unit_answer w
    | WriteFile _ _ => unit_answer w
    end.

(** A world that answers from [l] and has an empty table. *)
Definition scripted (l : list answer) : world := mkWorld l [].

(** A plain implementation of the text interface, for concrete runs. *)
#[local] Instance plain_text : PyText := {|
  str_float := fun q =>
    (PyStr.of_Z (Qnum q) ++ "/" ++ PyStr.of_Z (Zpos (Qden q)))%string;
  str_list := fun _ => "[...]";
  str_dict := fun _ => "{...}";
  str_datetime := fun t => PyStr.of_Z t;
  str_exn := fun _ => "error";
  str_chat_items := fun _ => "[...]"
|}.

End World.

(** ** Classes of events *)

(** An HTTP request with the given method. *)
Definition is_http (m : http_method) (X : Type) (e : event X) : bool :=
  match e with
  | HttpRequest m' _ _ _ =>
      match m, m' with
      | GET, GET | POST, POST | PUT, PUT => true
      | _, _ => false
      end
  | _ => false
  end.

(** The [INSERT] into the [Conversations] table. *)
Definition is_insert (X : Type) (e : event X) : bool :=
  match e with DbExecute _ => true | _ => false end.

(** A write to the vector index. *)
Definition is_index_write (X : Type) (e : event X) : bool :=
  match e with
  | QdrantUpsert _ _ | QdrantDelete _ _ | QdrantCreateCollection _
  | QdrantDeleteCollection _ => true
  | _ => false
  end.

(** A write to Redis. *)
Definition is_redis_write (X : Type) (e : event X) : bool :=
  match e with
  | RedisHSet _ _ _ | RedisDelete _ => true
  | _ => false
  end.

Definition io_is (P : forall X, event X -> bool) (i : io) : bool :=
  match i with IO e _ => P _ e end.

(** ** Vocabulary of the statements *)

(** The prompt each order intent is extracted with. *)
Definition prompt_for (intent : string) : extraction_prompt :=
  if intent =? "order" then OrderStatusPrompt
  else if intent =? "update_order" then OrderUpdatePrompt
  else OrderCancelPrompt.

(** The credentials test of the decorator. *)
Definition has_credentials (self : Shopify.collector) : bool :=
  truthy (match Shopify.headers self with
          | Some hd => VDict hd | None => VNone end)
  && opt_truthy (Shopify.BASE_URL self).

(** A collector with credentials, and a shop with one order that carries a
    field outside the allowlist. *)
Definition demo_collector : Shopify.collector :=
  Shopify.mkCollector "temp_data" (Some "token")
    (Some "https://demo.myshopify.com/admin/api/2025-01") (Some "demo")
    (Some [("Content-Type", VStr "application/json");
           ("X-Shopify-Access-Token", VStr "token")]).

Definition demo_order : value :=
  VDict [("id", VInt 1001); ("order_number", VInt 7);
         ("note", VStr "leave at the door")].

Definition demo_orders_response : response :=
  mkResponse 200 (Some (VDict [("orders", VList [demo_order])])).

(** The order a fetch shows when [update_order] goes on to the update:
    the response is no error, its [order] is a non-empty dictionary, not
    fulfilled and not canceled. *)
Definition open_order (resp : response) : option dict :=
  if ((400 <=? status_code resp) && (status_code resp <? 600))%Z then None
  else
    match body resp with
    | Some (VDict d) =>
        match PyDict.get "order" d with
        | VDict (kv :: o) =>
            if eq_str (PyDict.get "fulfillment_status" (kv :: o)) "fulfilled"
            then None
            else match PyDict.get "cancelled_at" (kv :: o) with
                 | VNone => Some (kv :: o)
                 | _ => None
                 end
        | _ => None
        end
    | _ => None
    end.

(** Orders of the demo shop: one fulfilled, one open. *)
Definition fulfilled_order_response : response :=
  mkResponse 200
    (Some (VDict [("order",
                   VDict [("id", VInt 1001);
                          ("fulfillment_status", VStr "fulfilled");
                          ("cancelled_at", VNone)])])).

Definition open_order_response : response :=
  mkResponse 200
    (Some (VDict [("order",
                   VDict [("id", VInt 1002);
                          ("fulfillment_status", VNone);
                          ("cancelled_at", VNone)])])).

(** The events of retrieval: a search or a scroll of the index, the
    embedding of the query, a step of the scheduler. *)
Definition is_retrieval (X : Type) (e : event X) : bool :=
  match e with
  | QdrantSearch _ | QdrantScroll _ | EmbedQuery _ | Schedule => true
  | _ => false
  end.

(** The operations of a session once the participant is connected: the
    function calls the model may make, the two speech callbacks, and the
    shutdown callback. *)
Inductive operation : Type :=
| GetProductInformation (product_query : string)
| GetOrderStatus (order_id : option string)
| UpdateOrder (order_id : string)
    (email phone address1 address2 city last_name province_code country
       zip_code : option string)
| CancelOrder (order_id : string) (reason : option string)
| GetStoreInformation (specific_info : option string)
| TransferToAgent (reason : option string)
| UserSpeechCommitted (msg : chat_content)
| AgentSpeechCommitted (msg : chat_content)
| SaveConversation.

(** A callback that only changes the session variables. *)
Definition on_session (f : Voicebot.session -> Voicebot.session)
  : Voicebot.SM value :=
  fun s => Ret (Ok VNone, Voicebot.with_sess (f (Voicebot.sess s)) s).

Definition perform_operation `{PyText} (op : operation) : Voicebot.SM value :=
  match op with
  | GetProductInformation q => Voicebot.get_product_information q
  | GetOrderStatus order_id => Voicebot.get_order_status order_id
  | UpdateOrder order_id email phone address1 address2 city last_name
      province_code country zip_code =>
      Voicebot.update_order order_id email phone address1 address2 city
        last_name province_code country zip_code
  | CancelOrder order_id reason => Voicebot.cancel_order order_id reason
  | GetStoreInformation info => Voicebot.get_store_information info
  | TransferToAgent reason => Voicebot.transfer_to_agent reason
  | UserSpeechCommitted msg =>
      on_session (Voicebot.on_user_speech_committed msg)
  | AgentSpeechCommitted msg =>
      on_session (Voicebot.on_agent_speech_committed msg)
  | SaveConversation =>
      Voicebot.sbind Voicebot.save_conversation_to_db
        (fun _ => Voicebot.sret VNone)
  end.

(** Operations one after the other; an operation that raises does not stop
    the session. *)
Fixpoint perform_all `{PyText} (ops : list operation) (s : Voicebot.state)
  : prog Voicebot.state :=
  match ops with
  | [] => Ret s
  | op :: rest =>
      Voicebot.pbind (perform_operation op s)
        (fun rs => perform_all rest (snd rs))
  end.

(** The lookup of a store profile in Redis. *)
Definition is_profile_lookup (X : Type) (e : event X) : bool :=
  match e with RedisHGetAll _ => true | _ => false end.

(** [p] looks a profile up at most [n] times. *)
Fixpoint lookups_at_most {R} (n : nat) (p : prog R) : Prop :=
  match p with
  | Ret _ => True
  | Vis e k =>
      if is_profile_lookup e then
        match n with
        | O => False
        | S n' => forall x, lookups_at_most n' (k x)
        end
      else forall x, lookups_at_most n (k x)
  end.

(** [p] looks a profile up [n] times, whatever the world answers. *)
Fixpoint lookups_exactly {R} (n : nat) (p : prog R) : Prop :=
  match p with
  | Ret _ => n = O
  | Vis e k =>
      if is_profile_lookup e then
        match n with
        | O => False
        | S n' => forall x, lookups_exactly n' (k x)
        end
      else forall x, lookups_exactly n (k x)
  end.

(** The phrases that ask for a human. *)
Definition escalation_phrases : list string :=
  ["speak to human"; "talk to agent"; "agent please"].

(** [text] contains [phrase] when case is ignored: some part of [text] is
    [phrase] up to the case of its letters. *)
Definition mentions (phrase text : string) : Prop :=
  exists before part after,
    text = (before ++ part ++ after)%string /\ PyStr.lower part = phrase.

(** The utterance asks for a human: its text contains one of the phrases. *)
Definition asks_human (msg : chat_content) : Prop :=
  exists text phrase,
    Voicebot.flatten_content msg = Some text
    /\ In phrase escalation_phrases
    /\ mentions phrase text.

(** [m] leaves every state related by [R] to the one it started from. *)
Definition keeps (R : Voicebot.state -> Voicebot.state -> Prop) A
  (m : Voicebot.SM A) : Prop :=
  forall s, all_leaves (fun rs => R s (snd rs)) (m s).

(** What a function call may change: the function context, nothing else. *)
Definition only_fnc (s s' : Voicebot.state) : Prop :=
  s' = Voicebot.with_fnc (Voicebot.fnc s') s.

(** Neither a lookup of a store profile nor a write to Redis. *)
Definition no_profile_access (X : Type) (e : event X) : Prop :=
  is_profile_lookup e = false /\ is_redis_write e = false.

(** The key of a profile lookup. *)
Definition lookup_key (X : Type) (e : event X) : option string :=
  match e with RedisHGetAll key => Some key | _ => None end.

(** The store profile that [get_store_from_redis] makes of the answer of
    Redis for the called number. *)
Definition profile_of_answer (called : option string)
  (answer : result (list (string * string)))
  : option string * option string * option string * option string :=
  if opt_truthy called then
    match answer with
    | Ok (kv :: data) =>
        (Voicebot.attr "store_name" (kv :: data),
         Voicebot.attr "store_details" (kv :: data),
         Voicebot.attr "shopify_access_token" (kv :: data),
         Voicebot.attr "shopify_base_url" (kv :: data))
    | _ => (None, None, None, None)
    end
  else (None, None, None, None).

(** What an operation does to the session variables. *)
Definition session_step `{PyText} (op : operation) (x : Voicebot.session)
  : Voicebot.session :=
  match op with
  | UserSpeechCommitted msg => Voicebot.on_user_speech_committed msg x
  | AgentSpeechCommitted msg => Voicebot.on_agent_speech_committed msg x
  | _ => x
  end.

(** A session as [entrypoint] creates it, and a first caller utterance: one
    of the examples the classifier itself gives for the intent [order]. *)
Definition fresh_session : Voicebot.session :=
  Voicebot.mkSession "session_0" 0 [] 1 1 None false.

Definition order_utterance : chat_content :=
  ContentStr "Where is my order?".

(** *** The contract of the vector index

    What a nearest-neighbor search promises about its answer: at most
    [limit] points, each with a score that reaches the threshold. *)
Definition index_honours (req : search_request) (pts : list scored_point)
  : Prop :=
  (Z.of_nat (length pts) <= search_limit req)%Z
  /\ forall t, search_threshold req = Some t ->
               Forall (fun p => Qle t (sp_score p)) pts.

(** A world whose searches keep the contract. *)
Definition honest S (h : handler S) : Prop :=
  forall (req : search_request) (w w1 : S) (pts : list scored_point),
    h _ (QdrantSearch req) w = (Ok pts, w1) -> index_honours req pts.

(** The conditions the claim lists for a product search: the product type
    always; the store, the product type and the vendor when given; one
    alternative over the tags when tags are given. *)
Definition product_conditions_spec (store_name product_type vendor
  : option string) (tags : option (list string)) (c : condition) : Prop :=
  c = FieldCondition "type" (VStr "shopify_product")
  \/ (opt_truthy store_name = true
      /\ c = FieldCondition "store" (opt_value store_name))
  \/ (opt_truthy product_type = true
      /\ c = FieldCondition "product_type" (opt_value product_type))
  \/ (opt_truthy vendor = true
      /\ c = FieldCondition "vendor" (opt_value vendor))
  \/ (exists tag rest,
         tags = Some (tag :: rest)
         /\ c = NestedFilter
                  (Filter []
                     (map (fun t => FieldCondition "tags" (VStr t))
                        (tag :: rest))
                     (Some 1%Z))).

(** The conditions of a document search: the store, the type and the source
    when given, and nothing else. *)
Definition document_conditions_spec (store_name doc_type source
  : option string) (c : condition) : Prop :=
  (opt_truthy store_name = true
   /\ c = FieldCondition "store" (opt_value store_name))
  \/ (opt_truthy doc_type = true
      /\ c = FieldCondition "type" (opt_value doc_type))
  \/ (opt_truthy source = true
      /\ c = FieldCondition "source" (opt_value source)).

(** A scripted world whose searches keep the contract: of the scripted
    points it returns the first [limit] that reach the threshold, and it
    rejects a negative limit. *)
Definition reaches (threshold : option Q) (p : scored_point) : bool :=
  match threshold with
  | Some t => Qle_bool t (sp_score p)
  | None => true
  end.

Definition honest_oracle : handler World.world :=
  fun X (e : event X) (w : World.world) =>
    match e in event X return event X -> X * World.world with
    | QdrantSearch req =>
        fun e' =>
          match World.oracle e' w with
          | (Ok pts, w') =>
              if (search_limit req <? 0)%Z
              then (Raise (ExternalError "limit"), w')
              else (Ok (firstn (Z.to_nat (search_limit req))
                          (List.filter (reaches (search_threshold req)) pts)),
                    w')
          | other => other
          end
    | _ => fun e' => World.oracle e' w
    end e.

(** Two products of the demo index, one well under the threshold. *)
Definition demo_points : list scored_point :=
  [mkScoredPoint (VInt 1) (9 # 10)
     [("type", VStr "shopify_product"); ("title", VStr "Blue shirt");
      ("store", VStr "demo")];
   mkScoredPoint (VInt 2) (3 # 10)
     [("type", VStr "shopify_product"); ("title", VStr "Red shoes");
      ("store", VStr "demo")]].

(** *** Vocabulary of the further properties *)

(** The computation ended without an exception. *)
Definition returned {A} (r : result A) : Prop :=
  match r with Ok _ => True | Raise _ => False end.

(** The status codes on which [raise_for_status] raises. *)
Definition is_error_status (status : Z) : bool :=
  ((400 <=? status) && (status <? 600))%Z.

(** The URL [fetch_customer_id] asks. *)
Definition customers_url (self : Shopify.collector) (phone : option string)
  : string :=
  let url := (opt_str (Shopify.BASE_URL self) ++ "/customers.json?phone="
              ++ opt_str phone)%string in
  if negb (PyStr.contains "https://" url) then ("https://" ++ url)%string
  else url.

(** The [shipping_address] inside an update payload. *)
Definition shipping_address_of (payload : value) : option value :=
  match payload with
  | VDict d =>
      match PyDict.get "order" d with
      | VDict order => PyDict.lookup "shipping_address" order
      | _ => None
      end
  | _ => None
  end.

(** The file [update_order] writes. *)
Definition is_write_file (X : Type) (e : event X) : bool :=
  match e with WriteFile _ _ => true | _ => false end.

(** No character of [s] is [c]. *)
Fixpoint free_of (c : ascii) (s : string) : bool :=
  match s with
  | EmptyString => true
  | String x s' => negb (Ascii.eqb x c) && free_of c s'
  end.

(** The shapes of what the query operations return. *)
Definition is_list (r : result value) : Prop :=
  exists l, r = Ok (VList l).

Definition is_dict_or_none (r : result value) : Prop :=
  r = Ok VNone \/ exists d, r = Ok (VDict d).

Definition is_search_all_result (r : result value) : Prop :=
  exists documents products,
    r = Ok (VDict [("documents", VList documents);
                   ("products", VList products)]).

Definition is_names_result (r : result (option value)) : Prop :=
  r = Ok None \/ exists l, r = Ok (Some (VList l)).

(** A point without the key [store_details]. *)
Definition lacks_details (point : record) : bool :=
  negb (PyDict.has_key "store_details" (rec_payload point)).

(** The page a scroll asks for: the first one without an offset. *)
Definition page_of (offset : option value) : nat :=
  match offset with
  | Some (VInt i) => Z.to_nat i
  | _ => O
  end.

(** An index whose document collection is made of [pages]: a scroll answers
    the page its offset names, and with it the offset of the next page,
    [None] with the last one.  The other events are answered as by
    [World.oracle]. *)
Definition paged_index (pages : list (list record)) : handler World.world :=
  fun X (e : event X) (w : World.world) =>
    match e in event X return X * World.world with
    | QdrantScroll req =>
        let i := page_of (scroll_offset req) in
        (Ok (nth i pages [],
             if (S i <? length pages)%nat then Some (VInt (Z.of_nat (S i)))
             else None),
         w)
    | e' => World.oracle e' w
    end.

(** What [get_all_store_names] makes of the names gathered: the sorted
    list, or the empty list when gathering or sorting raised. *)
Definition names_answer `{PySet} (gathered : result (list value))
  : result (option value) :=
  match gathered with
  | Ok store_names =>
      match sorted store_names with
      | Ok l => Ok (Some (VList l))
      | Raise _ => Ok (Some (VList []))
      end
  | Raise _ => Ok (Some (VList []))
  end.

(** A plain implementation of the set interface, for concrete runs: sets of
    strings, sorted by code points. *)
Fixpoint insert_sorted (s : string) (l : list string) : list string :=
  match l with
  | [] => [s]
  | x :: rest =>
      if String.leb s x then s :: l else x :: insert_sorted s rest
  end.

Fixpoint strings_of (l : list value) : result (list string) :=
  match l with
  | [] => Ok []
  | VStr s :: rest =>
      match strings_of rest with
      | Ok r => Ok (s :: r)
      | Raise e => Raise e
      end
  | _ => Raise TypeError
  end.

#[local] Instance plain_set : PySet := {|
  set_add := fun members v =>
    match v with
    | VStr s =>
        if existsb (fun x => eq_str x s) members then Ok members
        else Ok (members ++ [v])
    | _ => Raise TypeError
    end;
  sorted := fun members =>
    match strings_of members with
    | Ok l => Ok (map VStr (fold_right insert_sorted [] l))
    | Raise e => Raise e
    end
|}.

(** The intents [extract_entities] has a prompt for. *)
Definition prompted_intents : list string :=
  ["order"; "update_order"; "cancel_order"; "product"; "store_info"].

(** *** What a pattern can consume

    [consumes icase r c c']: the pattern [r] can take the subject from the
    cursor [c] to the cursor [c']. *)

Fixpoint iterated (n : nat) (R : Re.cursor -> Re.cursor -> Prop)
  (c c' : Re.cursor) : Prop :=
  match n with
  | O => c' = c
  | S n' => exists c1, R c c1 /\ iterated n' R c1 c'
  end.

Fixpoint consumes (icase : bool) (r : Re.regex) (c c' : Re.cursor) : Prop :=
  match r with
  | Re.Eps => c' = c
  | Re.Lit ch => Re.step_char (Re.lit_matches icase ch) c = Some c'
  | Re.Class neg items =>
      Re.step_char (fun x => xorb neg (Re.in_class icase items x)) c
      = Some c'
  | Re.WordBoundary => Re.at_boundary c = true /\ c' = c
  | Re.Seq r1 r2 =>
      exists c1, consumes icase r1 c c1 /\ consumes icase r2 c1 c'
  | Re.Alt r1 r2 => consumes icase r1 c c' \/ consumes icase r2 c c'
  | Re.Repeat body mn mx =>
      exists n, mn <= n /\ iterated n (consumes icase body) c c'
  | Re.Group _ body => consumes icase body c c'
  end.

(** The cursor is a position of the subject. *)
Definition inside (subject : list ascii) (c : Re.cursor) : Prop :=
  Re.cur_rest c = skipn (Re.cur_pos c) subject.

(** A pattern whose last part is the group 1 over one digit at least. *)
Fixpoint ends_in_digits (r : Re.regex) : bool :=
  match r with
  | Re.Seq _ r2 => ends_in_digits r2
  | Re.Group 1 (Re.Repeat (Re.Class false [Re.CDigit]) (S _) None) => true
  | _ => false
  end.

(** A string of decimal digits. *)
Definition all_digits (s : string) : bool :=
  forallb PyStr.is_digit (list_ascii_of_string s).

(** The number of decimal digits in a text. *)
Definition count_digits (text : list ascii) : nat :=
  length (List.filter PyStr.is_digit text).

(** The least number of digits in a text the pattern consumes. *)
Fixpoint min_digits (r : Re.regex) : nat :=
  match r with
  | Re.Class false [Re.CDigit] => 1
  | Re.Seq r1 r2 => min_digits r1 + min_digits r2
  | Re.Alt r1 r2 => Nat.min (min_digits r1) (min_digits r2)
  | Re.Repeat body mn _ => mn * min_digits body
  | Re.Group _ body => min_digits body
  | _ => 0
  end.

(** A text of digits and plus signs. *)
Definition digits_and_plus (s : string) : bool :=
  forallb (fun c => PyStr.is_digit c || Ascii.eqb c "+"%char)
    (list_ascii_of_string s).

(** *** Runs

    [all_runs P p]: in every run of [p], the exchanges with the world, in the
    order they happen, and the value returned satisfy [P]. *)
Fixpoint all_runs {R} (P : list io -> R -> Prop) (p : prog R) : Prop :=
  match p with
  | Ret r => P [] r
  | Vis e k => forall x, all_runs (fun log r => P (IO e x :: log) r) (k x)
  end.

Definition raised {A} (r : result A) : bool :=
  match r with Ok _ => false | Raise _ => true end.

(** The call of the exchange raised. *)
Definition io_raised (i : io) : bool :=
  match i with
  | IO e x =>
      match e in event X return X -> bool with
      | HttpRequest _ _ _ _ => raised
      | QdrantSearch _ => raised
      | QdrantScroll _ => raised
      | QdrantUpsert _ _ => raised
      | QdrantDelete _ _ => raised
      | QdrantCreateCollection _ => raised
      | QdrantDeleteCollection _ => raised
      | EmbedQuery _ => raised
      | LlmClassify _ _ _ => raised
      | LlmExtract _ _ => raised
      | RedisHGetAll _ => raised
      | RedisHGet _ _ => raised
      | RedisHSet _ _ _ => raised
      | RedisDelete _ => raised
      | DbConnect => raised
      | DbExecute _ => raised
      | DbCommit => raised
      | DbClose => raised
      | RoomConnect => raised
      | AgentSay _ => raised
      | SipTransfer _ _ _ => raised
      | MakeDirs _ => raised
      | WriteFile _ _ => raised
      | _ => fun _ => false
      end x
  end.

Definition is_connect (X : Type) (e : event X) : bool :=
  match e with DbConnect => true | _ => false end.

Definition is_commit (X : Type) (e : event X) : bool :=
  match e with DbCommit => true | _ => false end.

Definition is_close (X : Type) (e : event X) : bool :=
  match e with DbClose => true | _ => false end.

(** The exchange is a call of the given class that succeeded. *)
Definition succeeded (P : forall X, event X -> bool) (i : io) : bool :=
  io_is P i && negb (io_raised i).

(** The exchange is a call of the given class that raised. *)
Definition failed (P : forall X, event X -> bool) (i : io) : bool :=
  io_is P i && io_raised i.

(** How often an exchange of a kind occurs in a run. *)
Definition count (f : io -> bool) (log : list io) : nat :=
  length (List.filter f log).

(** The entry an operation adds to the conversation log: one block per
    committed message, none for the other operations. *)
Definition entry_of `{PyText} (op : operation) : list string :=
  match op with
  | UserSpeechCommitted msg =>
      [("USER:" ++ Voicebot.nl ++ opt_str (Voicebot.flatten_content msg)
        ++ Voicebot.nl ++ Voicebot.nl)%string]
  | AgentSpeechCommitted msg =>
      [("AGENT:" ++ Voicebot.nl ++ Voicebot.content_text msg
        ++ Voicebot.nl ++ Voicebot.nl)%string]
  | _ => []
  end.

(** One day, in seconds and in microseconds. *)
Definition day_seconds : Z := 86400.
Definition day_us : Z := 86400000000.

(** The function calls the model may make. *)
Definition is_tool (op : operation) : bool :=
  match op with
  | UserSpeechCommitted _ | AgentSpeechCommitted _ | SaveConversation => false
  | _ => true
  end.

(** The result of a function call is a dictionary. *)
Definition answers_dict (rs : result value * Voicebot.state) : Prop :=
  exists d, fst rs = Ok (VDict d).

(** The same, for a step inside the [try]: an exception is still to be
    caught. *)
Definition dict_or_raise (rs : result value * Voicebot.state) : Prop :=
  match fst rs with
  | Ok v => exists d, v = VDict d
  | Raise _ => True
  end.

(** The state [entrypoint] leaves: no store profile yet, the room name in
    the place of the collector, a fresh session. *)
Definition idle_state : Voicebot.state :=
  Voicebot.mkState None None None None None None false true
    (Voicebot.mkFnc None (Voicebot.RoomName "room") None) fresh_session.

(** A request to the shop. *)
Definition is_request (X : Type) (e : event X) : bool :=
  match e with HttpRequest _ _ _ _ => true | _ => false end.

(** The function calls on orders. *)
Definition is_order_tool (op : operation) : bool :=
  match op with
  | GetOrderStatus _ | UpdateOrder _ _ _ _ _ _ _ _ _ _ | CancelOrder _ _ =>
      true
  | _ => false
  end.

(** A function context that cannot reach the shop: the room name stands in
    the place of the collector, or the collector has no credentials. *)
Definition blind (f : Voicebot.shopify_field) : bool :=
  match f with
  | Voicebot.NoShopify => false
  | Voicebot.RoomName room => negb (PyStr.is_empty room)
  | Voicebot.Collector c => negb (has_credentials c)
  end.

(** The access token of a store profile. *)
Definition profile_token
  (profile : option string * option string * option string * option string)
  : option string :=
  snd (fst profile).

(** The exchange reads the environment variable [name] and finds a
    non-empty value. *)
Definition env_set (name : string) (i : io) : bool :=
  match i with
  | IO e x =>
      match e in event X return X -> bool with
      | GetEnv n => fun x => String.eqb n name && opt_truthy x
      | _ => fun _ => false
      end x
  end.

(** The exchange asks for the participant of the call and finds one. *)
Definition participant_known (i : io) : bool :=
  match i with
  | IO e x =>
      match e in event X return X -> bool with
      | AgentParticipant => fun x => opt_truthy x
      | _ => fun _ => false
      end x
  end.

Definition is_transfer (X : Type) (e : event X) : bool :=
  match e with SipTransfer _ _ _ => true | _ => false end.

Definition is_hget (X : Type) (e : event X) : bool :=
  match e with RedisHGet _ _ => true | _ => false end.

(** The [success] entry of the answer of a function call. *)
Definition success_of (r : result value) : option value :=
  match r with
  | Ok (VDict d) => PyDict.lookup "success" d
  | _ => None
  end.

(** The answer of [get_order_status] lists at most [n] orders. *)
Definition lists_at_most (n : nat) (rs : result value * Voicebot.state)
  : Prop :=
  match fst rs with
  | Ok (VDict d) =>
      match PyDict.lookup "orders" d with
      | Some (VList l) => length l <= n
      | _ => False
      end
  | Ok _ => False
  | Raise _ => True
  end.

(** How often the character [ch] occurs in a text. *)
Definition count_char (ch : ascii) (text : list ascii) : nat :=
  length (List.filter (Ascii.eqb ch) text).

(** The least number of literal [ch] in a text the pattern consumes when
    case matters. *)
Fixpoint min_char (ch : ascii) (r : Re.regex) : nat :=
  match r with
  | Re.Lit c => if Ascii.eqb ch c then 1 else 0
  | Re.Seq r1 r2 => min_char ch r1 + min_char ch r2
  | Re.Alt r1 r2 => Nat.min (min_char ch r1) (min_char ch r2)
  | Re.Repeat body mn _ => mn * min_char ch body
  | Re.Group _ body => min_char ch body
  | _ => 0
  end.

(** The fields [_format_address] reads. *)
Definition address_keys : list string :=
  ["name"; "address1"; "address2"; "city"; "province_code"; "zip";
   "country"].

(** A field that is a string or is missing. *)
Definition text_or_missing (v : value) : bool :=
  match v with
  | VStr _ | VNone => true
  | _ => false
  end.

(** The exchange went wrong: the call raised, or it is a request that the
    server answered with a status on which [raise_for_status] raises. *)
Definition went_wrong (i : io) : bool :=
  io_raised i
  || match i with
     | IO e x =>
         match e in event X return X -> bool with
         | HttpRequest _ _ _ _ =>
             fun r =>
               match r with
               | Ok resp => is_error_status (status_code resp)
               | Raise _ => false
               end
         | _ => fun _ => false
         end x
     end.

(** What a method of the collector gives back in a run: it returns, and
    with [failure] when an exchange of the run went wrong. *)
Definition contained (failure : value) (log : list io) (r : result value)
  : Prop :=
  exists v, r = Ok v /\ (existsb went_wrong log = true -> v = failure).

(** The order is the one asked for: its [id] or its [order_number], as
    text, is [order_id]. *)
Definition names_order `{PyText} (order_id : string) (order : dict) : bool :=
  String.eqb (py_str (PyDict.get "id" order)) order_id
  || String.eqb (py_str (PyDict.get "order_number" order)) order_id.

(** * Properties *)

Local Open Scope string_scope.

(** ** Reasoning about programs *)

Section ProgramLogic.

Variable P : forall X, event X -> Prop.

Lemma all_events_bind A B (m : M A) (k : A -> M B) :
  all_events P m -> (forall a, all_events P (k a)) ->
  all_events P (bind m k).
Proof.
  induction m as [[a | e] | X e h IH]; simpl; intros Hm Hk; auto.
  destruct Hm as [He Hh]. split; auto.
Qed.

Lemma all_events_try_catch A (m : M A) (h : exn -> M A) :
  all_events P m -> (forall e, all_events P (h e)) ->
  all_events P (try_catch m h).
Proof.
  induction m as [[a | e] | X e k IH]; simpl; intros Hm Hh; auto.
  destruct Hm as [He Hk]. split; auto.
Qed.

Lemma all_events_try_finally A (m : M A) (fin : M unit) :
  all_events P m -> all_events P fin -> all_events P (try_finally m fin).
Proof.
  induction m as [r | X e k IH]; simpl; intros Hm Hf.
  - apply all_events_bind; simpl; auto.
  - destruct Hm as [He Hk]. split; auto.
Qed.

Lemma all_events_pbind A B (p : prog A) (k : A -> prog B) :
  all_events P p -> (forall a, all_events P (k a)) ->
  all_events P (Voicebot.pbind p k).
Proof.
  induction p as [a | X e h IH]; simpl; intros Hp Hk; auto.
  destruct Hp as [He Hh]. split; auto.
Qed.

Lemma all_events_call X (e : event (result X)) :
  P e -> all_events P (call e).
Proof. simpl; auto. Qed.

Lemma all_events_perform X (e : event X) :
  P e -> all_events P (perform e).
Proof. simpl; auto. Qed.

Lemma all_events_gather A B (p : prog A) (q : prog B) :
  P Schedule -> all_events P p -> all_events P q ->
  all_events P (gather p q).
Proof.
  intros Hs. revert q.
  induction p as [a | X e k IHp]; intros q Hp Hq.
  - induction q as [b | Y e' k' IHq]; simpl in *.
    + exact I.
    + destruct Hq as [He' Hk']. split; [assumption |].
      intros x. apply IHq. apply Hk'.
  - destruct Hp as [He Hk].
    induction q as [b | Y e' k' IHq]; simpl.
    + split; [assumption |]. intros x. apply IHp; [apply Hk | exact I].
    + destruct Hq as [He' Hk']. split; [assumption |].
      intros [|]; simpl.
      * split; [assumption |]. intros x. apply IHp; [apply Hk |].
        simpl. split; assumption.
      * split; [assumption |]. intros x. apply IHq. apply Hk'.
Qed.

(** What holds of every event holds of every exchange of every run. *)
Lemma all_events_run_log S R (h : handler S) (p : prog R) :
  all_events P p ->
  forall s, Forall (fun i => match i with IO e _ => P e end)
              (snd (run_log h p s)).
Proof.
  induction p as [r | X e k IH]; simpl; intros Hp s.
  - constructor.
  - destruct Hp as [He Hk]. destruct (h X e s) as [x s'].
    specialize (IH x (Hk x) s').
    destruct (run_log h (k x) s') as [[r s''] log]. simpl in *.
    constructor; auto.
Qed.

End ProgramLogic.

Lemma all_events_weaken (P Q : forall X, event X -> Prop) R (p : prog R) :
  (forall X (e : event X), P X e -> Q X e) ->
  all_events P p -> all_events Q p.
Proof.
  intros HPQ. induction p as [r | X e k IH]; simpl; auto.
  intros [He Hk]. split; auto.
Qed.

(** [run] is [run_log] without the log. *)
Lemma run_log_run S R (h : handler S) (p : prog R) (s : S) :
  fst (run_log h p s) = run h p s.
Proof.
  revert s. induction p as [r | X e k IH]; simpl; intros s; auto.
  destruct (h X e s) as [x s']. rewrite <- IH.
  destruct (run_log h (k x) s') as [[r s''] log]. reflexivity.
Qed.

(** A call followed by its continuation. *)
Lemma run_bind_call S X B (h : handler S) (e : event (result X))
  (k : X -> M B) (s : S) :
  run h (bind (call e) k) s
  = match fst (h _ e s) with
    | Ok a => run h (k a) (snd (h _ e s))
    | Raise err => (Raise err, snd (h _ e s))
    end.
Proof.
  simpl. destruct (h (result X) e s) as [[a | err] s']; reflexivity.
Qed.

(** ** C1: the label returned by the classifier *)

Lemma mem_In (x : string) (l : list string) :
  PyStr.mem x l = true -> In x l.
Proof.
  unfold PyStr.mem. rewrite existsb_exists. intros [y [Hy Heq]].
  apply String.eqb_eq in Heq. subst. assumption.
Qed.

(** Whatever the model answers, the label is one of the six intents: the
    normalized answer when it is an intent, [store_info] otherwise. *)
Lemma classify_intent_label S (h : handler S) (w w1 : S)
  (history query response : string) :
  h _ (LlmClassify IntentClassifier.examples_text history query) w
    = (Ok response, w1) ->
  let intent := PyStr.lower (PyStr.strip response) in
  let label := if PyStr.mem intent IntentClassifier.intents
               then intent else "store_info" in
  run h (IntentClassifier.classify_intent history query) w = (Ok label, w1)
  /\ In label IntentClassifier.intents.
Proof.
  intros Hh intent label. split.
  - unfold IntentClassifier.classify_intent.
    rewrite run_bind_call, Hh. cbn [fst snd].
    fold intent. unfold label.
    destruct (PyStr.mem intent IntentClassifier.intents); reflexivity.
  - unfold label.
    destruct (PyStr.mem intent IntentClassifier.intents) eqn:Hmem.
    + apply mem_In. assumption.
    + simpl. tauto.
Qed.

(** C1 (the code departs from the claim).  On an answer that is no intent,
    here [I am not sure], [classify_intent] returns [store_info]; the claim,
    and the comment above the [return], name [general]. *)
Theorem C1_classify_intent_defaults_to_store_info :
  forall history query : string,
    fst (run World.oracle
           (IntentClassifier.classify_intent history query)
           (World.scripted [World.AString (Ok "I am not sure")]))
    = Ok "store_info"
    /\ PyStr.mem (PyStr.lower (PyStr.strip "I am not sure"))
         IntentClassifier.intents = false
    /\ "store_info" <> "general".
Proof.
  intros history query. split; [reflexivity | split; [reflexivity |]].
  discriminate.
Qed.

(** ** C2: the row written at call end *)

(** The dictionary of the shutdown callback has no [Call_Reason]: building
    the parameters raises. *)
Lemma parameters_of_conversation_data (x : Voicebot.session) (now : Z) :
  Voicebot.parameters_of (Voicebot.conversation_data_of x now)
  = Raise (KeyError "Call_Reason").
Proof. reflexivity. Qed.

Lemma insert_conversation_no_insert (engine : bool)
  (x : Voicebot.session) (now : Z) :
  all_events (fun X e => is_insert e = false)
    (Voicebot.insert_conversation_to_db engine
       (Voicebot.conversation_data_of x now)).
Proof.
  unfold Voicebot.insert_conversation_to_db.
  rewrite parameters_of_conversation_data.
  destruct engine; simpl; auto.
  split; [reflexivity |]. intros [[] | e]; simpl; auto.
  split; [reflexivity |]. intros [[] | e]; simpl; auto.
Qed.

(** With a dictionary that has all nine columns the same function does
    insert one row. *)
Lemma insert_conversation_inserts_complete_row :
  let data :=
    [("Conversation", VStr ""); ("User_ID", VInt 1); ("Store_ID", VInt 1);
     ("Session_ID", VStr "session_0"); ("Session_Time", VDatetime 0);
     ("Duration_of_Call", VInt 0); ("Call_Reason", VNone);
     ("Escalation", VBool false); ("Query_Type", VNone)] in
  run World.oracle (Voicebot.insert_conversation_to_db true data)
    (World.scripted [])
  = (Ok true, World.mkWorld [] [data]).
Proof. reflexivity. Qed.

(** C2 (the code departs from the claim).  The shutdown callback never
    issues the [INSERT]: in no run, for no session.  In particular a session
    with one caller message and one agent message, on a database that
    accepts every statement, ends with an empty [Conversations] table, where
    the claim has one row. *)
Theorem C2_save_conversation_writes_no_row :
  (forall s : Voicebot.state,
      all_events (fun X e => is_insert e = false)
        (Voicebot.save_conversation_to_db s))
  /\ (forall (s : Voicebot.state) (w : World.world),
         World.conversations
           (snd (run World.oracle (Voicebot.save_conversation_to_db s) w))
         = World.conversations w)
  /\ (let x :=
        Voicebot.mkSession "session_1.5" 1500000
          ["USER:" ++ Voicebot.nl ++ "Where is my order?" ++ Voicebot.nl
             ++ Voicebot.nl;
           "AGENT:" ++ Voicebot.nl ++ "Let me check." ++ Voicebot.nl
             ++ Voicebot.nl]
          1 1 None false in
      let s :=
        Voicebot.mkState None None None None None None false true
          (Voicebot.mkFnc None Voicebot.NoShopify None) x in
      run World.oracle (Voicebot.save_conversation_to_db s)
        (World.scripted [World.ATime 61500000])
      = (Ok tt, s, World.mkWorld [] [])).
Proof.
  split; [| split].
  - intros s. unfold Voicebot.save_conversation_to_db, Voicebot.io_.
    apply all_events_pbind; [| intros; exact I].
    apply all_events_try_catch; [| intros; exact I].
    simpl. split; [reflexivity |]. intros now.
    apply all_events_bind; [| intros; exact I].
    apply insert_conversation_no_insert.
  - intros s w.
    unfold Voicebot.save_conversation_to_db, Voicebot.io_,
      Voicebot.insert_conversation_to_db.
    simpl.
    destruct (World.script w) as [| [] script']; simpl;
      rewrite ?parameters_of_conversation_data;
      destruct (Voicebot.engine s); simpl; try reflexivity;
      repeat (unfold World.unit_answer; simpl;
              match goal with
              | |- context [match ?l with [] => _ | _ :: _ => _ end] =>
                  destruct l; simpl
              | |- context [match ?a with World.AUnit _ => _ | _ => _ end] =>
                  destruct a; simpl
              | |- context [match ?r with Ok _ => _ | Raise _ => _ end] =>
                  destruct r; simpl
              | |- context [match ?u with tt => _ end] => destruct u; simpl
              end);
      reflexivity.
  - reflexivity.
Qed.

(** On an answer that is an intent up to case and surrounding blanks the
    label is that intent. *)
Example classify_intent_order :
  fst (run World.oracle (IntentClassifier.classify_intent "" "Where is it?")
         (World.scripted
            [World.AString (Ok ("  Order" ++ IntentClassifier.nl))]))
  = Ok "order".
Proof. reflexivity. Qed.

(** ** C3: the regex fallback of the entity extractor *)

(** The patterns at work. *)
Example order_id_examples :
  map IntentClassifier.extract_order_id_regex
    ["Where is order #12345?"; "my ORDER number 777 please"; "order no. 42";
     "order id:9"; "ticket #901 thanks"; "it is 1234567 ok"; "no number"]
  = [Some "12345"; Some "777"; Some "42"; None; Some "901"; Some "1234567";
     None].
Proof. vm_compute. reflexivity. Qed.

Example phone_examples :
  map IntentClassifier.extract_phone_regex
    ["call me at +1 555-123-4567 or 5551234567"; "phone (555) 123-4567";
     "phone 555.123.4567x"; "123-4567"; "+91 98765 43210"]
  = [Some "5551234567"; Some "5551234567"; None; Some "1234567"; None].
Proof. vm_compute. reflexivity. Qed.

Example email_examples :
  map IntentClassifier.extract_email_regex
    ["mail me at john.doe+x@example.co.uk, thanks"; "bad@mail"]
  = [Some "john.doe+x@example.co.uk"; None].
Proof. vm_compute. reflexivity. Qed.

(** Two blanks, or [is] or a colon between blanks, must follow the keyword:
    [postal 90210] gives no zip code. *)
Example address_examples :
  map IntentClassifier.extract_address_info_regex
    ["my address is 12 Main Street, city is Springfield. zip code is 12345 state is IL";
     "address line 1 is 5 Elm Rd, address line 2: Apt 4. country is USA";
     "my last name is Smith, postal 90210"]
  = [[("address1", VStr "12 Main Street"); ("city", VStr "Springfield");
      ("zip", VStr "12345"); ("province_code", VStr "IL")];
     [("address1", VStr "5 Elm Rd"); ("address2", VStr "Apt 4");
      ("country", VStr "USA")];
     [("last_name", VStr "Smith")]].
Proof. vm_compute. reflexivity. Qed.

Example product_words_example :
  Re.findall true IntentClassifier.product_words_pattern
    "I want shirts, a SHIRT and Shoes; item-product"
  = ["SHIRT"; "Shoes"; "item"; "product"].
Proof. vm_compute. reflexivity. Qed.

Lemma run_log_try_call S X (h : handler S) (e : event (result X))
  (fallback : M X) (s s1 : S) (err : exn) :
  h _ e s = (Raise err, s1) ->
  run_log h (try_catch (call e) (fun _ => fallback)) s
  = let '(r, s2, log) := run_log h fallback s1 in
    (r, s2, IO e (Raise err) :: log).
Proof.
  intros Hh. simpl. rewrite Hh. reflexivity.
Qed.

(** C3.  For the intents [order], [update_order] and [cancel_order], when
    the prompted extraction raises, whatever the exception, [extract_entities]
    returns normally, after that one call, the dictionary of the regex
    extraction: the order-ID patterns alone for [order] and [cancel_order];
    the order-ID, email and phone patterns and then the address patterns for
    [update_order]. *)
Theorem C3_extract_entities_falls_back_to_regex :
  forall S (h : handler S) (w w1 : S) (query intent : string) (err : exn),
    In intent ["order"; "update_order"; "cancel_order"] ->
    (forall p, h _ (LlmExtract p query) w = (Raise err, w1)) ->
    let order_id := IntentClassifier.extract_order_id_regex query in
    let email := IntentClassifier.extract_email_regex query in
    let phone := IntentClassifier.extract_phone_regex query in
    let address_info := IntentClassifier.extract_address_info_regex query in
    let contact :=
      set_if "phone" phone
        (set_if "email" email (set_if "order_id" order_id [])) in
    run_log h (IntentClassifier.extract_entities query intent) w
    = (Ok (VDict
             (if intent =? "update_order" then
                match address_info with
                | [] => contact
                | _ => PyDict.update contact address_info
                end
              else set_if "order_id" order_id [])),
       w1,
       [IO (LlmExtract (prompt_for intent) query) (Raise err)]).
Proof.
  intros S h w w1 query intent err Hin Hh.
  destruct Hin as [<- | [<- | [<- | []]]]; cbn [String.eqb Ascii.eqb Bool.eqb];
    unfold IntentClassifier.extract_entities, prompt_for;
    cbn [String.eqb Ascii.eqb Bool.eqb].
  - unfold IntentClassifier.extract_order_entities.
    erewrite run_log_try_call by apply Hh.
    reflexivity.
  - unfold IntentClassifier.extract_update_order_entities.
    erewrite run_log_try_call by apply Hh.
    unfold IntentClassifier.extract_update_order_entities_regex.
    destruct (IntentClassifier.extract_address_info_regex query);
      reflexivity.
  - unfold IntentClassifier.extract_cancel_order_entities.
    erewrite run_log_try_call by apply Hh.
    reflexivity.
Qed.

(** C3 at a concrete query: the model answers with text that is not JSON. *)
Lemma C3_witness :
  run_log World.oracle
    (IntentClassifier.extract_entities
       "please update order #4521: my email is jo@shop.io, phone 555-123-4567, city is Paris."
       "update_order")
    (World.scripted [World.AValue (Raise OutputParserException)])
  = (Ok (VDict [("order_id", VStr "4521"); ("email", VStr "jo@shop.io");
                ("phone", VStr "5551234567"); ("city", VStr "Paris")]),
     World.scripted [],
     [IO (LlmExtract OrderUpdatePrompt
            "please update order #4521: my email is jo@shop.io, phone 555-123-4567, city is Paris.")
         (Raise OutputParserException)]).
Proof.
  rewrite (C3_extract_entities_falls_back_to_regex World.oracle
             (World.scripted [World.AValue (Raise OutputParserException)])
             (w1 := World.scripted [])
             "please update order #4521: my email is jo@shop.io, phone 555-123-4567, city is Paris."
             (intent := "update_order") (err := OutputParserException)).
  - vm_compute. reflexivity.
  - simpl. auto.
  - intros p. reflexivity.
Defined.

(** ** Running composed programs *)

Lemma run_bind S A B (h : handler S) (m : M A) (k : A -> M B) (s : S) :
  run h (bind m k) s
  = match fst (run h m s) with
    | Ok a => run h (k a) (snd (run h m s))
    | Raise err => (Raise err, snd (run h m s))
    end.
Proof.
  revert s. induction m as [[a | err] | X e g IH]; simpl; intros s; auto.
  destruct (h X e s) as [x s']. apply IH.
Qed.

Lemma run_try_catch S A (h : handler S) (m : M A) (c : exn -> M A) (s : S) :
  run h (try_catch m c) s
  = match fst (run h m s) with
    | Ok a => (Ok a, snd (run h m s))
    | Raise err => run h (c err) (snd (run h m s))
    end.
Proof.
  revert s. induction m as [[a | err] | X e g IH]; simpl; intros s; auto.
  destruct (h X e s) as [x s']. apply IH.
Qed.

Lemma run_lift S A (h : handler S) (r : result A) (s : S) :
  run h (lift r) s = (r, s).
Proof. reflexivity. Qed.

Lemma run_ret S A (h : handler S) (a : A) (s : S) :
  run h (ret a) s = (Ok a, s).
Proof. reflexivity. Qed.

Lemma run_call S X (h : handler S) (e : event (result X)) (s : S) :
  run h (call e) s = h _ e s.
Proof. simpl. destruct (h (result X) e s); reflexivity. Qed.

(** ** C4: the fields of the orders that are read *)

(** The allowlist has twenty fields, all different, none of them
    [customer_id]. *)
Lemma required_fields_count :
  length Shopify.required_fields = 20
  /\ NoDup ("customer_id" :: Shopify.required_fields).
Proof.
  split; [reflexivity |].
  unfold Shopify.required_fields.
  repeat (constructor;
          [simpl; intros Hin;
           repeat (destruct Hin as [Hin | Hin]; [discriminate |]);
           exact Hin |]).
  constructor.
Qed.

(** The keys of a filtered order, and what they are bound to. *)
Lemma filter_order_keys (customer_id : value) (order : dict) :
  PyDict.keys (Shopify.filter_order customer_id order)
  = "customer_id" :: Shopify.required_fields.
Proof. reflexivity. Qed.

Lemma filter_order_values (customer_id : value) (order : dict) :
  Shopify.filter_order customer_id order
  = ("customer_id", customer_id)
    :: map (fun key => (key, PyDict.get key order)) Shopify.required_fields.
Proof. reflexivity. Qed.

(** What [get_checked] gives back. *)
Lemma run_get_checked S (h : handler S) (self : Shopify.collector)
  (url : string) (s : S) :
  run h (Shopify.get_checked self url) s
  = match fst (h _ (HttpRequest GET url (Shopify.headers self) None) s) with
    | Ok resp =>
        if ((400 <=? status_code resp) && (status_code resp <? 600))%Z
        then (Raise (HTTPError (status_code resp)),
              snd (h _ (HttpRequest GET url (Shopify.headers self) None) s))
        else (Ok resp,
              snd (h _ (HttpRequest GET url (Shopify.headers self) None) s))
    | Raise err =>
        (Raise err,
         snd (h _ (HttpRequest GET url (Shopify.headers self) None) s))
    end.
Proof.
  unfold Shopify.get_checked, Shopify.raise_for_status. simpl.
  destruct (h _ (HttpRequest GET url (Shopify.headers self) None) s)
    as [[resp | err] s']; simpl; [| reflexivity].
  destruct ((400 <=? status_code resp) && (status_code resp <? 600))%Z;
    reflexivity.
Qed.

(** Around a body that catches its own exceptions the decorator only tests
    the credentials. *)
Lemma run_handle_auth_error S (h : handler S) (self : Shopify.collector)
  (body : M value) (c : exn -> value) (s : S) :
  run h (Shopify._handle_auth_error self
           (try_catch body (fun err => ret (c err)))) s
  = if has_credentials self
    then run h (try_catch body (fun err => ret (c err))) s
    else (Ok VNone, s).
Proof.
  unfold Shopify._handle_auth_error, has_credentials.
  rewrite run_try_catch.
  destruct (truthy _); simpl; [| reflexivity].
  destruct (opt_truthy (Shopify.BASE_URL self)); simpl; [| reflexivity].
  rewrite run_try_catch.
  destruct (run h body s) as [[v | err] s']; reflexivity.
Qed.

(** What a comprehension that succeeds is made of, item by item. *)
Lemma map_result_Forall2 A B (f : A -> result B) (l : list A) (bs : list B) :
  map_result f l = Ok bs -> Forall2 (fun a b => f a = Ok b) l bs.
Proof.
  revert bs. induction l as [| a l IH]; simpl; intros bs Hm.
  - inversion Hm. constructor.
  - destruct (f a) as [b | err] eqn:Hfa; [| discriminate].
    destruct (map_result f l) as [bs' | err]; [| discriminate].
    inversion Hm; subst. constructor; auto.
Qed.

(** The comprehension of [get_customer_orders] on a list of dictionaries. *)
Lemma map_result_filter_order (customer_id : value) (orders : list dict) :
  map_result
    (fun order =>
       match as_dict order with
       | Ok o => Ok (VDict (Shopify.filter_order customer_id o))
       | Raise e => Raise e
       end) (map VDict orders)
  = Ok (map (fun order => VDict (Shopify.filter_order customer_id order))
          orders).
Proof.
  induction orders as [| order orders IH]; [reflexivity |].
  cbn [map map_result as_dict]. rewrite IH. reflexivity.
Qed.

(** C4 (amended).  Whenever [get_customer_orders] returns a list, the
    request for the orders of that customer was answered by a response whose
    [orders] is a list of dictionaries, and the returned list has one
    dictionary for each of them, in the same order: its keys are exactly
    [customer_id] followed by the twenty fields of [required_fields], each
    field bound to what that order of the response has under the key (or
    [None]), and [customer_id] to the argument; no other field passes.
    Conversely a response with a non-empty list of orders is returned
    filtered in this way.  [get_all_orders] returns the [orders] of the
    response as they came, unfiltered. *)
Theorem C4_get_customer_orders_filters_fields :
  length Shopify.required_fields = 20
  /\ (forall (T : PyText) S (h : handler S) (self : Shopify.collector)
             (customer_id : value) (w : S) (orders : list value),
         fst (run h (Shopify.get_customer_orders self customer_id) w)
           = Ok (VList orders) ->
         exists (resp : response) (data : dict) (items : list value),
           fst (h _ (HttpRequest GET
                       (opt_str (Shopify.BASE_URL self)
                        ++ "/orders.json?query=customer_id:"
                        ++ py_str customer_id ++ "&status=any")
                       (Shopify.headers self) None) w) = Ok resp
           /\ body resp = Some (VDict data)
           /\ PyDict.get_default "orders" (VList []) data = VList items
           /\ Forall2
                (fun item o =>
                   exists order d,
                     item = VDict order
                     /\ o = VDict d
                     /\ PyDict.keys d
                        = "customer_id" :: Shopify.required_fields
                     /\ d = ("customer_id", customer_id)
                            :: map (fun key => (key, PyDict.get key order))
                                 Shopify.required_fields)
                items orders)
  /\ (forall (T : PyText) S (h : handler S) (self : Shopify.collector)
             (customer_id : value) (w w1 : S) (resp : response)
             (data : dict) (order : dict) (rest : list dict),
         has_credentials self = true ->
         h _ (HttpRequest GET
                (opt_str (Shopify.BASE_URL self)
                 ++ "/orders.json?query=customer_id:"
                 ++ py_str customer_id ++ "&status=any")
                (Shopify.headers self) None) w = (Ok resp, w1) ->
         ((400 <=? status_code resp) && (status_code resp <? 600))%Z
           = false ->
         body resp = Some (VDict data) ->
         PyDict.get_default "orders" (VList []) data
           = VList (map VDict (order :: rest)) ->
         run h (Shopify.get_customer_orders self customer_id) w
         = (Ok (VList
                  (map (fun order =>
                          VDict (("customer_id", customer_id)
                                 :: map (fun key =>
                                           (key, PyDict.get key order))
                                      Shopify.required_fields))
                     (order :: rest))), w1))
  /\ (forall S (h : handler S) (self : Shopify.collector) (w w1 : S)
             (resp : response) (d : dict),
         has_credentials self = true ->
         h _ (HttpRequest GET
                (opt_str (Shopify.BASE_URL self) ++ "/orders.json")
                (Shopify.headers self) None) w = (Ok resp, w1) ->
         ((400 <=? status_code resp) && (status_code resp <? 600))%Z
           = false ->
         body resp = Some (VDict d) ->
         run h (Shopify.get_all_orders self) w
         = (Ok (PyDict.get_default "orders" (VList []) d), w1)).
Proof.
  split; [reflexivity | split; [| split]].
  - intros T S h self customer_id w orders Hrun.
    unfold Shopify.get_customer_orders in Hrun.
    rewrite run_handle_auth_error in Hrun.
    destruct (has_credentials self); [| discriminate].
    rewrite run_try_catch, run_bind, run_get_checked in Hrun.
    destruct (h _ _ w) as [[resp | err] w1]; cbn [fst snd] in Hrun;
      [| discriminate].
    destruct ((400 <=? status_code resp) && (status_code resp <? 600))%Z;
      cbn [fst snd] in Hrun; [discriminate |].
    unfold Shopify.json in Hrun.
    destruct (body resp) as [[| | | | | | data |] |] eqn:Hbody;
      simpl in Hrun; try discriminate.
    exists resp, data.
    destruct (PyDict.get_default "orders" (VList []) data)
      as [| | | | s | items | keyed |] eqn:Horders;
      simpl in Hrun; try discriminate;
      try (exfalso;
           repeat match type of Hrun with
                  | context [if ?c then _ else _] => destruct c
                  end; simpl in Hrun; discriminate).
    + exfalso. destruct s as [| c s']; simpl in Hrun; discriminate.
    + exists items. split; [reflexivity | split; [exact Hbody |]].
      split; [reflexivity |].
      destruct items as [| item items']; simpl in Hrun; [discriminate |].
      destruct (map_result
                  (fun order =>
                     match as_dict order with
                     | Ok o => Ok (VDict (Shopify.filter_order customer_id o))
                     | Raise e => Raise e
                     end) (item :: items')) as [filtered | err] eqn:Hmap;
        simpl in Hmap; rewrite Hmap in Hrun; simpl in Hrun;
        [| discriminate].
      inversion Hrun; subst filtered.
      change (map_result
                (fun order =>
                   match as_dict order with
                   | Ok o => Ok (VDict (Shopify.filter_order customer_id o))
                   | Raise e => Raise e
                   end) (item :: items') = Ok orders) in Hmap.
      apply map_result_Forall2 in Hmap.
      eapply Forall2_impl; [| exact Hmap].
      intros a o Hitem. simpl in Hitem.
      destruct a; try discriminate. simpl in Hitem.
      inversion Hitem; subst o.
      eexists; eexists. repeat split.
    + exfalso. destruct keyed as [| [key v] keyed']; simpl in Hrun;
        discriminate.
  - intros T S h self customer_id w w1 resp data order rest
      Hcred Hget Hstatus Hbody Horders.
    unfold Shopify.get_customer_orders.
    rewrite run_handle_auth_error, Hcred.
    rewrite run_try_catch, run_bind, run_get_checked, Hget.
    cbn [fst snd]. rewrite Hstatus. cbn [fst snd].
    unfold Shopify.json. rewrite Hbody.
    cbn [bind ret lift as_dict]. rewrite Horders.
    cbn [truthy map iterate lift bind].
    change (VDict order :: map VDict rest) with (map VDict (order :: rest)).
    rewrite map_result_filter_order. reflexivity.
  - intros S h self w w1 resp d Hcred Hget Hstatus Hbody.
    unfold Shopify.get_all_orders.
    rewrite run_handle_auth_error, Hcred.
    rewrite run_try_catch, run_bind, run_get_checked, Hget.
    cbn [fst snd]. rewrite Hstatus. cbn [fst snd].
    unfold Shopify.json. rewrite Hbody. reflexivity.
Qed.

(** C4 as stated fails: [get_all_orders] hands the order over with its
    [note], a field outside the allowlist (which has twenty entries, not
    nineteen). *)
Lemma C4_counterexample :
  fst (run World.oracle (Shopify.get_all_orders demo_collector)
         (World.scripted [World.AResponse (Ok demo_orders_response)]))
  = Ok (VList [VDict [("id", VInt 1001); ("order_number", VInt 7);
                      ("note", VStr "leave at the door")]])
  /\ PyStr.mem "note" ("customer_id" :: Shopify.required_fields) = false
  /\ length Shopify.required_fields <> 19.
Proof.
  split; [reflexivity | split; [reflexivity |]].
  simpl. discriminate.
Qed.

(** C4 (amended) on the same shop: the order comes back from
    [get_customer_orders] with the twenty-one keys, bound to the values of
    the order in the response, and without its note. *)
Lemma C4_witness :
  (exists (resp : response) (data : dict) (items : list value),
      fst (World.oracle
             (HttpRequest GET
                (opt_str (Shopify.BASE_URL demo_collector)
                 ++ "/orders.json?query=customer_id:"
                 ++ @py_str World.plain_text (VInt 55) ++ "&status=any")
                (Shopify.headers demo_collector) None)
             (World.scripted [World.AResponse (Ok demo_orders_response)]))
      = Ok resp
      /\ body resp = Some (VDict data)
      /\ PyDict.get_default "orders" (VList []) data = VList items
      /\ Forall2
           (fun item o =>
              exists order d,
                item = VDict order
                /\ o = VDict d
                /\ PyDict.keys d = "customer_id" :: Shopify.required_fields
                /\ d = ("customer_id", VInt 55)
                       :: map (fun key => (key, PyDict.get key order))
                            Shopify.required_fields)
           items
           [VDict (Shopify.filter_order (VInt 55)
                     [("id", VInt 1001); ("order_number", VInt 7);
                      ("note", VStr "leave at the door")])])
  /\ run World.oracle
       (@Shopify.get_customer_orders World.plain_text demo_collector
          (VInt 55))
       (World.scripted [World.AResponse (Ok demo_orders_response)])
     = (Ok (VList
              [VDict (("customer_id", VInt 55)
                      :: map (fun key =>
                                (key,
                                 PyDict.get key
                                   [("id", VInt 1001);
                                    ("order_number", VInt 7);
                                    ("note", VStr "leave at the door")]))
                           Shopify.required_fields)]),
        World.scripted [])
  /\ run World.oracle (Shopify.get_all_orders demo_collector)
       (World.scripted [World.AResponse (Ok demo_orders_response)])
     = (Ok (VList [demo_order]), World.scripted []).
Proof.
  destruct C4_get_customer_orders_filters_fields
    as [_ [Hfilter [Hfiltered Hall]]].
  split; [| split].
  - apply (Hfilter World.plain_text World.world World.oracle demo_collector
             (VInt 55)
             (World.scripted [World.AResponse (Ok demo_orders_response)])).
    reflexivity.
  - apply (Hfiltered World.plain_text World.world World.oracle
             demo_collector (VInt 55)
             (World.scripted [World.AResponse (Ok demo_orders_response)])
             (World.scripted []) demo_orders_response
             [("orders", VList [demo_order])]
             [("id", VInt 1001); ("order_number", VInt 7);
              ("note", VStr "leave at the door")] []); reflexivity.
  - apply (Hall World.world World.oracle demo_collector
             (World.scripted [World.AResponse (Ok demo_orders_response)])
             (World.scripted []) demo_orders_response
             [("orders", VList [demo_order])]); reflexivity.
Defined.

(** ** C7: refusal of an update *)

(** The three ways [update_order] can go: without credentials nothing is
    sent; after a fetch that shows no open order only the fetch was sent;
    otherwise the fetch is followed by the update request. *)
Lemma update_order_cases (T : PyText) S (h : handler S)
  (self : Shopify.collector) (order_id : string)
  (email phone address1 address2 city last_name province_code country zip1
     : option string) (w : S) :
  let url := opt_str (Shopify.BASE_URL self) ++ "/orders/" ++ order_id
             ++ ".json" in
  let get := HttpRequest GET url (Shopify.headers self) None in
  let put :=
    HttpRequest PUT url (Shopify.headers self)
      (Some (Shopify.update_payload order_id email phone address1 address2
               city last_name province_code country zip1)) in
  let out :=
    run_log h
      (Shopify.update_order self order_id email phone address1 address2
         city last_name province_code country zip1) w in
  (has_credentials self = false /\ out = (Ok VNone, w, []))
  \/ (has_credentials self = true
      /\ (forall resp, fst (h _ get w) = Ok resp -> open_order resp = None)
      /\ out = (Ok VNone, snd (h _ get w), [IO get (fst (h _ get w))]))
  \/ (has_credentials self = true
      /\ exists resp o x v w2 tail,
           fst (h _ get w) = Ok resp
           /\ open_order resp = Some o
           /\ out = (v, w2, IO get (Ok resp) :: IO put x :: tail)).
Proof.
  intros url get put out. subst out.
  unfold Shopify.update_order, Shopify._handle_auth_error.
  fold url. unfold has_credentials.
  destruct (truthy _); simpl; [| left; auto].
  destruct (opt_truthy (Shopify.BASE_URL self)); simpl; [| left; auto].
  right.
  unfold Shopify.get_checked, Shopify.raise_for_status. simpl.
  fold url. fold get.
  destruct (h _ get w) as [[resp | err] w1]; simpl.
  2: { left. split; [reflexivity |]. split; [discriminate | reflexivity]. }
  assert (Hclosed :
    forall out, open_order resp = None ->
      out = (Ok VNone, w1, [IO get (Ok resp)]) ->
      (true = true
       /\ (forall r, Ok resp = Ok r -> open_order r = None)
       /\ out = (Ok VNone, w1, [IO get (Ok resp)]))
      \/ (true = true
          /\ exists r o x v w2 tail,
               Ok resp = Ok r /\ open_order r = Some o
               /\ out = (v, w2, IO get (Ok r) :: IO put x :: tail))).
  { intros out Hopen Hout. left. split; [reflexivity |]. split; [| exact Hout].
    intros r Hr. inversion Hr; subst r. exact Hopen. }
  unfold open_order in Hclosed.
  destruct ((400 <=? status_code resp) && (status_code resp <? 600))%Z
    eqn:Hstatus; simpl; [apply Hclosed; reflexivity |].
  unfold Shopify.json.
  destruct (body resp) as [data |] eqn:Hbody; simpl;
    [| apply Hclosed; reflexivity].
  destruct data as [| | | | | | d |]; simpl;
    try (apply Hclosed; reflexivity).
  destruct (PyDict.get "order" d) as [| [|] | z | q | s | l | o |] eqn:Horder;
    simpl; try (apply Hclosed; reflexivity).
  - destruct (z =? 0)%Z; simpl; apply Hclosed; reflexivity.
  - destruct (Qeq_bool q 0); simpl; apply Hclosed; reflexivity.
  - destruct (PyStr.is_empty s); simpl; apply Hclosed; reflexivity.
  - destruct l; simpl; apply Hclosed; reflexivity.
  - destruct o as [| kv o']; simpl; [apply Hclosed; reflexivity |].
    fold (PyDict.get "fulfillment_status" (kv :: o')) in *.
    fold (PyDict.get "cancelled_at" (kv :: o')) in *.
    destruct (eq_str (PyDict.get "fulfillment_status" (kv :: o')) "fulfilled")
      eqn:Hfulfilled; simpl; [apply Hclosed; reflexivity |].
    destruct (PyDict.get "cancelled_at" (kv :: o')) eqn:Hcancelled; simpl;
      try (apply Hclosed; reflexivity).
    clear Hclosed. right. split; [reflexivity |].
    fold put.
    destruct (h _ put w1) as [x w2].
    match goal with
    | |- context [run_log h ?p w2] =>
        destruct (run_log h p w2) as [[v w3] tail]
    end.
    exists resp, (kv :: o'), x, v, w3, tail.
    split; [reflexivity |]. split; [| reflexivity].
    unfold open_order. rewrite Hstatus, Hbody, Horder, Hfulfilled, Hcancelled.
    reflexivity.
Qed.

Lemma open_order_Some (resp : response) (o : dict) :
  open_order resp = Some o ->
  ((400 <=? status_code resp) && (status_code resp <? 600))%Z = false
  /\ exists d,
       body resp = Some (VDict d)
       /\ PyDict.get "order" d = VDict o
       /\ truthy (VDict o) = true
       /\ eq_str (PyDict.get "fulfillment_status" o) "fulfilled" = false
       /\ PyDict.get "cancelled_at" o = VNone.
Proof.
  unfold open_order.
  destruct ((400 <=? status_code resp) && (status_code resp <? 600))%Z;
    [discriminate |].
  destruct (body resp) as [[| | | | | | d |] |]; try discriminate.
  destruct (PyDict.get "order" d) as [| | | | | | [| kv o'] |] eqn:Horder;
    try discriminate.
  destruct (eq_str (PyDict.get "fulfillment_status" (kv :: o')) "fulfilled")
    eqn:Hfulfilled; [discriminate |].
  destruct (PyDict.get "cancelled_at" (kv :: o')) eqn:Hcancelled;
    try discriminate.
  intros Ho. inversion Ho; subst o.
  split; [reflexivity |]. exists d. repeat split; assumption.
Qed.

Lemma open_order_refused (resp : response) (d o : dict) :
  body resp = Some (VDict d) ->
  PyDict.get "order" d = VDict o ->
  eq_str (PyDict.get "fulfillment_status" o) "fulfilled" = true
  \/ PyDict.get "cancelled_at" o <> VNone ->
  open_order resp = None.
Proof.
  intros Hbody Horder Hrefuse. unfold open_order.
  destruct ((400 <=? status_code resp) && (status_code resp <? 600))%Z;
    [reflexivity |].
  rewrite Hbody, Horder.
  destruct o as [| kv o']; [reflexivity |].
  destruct Hrefuse as [Hf | Hc].
  - rewrite Hf. reflexivity.
  - destruct (eq_str _ _); [reflexivity |].
    destruct (PyDict.get "cancelled_at" (kv :: o')); try reflexivity.
    contradiction.
Qed.

(** C7.  When the fetched order is fulfilled or has a non-null
    [cancelled_at], [update_order] returns [None]; the fetch is the only
    request it has sent, so no [PUT] is issued and the world is as the fetch
    left it.  Conversely a [PUT] is sent only with credentials, after a fetch
    that returned an order, neither fulfilled nor canceled. *)
Theorem C7_update_order_refusal_sends_no_put :
  forall (T : PyText) S (h : handler S) (self : Shopify.collector)
         (order_id : string)
         (email phone address1 address2 city last_name province_code country
            zip1 : option string) (w : S),
    let url := opt_str (Shopify.BASE_URL self) ++ "/orders/" ++ order_id
               ++ ".json" in
    let fetch := h _ (HttpRequest GET url (Shopify.headers self) None) w in
    let out :=
      run_log h
        (Shopify.update_order self order_id email phone address1 address2
           city last_name province_code country zip1) w in
    (forall resp d o,
        fst fetch = Ok resp ->
        body resp = Some (VDict d) ->
        PyDict.get "order" d = VDict o ->
        eq_str (PyDict.get "fulfillment_status" o) "fulfilled" = true
        \/ PyDict.get "cancelled_at" o <> VNone ->
        fst (fst out) = Ok VNone
        /\ existsb (io_is (is_http PUT)) (snd out) = false
        /\ snd out
           = (if has_credentials self
              then [IO (HttpRequest GET url (Shopify.headers self) None)
                      (Ok resp)]
              else [])
        /\ snd (fst out) = if has_credentials self then snd fetch else w)
    /\ (existsb (io_is (is_http PUT)) (snd out) = true ->
        has_credentials self = true
        /\ exists resp d o,
             fst fetch = Ok resp
             /\ ((400 <=? status_code resp) && (status_code resp <? 600))%Z
                = false
             /\ body resp = Some (VDict d)
             /\ PyDict.get "order" d = VDict o
             /\ truthy (VDict o) = true
             /\ eq_str (PyDict.get "fulfillment_status" o) "fulfilled" = false
             /\ PyDict.get "cancelled_at" o = VNone).
Proof.
  intros T S h self order_id email phone address1 address2 city last_name
    province_code country zip1 w url fetch out.
  pose proof (update_order_cases T h self order_id email phone address1
                address2 city last_name province_code country zip1 w)
    as Hcases.
  cbv zeta in Hcases. subst out fetch url.
  destruct Hcases
    as [[Hcred Hout] | [[Hcred [Hnone Hout]] | [Hcred Hopen]]].
  - rewrite Hout, Hcred. split.
    + intros. repeat split; reflexivity.
    + discriminate.
  - rewrite Hout, Hcred. split.
    + intros resp d o Hfetch _ _ _. rewrite Hfetch.
      repeat split; reflexivity.
    + discriminate.
  - destruct Hopen as [resp [o [x [v [w2 [tail [Hfetch [Hopen Hout]]]]]]]].
    rewrite Hout, Hcred. split.
    + intros resp' d o' Hfetch' Hbody Horder Hrefuse.
      rewrite Hfetch in Hfetch'. inversion Hfetch'; subst resp'.
      rewrite (open_order_refused resp Hbody Horder Hrefuse) in Hopen.
      discriminate.
    + intros _. split; [reflexivity |].
      destruct (open_order_Some resp Hopen) as [Hstatus [d Hd]].
      exists resp, d, o. split; [exact Hfetch |]. split; assumption.
Qed.

(** C7 on the demo shop: the update of a fulfilled order stops after the
    fetch; the update of an open order sends the [PUT], and the fetch before
    it showed the order open. *)
Lemma C7_witness :
  run_log World.oracle
    (Shopify.update_order demo_collector "1001" (Some "a@b.co") None None
       None None None None None None)
    (World.scripted [World.AResponse (Ok fulfilled_order_response)])
  = (Ok VNone, World.scripted [],
     [IO (HttpRequest GET
            "https://demo.myshopify.com/admin/api/2025-01/orders/1001.json"
            (Shopify.headers demo_collector) None)
         (Ok fulfilled_order_response)])
  /\ has_credentials demo_collector = true
  /\ open_order open_order_response
     = Some [("id", VInt 1002); ("fulfillment_status", VNone);
             ("cancelled_at", VNone)].
Proof.
  pose proof
    (C7_update_order_refusal_sends_no_put World.plain_text World.oracle
       demo_collector "1001" (Some "a@b.co") None None None None None None
       None None
       (World.scripted [World.AResponse (Ok fulfilled_order_response)]))
    as Hfulfilled.
  pose proof
    (C7_update_order_refusal_sends_no_put World.plain_text World.oracle
       demo_collector "1002" (Some "a@b.co") None None None None None None
       None None
       (World.scripted [World.AResponse (Ok open_order_response);
                        World.AResponse (Ok open_order_response)]))
    as Hopen.
  cbv zeta in Hfulfilled, Hopen.
  destruct Hfulfilled as [Hrefusal _]. destruct Hopen as [_ Hput].
  specialize (Hrefusal fulfilled_order_response
                [("order",
                  VDict [("id", VInt 1001);
                         ("fulfillment_status", VStr "fulfilled");
                         ("cancelled_at", VNone)])]
                [("id", VInt 1001); ("fulfillment_status", VStr "fulfilled");
                 ("cancelled_at", VNone)]
                eq_refl eq_refl eq_refl (or_introl eq_refl)).
  specialize (Hput eq_refl).
  destruct Hrefusal as [Hnone [Hno_put [Hlog Hworld]]].
  destruct Hput as [Hcred Hfetch].
  split; [| split; [exact Hcred | reflexivity]].
  reflexivity.
Defined.

(** ** C9: retrieval only reads the index *)

Lemma all_events_ret (P : forall X, event X -> Prop) A (a : A) :
  all_events P (ret a).
Proof. exact I. Qed.

Lemma all_events_raise (P : forall X, event X -> Prop) A (e : exn) :
  all_events P (@raise A e).
Proof. exact I. Qed.

Lemma all_events_lift (P : forall X, event X -> Prop) A (r : result A) :
  all_events P (lift r).
Proof. exact I. Qed.

(** One step of the walk through a program: a combinator, a branch, or a
    leaf. *)
Ltac walk_step :=
  match goal with
  | |- all_events _ (try_catch _ _) => apply all_events_try_catch
  | |- all_events _ (try_finally _ _) => apply all_events_try_finally
  | |- all_events _ (bind _ _) => apply all_events_bind
  | |- all_events _ (Voicebot.pbind _ _) => apply all_events_pbind
  | |- all_events _ (call _) => apply all_events_call
  | |- all_events _ (perform _) => apply all_events_perform
  | |- all_events _ (ret _) => apply all_events_ret
  | |- all_events _ (raise _) => apply all_events_raise
  | |- all_events _ (lift _) => apply all_events_lift
  | |- all_events _ (Ret _) => exact I
  | |- all_events _ (if ?b then _ else _) => destruct b
  | |- all_events _ (match ?x with _ => _ end) => destruct x
  | |- forall _, _ => intro
  end.

Ltac walk := repeat walk_step.

Lemma get_store_details_reads self store_name :
  all_events (fun X e => is_retrieval e = true)
    (Qdrant.get_store_details self store_name).
Proof.
  unfold Qdrant.get_store_details, Qdrant._get_embedding. walk; reflexivity.
Qed.

Lemma search_documents_reads self query store_name doc_type source limit
  score_threshold :
  all_events (fun X e => is_retrieval e = true)
    (Qdrant.search_documents self query store_name doc_type source limit
       score_threshold).
Proof.
  unfold Qdrant.search_documents, Qdrant._get_embedding. walk; reflexivity.
Qed.

Lemma search_products_reads self query store_name product_type vendor tags
  limit score_threshold :
  all_events (fun X e => is_retrieval e = true)
    (Qdrant.search_products self query store_name product_type vendor tags
       limit score_threshold).
Proof.
  unfold Qdrant.search_products, Qdrant._get_embedding. walk; reflexivity.
Qed.

Lemma search_by_metadata_reads self field v collection_name limit :
  all_events (fun X e => is_retrieval e = true)
    (Qdrant.search_by_metadata self field v collection_name limit).
Proof.
  unfold Qdrant.search_by_metadata. walk; reflexivity.
Qed.

Lemma scroll_loop_reads (U : PySet) fuel self offset store_names :
  all_events (fun X e => is_retrieval e = true)
    (Qdrant.scroll_loop fuel self offset store_names).
Proof.
  revert offset store_names.
  induction fuel as [| fuel IH]; intros offset store_names; simpl.
  - exact I.
  - split; [reflexivity |]. intros [[points next] | err]; simpl; [| exact I].
    destruct (Qdrant.add_stores points store_names); simpl; [| exact I].
    destruct next; [apply IH | exact I].
Qed.

Lemma search_all_reads self query store_name limit score_threshold :
  all_events (fun X e => is_retrieval e = true)
    (Qdrant.search_all self query store_name limit score_threshold).
Proof.
  unfold Qdrant.search_all.
  generalize
    (all_events_gather (fun X e => is_retrieval e = true)
       (Qdrant.search_documents self query store_name None None limit
          score_threshold)
       (Qdrant.search_products self query store_name None None None limit
          score_threshold)
       eq_refl
       (search_documents_reads self query store_name None None limit
          score_threshold)
       (search_products_reads self query store_name None None None limit
          score_threshold)).
  generalize
    (gather
       (Qdrant.search_documents self query store_name None None limit
          score_threshold)
       (Qdrant.search_products self query store_name None None None limit
          score_threshold)).
  intros p. induction p as [[[d | e] [q | e']] | X e k IH]; simpl; auto.
  intros [He Hk]. split; auto.
Qed.

(** A retrieval event is no write to the index. *)
Lemma retrieval_is_no_write X (e : event X) :
  is_retrieval e = true -> is_index_write e = false.
Proof. destruct e; simpl; intros H; auto; discriminate. Qed.

(** C9.  In every run, every event issued by [get_store_details],
    [search_documents], [search_products], [search_all], [search_by_metadata]
    and [get_all_store_names] is a search or a scroll of the index, the
    embedding of the query, or a step of the scheduler; none is an upsert, a
    deletion, or the creation or deletion of a collection. *)
Theorem C9_retrieval_is_read_only :
  forall (U : PySet) (self : Qdrant.searcher) (query field : string)
         (store_name doc_type source product_type vendor collection_name
            : option string)
         (tags : option (list string)) (v : value) (limit : Z)
         (score_threshold : Q) (fuel : nat),
    let reads (p : prog (result value)) :=
      all_events (fun X e => is_retrieval e = true
                             /\ is_index_write e = false) p in
    reads (Qdrant.get_store_details self store_name)
    /\ reads (Qdrant.search_documents self query store_name doc_type source
                limit score_threshold)
    /\ reads (Qdrant.search_products self query store_name product_type
                vendor tags limit score_threshold)
    /\ reads (Qdrant.search_all self query store_name limit score_threshold)
    /\ reads (Qdrant.search_by_metadata self field v collection_name limit)
    /\ all_events (fun X e => is_retrieval e = true
                              /\ is_index_write e = false)
         (Qdrant.get_all_store_names fuel self).
Proof.
  intros U self query field store_name doc_type source product_type vendor
    collection_name tags v limit score_threshold fuel reads. subst reads.
  assert (Hw : forall R (p : prog R),
             all_events (fun X e => is_retrieval e = true) p ->
             all_events (fun X e => is_retrieval e = true
                                    /\ is_index_write e = false) p).
  { intros R p. apply all_events_weaken.
    intros X e He. split; [exact He | apply retrieval_is_no_write, He]. }
  split; [apply Hw, get_store_details_reads |].
  split; [apply Hw, search_documents_reads |].
  split; [apply Hw, search_products_reads |].
  split; [apply Hw, search_all_reads |].
  split; [apply Hw, search_by_metadata_reads |].
  apply Hw.
  - unfold Qdrant.get_all_store_names.
    apply all_events_try_catch; [| intros; exact I].
    apply all_events_bind; [apply scroll_loop_reads |].
    intros [names |]; [| exact I].
    apply all_events_bind; [exact I | intros; exact I].
Qed.

(** *** Reads leave the index as it is *)

(** In a world where the events of a class do not change some part of the
    state, a program that issues only events of that class does not change
    it either. *)
Lemma run_preserves S A R (h : handler S) (P : forall X, event X -> Prop)
  (part : S -> A) (p : prog R) :
  all_events P p ->
  (forall X (e : event X) s, P X e -> part (snd (h X e s)) = part s) ->
  forall s, part (snd (run h p s)) = part s.
Proof.
  intros Hp Hh. induction p as [r | X e k IH]; simpl; intros s.
  - reflexivity.
  - destruct Hp as [He Hk]. specialize (Hh X e s He).
    destruct (h X e s) as [x s']. simpl in Hh.
    rewrite IH; auto.
Qed.

(** So a product search leaves the index of every world unchanged in which
    searches, scrolls, embeddings and scheduling are reads. *)
Corollary search_products_leaves_index S A (h : handler S) (index : S -> A)
  self query store_name product_type vendor tags limit score_threshold :
  (forall X (e : event X) s,
      is_retrieval e = true -> index (snd (h X e s)) = index s) ->
  forall s,
    index
      (snd (run h
              (Qdrant.search_products self query store_name product_type
                 vendor tags limit score_threshold) s))
    = index s.
Proof.
  intros Hreads.
  apply (run_preserves h (fun X e => is_retrieval e = true) index).
  - apply search_products_reads.
  - exact Hreads.
Qed.

(** ** C8: the store profile within a call *)

(** *** Frame reasoning for stateful computations *)

Lemma all_leaves_impl R (P Q : R -> Prop) (p : prog R) :
  (forall r, P r -> Q r) -> all_leaves P p -> all_leaves Q p.
Proof.
  intros HPQ. induction p as [r | X e k IH]; simpl; auto.
Qed.

Lemma all_leaves_pbind A B (Q : B -> Prop) (p : prog A) (k : A -> prog B) :
  all_leaves (fun a => all_leaves Q (k a)) p ->
  all_leaves Q (Voicebot.pbind p k).
Proof.
  induction p as [a | X e h IH]; simpl; auto.
Qed.

Section Frame.

Variable R : Voicebot.state -> Voicebot.state -> Prop.
Hypothesis R_refl : forall s, R s s.
Hypothesis R_trans : forall a b c, R a b -> R b c -> R a c.

Lemma keeps_sret A (a : A) : keeps R (Voicebot.sret a).
Proof. intros s. simpl. apply R_refl. Qed.

Lemma keeps_sret_dep A (f : Voicebot.state -> A) :
  keeps R (fun s => Voicebot.sret (f s) s).
Proof. intros s. simpl. apply R_refl. Qed.

Lemma keeps_io_dep A (f : Voicebot.state -> M A) :
  keeps R (fun s => Voicebot.io_ (f s) s).
Proof.
  intros s. unfold Voicebot.io_. apply all_leaves_pbind.
  generalize (f s). intros m. induction m as [r | X e k IH]; simpl; auto.
Qed.

Lemma keeps_io A (m : M A) : keeps R (Voicebot.io_ m).
Proof. exact (keeps_io_dep (fun _ => m)). Qed.

Lemma keeps_get_state : keeps R Voicebot.get_state.
Proof. intros s. simpl. apply R_refl. Qed.

Lemma keeps_sbind A B (m : Voicebot.SM A) (k : A -> Voicebot.SM B) :
  keeps R m -> (forall a, keeps R (k a)) -> keeps R (Voicebot.sbind m k).
Proof.
  intros Hm Hk s. unfold Voicebot.sbind. apply all_leaves_pbind.
  eapply all_leaves_impl; [| apply Hm].
  intros [[a | e] s1] Hs1; simpl in *.
  - eapply all_leaves_impl; [| apply Hk].
    intros rs Hrs. eapply R_trans; eassumption.
  - assumption.
Qed.

Lemma keeps_stry A (m : Voicebot.SM A) (c : exn -> Voicebot.SM A) :
  keeps R m -> (forall e, keeps R (c e)) -> keeps R (Voicebot.stry m c).
Proof.
  intros Hm Hc s. unfold Voicebot.stry. apply all_leaves_pbind.
  eapply all_leaves_impl; [| apply Hm].
  intros [[a | e] s1] Hs1; simpl in *.
  - assumption.
  - eapply all_leaves_impl; [| apply Hc].
    intros rs Hrs. eapply R_trans; eassumption.
Qed.

Hypothesis R_fnc : forall f s, R s (Voicebot.with_fnc f s).

Lemma keeps_create_shopify : keeps R Voicebot.create_shopify.
Proof.
  intros s. unfold Voicebot.create_shopify. apply all_leaves_pbind.
  generalize (Shopify.__init__ (Voicebot.shopify_access_token s)
                (Voicebot.shopify_base_url s) "temp_data").
  intros m. induction m as [[c | e] | X e k IH]; simpl; auto.
Qed.

Lemma keeps_create_searcher : keeps R Voicebot.create_searcher.
Proof. intros s. simpl. apply R_fnc. Qed.

End Frame.

Ltac frame_step :=
  match goal with
  | |- keeps _ (Voicebot.sbind _ _) => apply keeps_sbind; try assumption
  | |- keeps _ (Voicebot.stry _ _) => apply keeps_stry; try assumption
  | |- keeps _ (Voicebot.io_ _) => apply keeps_io; assumption
  | |- keeps _ (Voicebot.sret _) => apply keeps_sret; assumption
  | |- keeps _ Voicebot.get_state => apply keeps_get_state; assumption
  | |- keeps _ Voicebot.create_shopify =>
      apply keeps_create_shopify; assumption
  | |- keeps _ Voicebot.create_searcher =>
      apply keeps_create_searcher; assumption
  | |- keeps _ Voicebot.ensure_shopify => unfold Voicebot.ensure_shopify
  | |- keeps _ (Voicebot._get_order_by_id _) =>
      unfold Voicebot._get_order_by_id; apply keeps_io_dep; assumption
  | |- keeps _ (fun s => Voicebot.sret _ s) =>
      apply keeps_sret_dep; assumption
  | |- keeps _ (if ?b then _ else _) => destruct b
  | |- keeps _ (match ?x with _ => _ end) => destruct x
  | |- keeps _ (let _ := _ in _) => cbv zeta
  | |- forall _, _ => intro
  end.



Lemma only_fnc_refl s : only_fnc s s.
Proof. destruct s; reflexivity. Qed.

Lemma only_fnc_trans a b c : only_fnc a b -> only_fnc b c -> only_fnc a c.
Proof.
  unfold only_fnc. intros Hab Hbc. rewrite Hbc, Hab.
  destruct a; reflexivity.
Qed.

Lemma only_fnc_with_fnc f s : only_fnc s (Voicebot.with_fnc f s).
Proof. destruct s; reflexivity. Qed.

Lemma only_fnc_profile s s' :
  only_fnc s s' ->
  Voicebot.store_profile s' = Voicebot.store_profile s
  /\ Voicebot.sess s' = Voicebot.sess s.
Proof. intros H. rewrite H. destruct s; split; reflexivity. Qed.


(** A function call, and the shutdown callback, change nothing but the
    function context. *)
Lemma function_calls_keep_state (T : PyText) (op : operation) :
  match op with
  | UserSpeechCommitted _ | AgentSpeechCommitted _ => True
  | _ => keeps only_fnc (perform_operation op)
  end.
Proof.
  pose proof only_fnc_refl as Hrefl.
  pose proof only_fnc_trans as Htrans.
  pose proof only_fnc_with_fnc as Hfnc.
  destruct op; simpl; auto.
  - unfold Voicebot.get_product_information. repeat frame_step.
  - unfold Voicebot.get_order_status. repeat frame_step.
  - unfold Voicebot.update_order. repeat frame_step.
  - unfold Voicebot.cancel_order. repeat frame_step.
  - unfold Voicebot.get_store_information. repeat frame_step.
  - unfold Voicebot.transfer_to_agent. repeat frame_step.
  - unfold Voicebot.save_conversation_to_db. repeat frame_step.
    apply keeps_io_dep; assumption.
Qed.

Ltac walk_state_step :=
  match goal with
  | |- all_events _ (Voicebot.sbind _ _ _) => unfold Voicebot.sbind at 1
  | |- all_events _ (Voicebot.stry _ _ _) => unfold Voicebot.stry at 1
  | |- all_events _ (Voicebot.io_ _ _) => unfold Voicebot.io_ at 1
  | |- all_events _ (Voicebot.sret _ _) => exact I
  | |- all_events _ (Voicebot.get_state _) => exact I
  | |- all_events _ (Voicebot.put_state _ _) => exact I
  | |- all_events _ (Voicebot.create_searcher _) => exact I
  | |- all_events _ ((if ?b then _ else _) _) => destruct b
  | |- all_events _ ((match ?x with _ => _ end) _) => destruct x
  | |- all_events _ ((fun _ => _) _) => cbv beta
  | |- all_events _ (let _ := _ in _) => cbv zeta
  | |- all_events _ ((let _ := _ in _) _) => cbv zeta
  | |- _ /\ _ => split
  | |- _ = _ => reflexivity
  | _ => walk_step
  end.

Ltac walk_state := repeat walk_state_step.

(** No operation looks a profile up or writes to Redis. *)
Lemma operations_leave_redis_profile (T : PyText) (op : operation)
  (s : Voicebot.state) :
  all_events no_profile_access (perform_operation op s).
Proof.
  unfold no_profile_access.
  destruct op; simpl.
  - unfold Voicebot.get_product_information, Voicebot.create_shopify,
      Shopify.__init__, Qdrant.search_products, Qdrant.search_documents,
      Qdrant._get_embedding.
    walk_state.
  - unfold Voicebot.get_order_status, Voicebot.ensure_shopify,
      Voicebot._get_order_by_id, Voicebot.create_shopify, Shopify.__init__,
      Shopify.get_all_orders, Shopify.fetch_customer_id,
      Shopify.get_customer_orders, Shopify._handle_auth_error,
      Shopify.get_checked, Shopify.raise_for_status, Shopify.json.
    walk_state.
  - unfold Voicebot.update_order, Voicebot.ensure_shopify,
      Voicebot._get_order_by_id, Voicebot.create_shopify, Shopify.__init__,
      Shopify.get_all_orders, Shopify.update_order,
      Shopify._handle_auth_error,
      Shopify.get_checked, Shopify.raise_for_status, Shopify.json.
    walk_state.
  - unfold Voicebot.cancel_order, Voicebot.ensure_shopify,
      Voicebot._get_order_by_id, Voicebot.create_shopify, Shopify.__init__,
      Shopify.get_all_orders, Shopify.cancel_order,
      Shopify._handle_auth_error,
      Shopify.get_checked, Shopify.raise_for_status, Shopify.json.
    walk_state.
  - unfold Voicebot.get_store_information, Qdrant.get_store_details,
      Qdrant.search_documents, Qdrant._get_embedding.
    walk_state.
  - unfold Voicebot.transfer_to_agent. walk_state.
  - exact I.
  - exact I.
  - unfold Voicebot.save_conversation_to_db,
      Voicebot.insert_conversation_to_db. walk_state.
Qed.

Lemma run_pbind S A B (h : handler S) (p : prog A) (k : A -> prog B) (s : S) :
  run h (Voicebot.pbind p k) s
  = run h (k (fst (run h p s))) (snd (run h p s)).
Proof.
  revert s. induction p as [a | X e g IH]; simpl; intros s; auto.
  destruct (h X e s) as [x s']. apply IH.
Qed.

Lemma all_leaves_run S R (h : handler S) (Q : R -> Prop) (p : prog R) (s : S) :
  all_leaves Q p -> Q (fst (run h p s)).
Proof.
  revert s. induction p as [r | X e k IH]; simpl; intros s Hp; auto.
  destruct (h X e s) as [x s']. apply IH, Hp.
Qed.

Lemma run_get_store_from_redis S (h : handler S) (called : option string)
  (w : S) :
  fst (run h (Voicebot.get_store_from_redis called) w)
  = Ok (profile_of_answer called
          (fst (h _ (RedisHGetAll ("store:" ++ opt_str called)) w))).
Proof.
  unfold Voicebot.get_store_from_redis, profile_of_answer.
  destruct (opt_truthy called); [| reflexivity].
  cbn [negb]. rewrite run_try_catch, run_bind, run_call.
  destruct (h _ (RedisHGetAll ("store:" ++ opt_str called)) w)
    as [[[| kv data] | err] w1]; reflexivity.
Qed.

Lemma all_leaves_io A (F : result A * Voicebot.state -> Prop) (m : M A)
  (s : Voicebot.state) :
  (forall r, F (r, s)) -> all_leaves F (Voicebot.io_ m s).
Proof.
  intros HF. unfold Voicebot.io_. apply all_leaves_pbind.
  induction m as [r | X e k IH]; simpl; auto.
Qed.

Ltac leaves_step :=
  match goal with
  | |- all_leaves _ (Voicebot.sbind _ _ _) =>
      unfold Voicebot.sbind at 1; apply all_leaves_pbind
  | |- all_leaves _ (Voicebot.pbind _ _) => apply all_leaves_pbind
  | |- all_leaves _ (Voicebot.io_ _ _) => apply all_leaves_io; intros [? | ?]
  | |- all_leaves _ (Voicebot.put_state _ _) => cbn [Voicebot.put_state all_leaves fst snd]
  | |- all_leaves _ (Voicebot.get_state _) => cbn [Voicebot.get_state all_leaves fst snd]
  | |- all_leaves _ (Ret _) => cbn [all_leaves fst snd]
  | |- all_leaves _ (if ?b then _ else _) => destruct b
  | |- all_leaves _ ((if ?b then _ else _) _) => destruct b
  | |- all_leaves _ ((fun _ => _) _) => cbv beta
  | |- all_leaves _ (match fst _ with _ => _ end) => progress cbn [fst snd]
  | |- Voicebot.store_profile _ = _ => reflexivity
  end.

(** The profile after [on_participant_connected] is the one made of the
    answer of Redis, whether the rest of the callback succeeds or raises. *)
Lemma connected_profile (T : PyText) S (h : handler S)
  (p : Voicebot.participant) (s : Voicebot.state) (w : S) :
  let called := Voicebot.attr "sip.trunkPhoneNumber" (Voicebot.attributes p) in
  Voicebot.store_profile
    (snd (fst (run h (Voicebot.on_participant_connected p s) w)))
  = profile_of_answer called
      (fst (h _ (RedisHGetAll ("store:" ++ opt_str called)) w)).
Proof.
  intros called. unfold Voicebot.on_participant_connected.
  fold called.
  unfold Voicebot.sbind at 1. simpl Voicebot.pbind.
  unfold Voicebot.sbind at 1. simpl Voicebot.pbind.
  unfold Voicebot.sbind at 1. rewrite run_pbind.
  unfold Voicebot.io_ at 1. rewrite !run_pbind. simpl fst at 2.
  rewrite run_get_store_from_redis.
  generalize (profile_of_answer called
                (fst (h _ (RedisHGetAll ("store:" ++ opt_str called)) w))).
  intros [[[name details] token] base_url].
  cbn iota beta.
  match goal with
  | |- Voicebot.store_profile (snd (fst (run h ?prog ?w1))) = ?a =>
      apply (all_leaves_run h
               (fun rs => Voicebot.store_profile (snd rs) = a) prog w1)
  end.
  repeat leaves_step.
Qed.

(** *** The lookup when the participant connects *)

Lemma lookups_none R (p : prog R) (n : nat) :
  all_events (fun X e => is_profile_lookup e = false) p ->
  lookups_at_most n p.
Proof.
  induction p as [r | X e k IH]; simpl; [auto |].
  intros [He Hk]. rewrite He. intros x. apply IH, Hk.
Qed.

Lemma lookups_pbind A B (p : prog A) (k : A -> prog B) (n : nat) :
  lookups_at_most n p ->
  (forall a, all_events (fun X e => is_profile_lookup e = false) (k a)) ->
  lookups_at_most n (Voicebot.pbind p k).
Proof.
  revert n. induction p as [a | X e h IH]; simpl; intros n Hp Hk.
  - apply lookups_none, Hk.
  - destruct (is_profile_lookup e).
    + destruct n as [| n']; [contradiction |].
      intros x. apply IH; auto.
    + intros x. apply IH; auto.
Qed.

Lemma get_store_from_redis_lookups (called : option string) :
  lookups_at_most 1 (Voicebot.get_store_from_redis called)
  /\ all_events
       (fun X e =>
          forall key, lookup_key e = Some key ->
                      key = "store:" ++ opt_str called)
       (Voicebot.get_store_from_redis called).
Proof.
  unfold Voicebot.get_store_from_redis.
  destruct (opt_truthy called); simpl.
  - split.
    + intros [[| kv data] | err]; exact I.
    + split.
      * intros key Hkey. inversion Hkey. reflexivity.
      * intros [[| kv data] | err]; exact I.
  - split; exact I.
Qed.

(** After the lookup the callback issues no other lookup. *)
Lemma connected_lookups (T : PyText) (p : Voicebot.participant)
  (s : Voicebot.state) :
  let called := Voicebot.attr "sip.trunkPhoneNumber" (Voicebot.attributes p) in
  lookups_at_most 1 (Voicebot.on_participant_connected p s)
  /\ all_events
       (fun X e =>
          forall key, lookup_key e = Some key ->
                      key = "store:" ++ opt_str called)
       (Voicebot.on_participant_connected p s).
Proof.
  intros called.
  destruct (get_store_from_redis_lookups called) as [Hone Hkey].
  split.
  - unfold Voicebot.on_participant_connected. fold called.
    unfold Voicebot.sbind at 1. simpl Voicebot.pbind.
    unfold Voicebot.sbind at 1. simpl Voicebot.pbind.
    unfold Voicebot.sbind at 1. unfold Voicebot.io_ at 1.
    apply lookups_pbind.
    + apply lookups_pbind; [exact Hone | intros; exact I].
    + intros [[[[[name details] token] base_url] | err] s1];
        cbn [fst snd]; [| exact I].
      unfold Shopify.__init__, Voicebot.task, Shopify.fetch_customer_id,
        Shopify._handle_auth_error, Shopify.get_checked,
        Shopify.raise_for_status, Shopify.json.
      walk_state.
  - unfold Voicebot.on_participant_connected. fold called.
    unfold Voicebot.sbind at 1. simpl Voicebot.pbind.
    unfold Voicebot.sbind at 1. simpl Voicebot.pbind.
    unfold Voicebot.sbind at 1. unfold Voicebot.io_ at 1.
    apply all_events_pbind.
    + apply all_events_pbind; [exact Hkey | intros; exact I].
    + intros [[[[[name details] token] base_url] | err] s1];
        cbn [fst snd]; [| exact I].
      unfold Shopify.__init__, Voicebot.task, Shopify.fetch_customer_id,
        Shopify._handle_auth_error, Shopify.get_checked,
        Shopify.raise_for_status, Shopify.json.
      repeat first
        [ match goal with
          | |- forall key, lookup_key _ = Some key -> _ =>
              intros key Hk; discriminate Hk
          end
        | walk_state_step ].
Qed.

Lemma exactly_none R (p : prog R) :
  all_events (fun X e => is_profile_lookup e = false) p ->
  lookups_exactly 0 p.
Proof.
  induction p as [r | X e k IH]; simpl; [auto |].
  intros [He Hk]. rewrite He. intros x. apply IH, Hk.
Qed.

Lemma exactly_pbind A B (p : prog A) (k : A -> prog B) (n : nat) :
  lookups_exactly n p ->
  (forall a, all_events (fun X e => is_profile_lookup e = false) (k a)) ->
  lookups_exactly n (Voicebot.pbind p k).
Proof.
  revert n. induction p as [a | X e h IH]; simpl; intros n Hp Hk.
  - subst n. apply exactly_none, Hk.
  - destruct (is_profile_lookup e).
    + destruct n as [| n']; [contradiction |].
      intros x. apply IH; auto.
    + intros x. apply IH; auto.
Qed.

Lemma get_store_from_redis_exactly (called : option string) :
  lookups_exactly (if opt_truthy called then 1 else 0)
    (Voicebot.get_store_from_redis called).
Proof.
  unfold Voicebot.get_store_from_redis.
  destruct (opt_truthy called); simpl.
  - intros [[| kv data] | err]; reflexivity.
  - reflexivity.
Qed.

(** With a called number the callback looks the profile up once, in every
    run; without one it does not look it up. *)
Lemma connected_exactly (T : PyText) (p : Voicebot.participant)
  (s : Voicebot.state) :
  let called := Voicebot.attr "sip.trunkPhoneNumber" (Voicebot.attributes p) in
  lookups_exactly (if opt_truthy called then 1 else 0)
    (Voicebot.on_participant_connected p s).
Proof.
  intros called.
  unfold Voicebot.on_participant_connected. fold called.
  unfold Voicebot.sbind at 1. simpl Voicebot.pbind.
  unfold Voicebot.sbind at 1. simpl Voicebot.pbind.
  unfold Voicebot.sbind at 1. unfold Voicebot.io_ at 1.
  apply exactly_pbind.
  - apply exactly_pbind;
      [apply get_store_from_redis_exactly | intros; exact I].
  - intros [[[[[name details] token] base_url] | err] s1];
      cbn [fst snd]; [| exact I].
    unfold Shopify.__init__, Voicebot.task, Shopify.fetch_customer_id,
      Shopify._handle_auth_error, Shopify.get_checked,
      Shopify.raise_for_status, Shopify.json.
    walk_state.
Qed.

(** Every operation keeps the store profile. *)
Lemma operation_keeps_profile (T : PyText) (op : operation)
  (s : Voicebot.state) :
  all_leaves
    (fun rs => Voicebot.store_profile (snd rs) = Voicebot.store_profile s)
    (perform_operation op s).
Proof.
  pose proof (function_calls_keep_state T op) as Hop.
  destruct op;
    try (eapply all_leaves_impl; [| apply Hop];
         intros rs Hrs; apply only_fnc_profile, Hrs).
  - simpl. destruct s; reflexivity.
  - simpl. destruct s; reflexivity.
Qed.

Lemma operations_keep_profile (T : PyText) (ops : list operation)
  (s : Voicebot.state) :
  all_leaves
    (fun s' => Voicebot.store_profile s' = Voicebot.store_profile s)
    (perform_all ops s).
Proof.
  revert s. induction ops as [| op ops IH]; intros s; simpl.
  - reflexivity.
  - apply all_leaves_pbind.
    eapply all_leaves_impl; [| apply operation_keeps_profile].
    intros rs Hrs. simpl in Hrs.
    eapply all_leaves_impl; [| apply IH].
    intros s' Hs'. simpl in Hs'. congruence.
Qed.

(** C8.  When the participant connects the profile is looked up in Redis
    once (not at all when the participant has no called number), under the
    key of the called number, and the four globals are set from the answer.  After that no session operation (a function call
    for products, orders, the store or a transfer, a speech callback, the
    shutdown callback), and no sequence of them, changes the store name, the
    store details, the access token or the base URL; none of them looks the
    profile up again or writes to Redis. *)
Theorem C8_store_profile_is_immutable_within_call :
  forall (T : PyText) (p : Voicebot.participant) (s0 : Voicebot.state),
    let called :=
      Voicebot.attr "sip.trunkPhoneNumber" (Voicebot.attributes p) in
    lookups_at_most 1 (Voicebot.on_participant_connected p s0)
    /\ lookups_exactly (if opt_truthy called then 1 else 0)
         (Voicebot.on_participant_connected p s0)
    /\ all_events
         (fun X e =>
            forall key, lookup_key e = Some key ->
                        key = "store:" ++ opt_str called)
         (Voicebot.on_participant_connected p s0)
    /\ (forall S (h : handler S) (w : S),
           Voicebot.store_profile
             (snd (fst (run h (Voicebot.on_participant_connected p s0) w)))
           = profile_of_answer called
               (fst (h _ (RedisHGetAll ("store:" ++ opt_str called)) w)))
    /\ (forall (op : operation) (s : Voicebot.state),
           all_leaves
             (fun rs =>
                Voicebot.store_profile (snd rs) = Voicebot.store_profile s)
             (perform_operation op s))
    /\ (forall (ops : list operation) (s : Voicebot.state),
           all_leaves
             (fun s' => Voicebot.store_profile s' = Voicebot.store_profile s)
             (perform_all ops s))
    /\ (forall (op : operation) (s : Voicebot.state),
           all_events no_profile_access (perform_operation op s)).
Proof.
  intros T p s0 called.
  destruct (connected_lookups T p s0) as [Hone Hkey].
  split; [exact Hone |].
  split; [apply (@connected_exactly T) |].
  split; [exact Hkey |].
  split; [intros World h w; apply (@connected_profile T) |].
  split; [intros op s; apply operation_keeps_profile |].
  split; [intros ops s; apply operations_keep_profile |].
  intros op s. apply operations_leave_redis_profile.
Qed.

(** ** C10: the escalation flag *)

(** *** Substrings, with and without case *)

Lemma prefix_app (p s : string) :
  prefix p s = true <-> exists rest, s = p ++ rest.
Proof.
  revert s. induction p as [| c p IH]; intros s; simpl.
  - split; [intros _; exists s; reflexivity |].
    intros _. destruct s; reflexivity.
  - destruct s as [| d s]; simpl.
    + split; [discriminate | intros [rest Hrest]; discriminate].
    + destruct (ascii_dec c d) as [-> | Hcd].
      * rewrite IH. split; intros [rest Hrest]; exists rest.
        -- rewrite Hrest. reflexivity.
        -- inversion Hrest. reflexivity.
      * split; [discriminate |].
        intros [rest Hrest]. inversion Hrest. congruence.
Qed.

Lemma contains_app (sub s : string) :
  PyStr.contains sub s = true <-> exists pre post, s = pre ++ sub ++ post.
Proof.
  induction s as [| c s IH]; cbn [PyStr.contains].
  - rewrite orb_false_r, prefix_app. split.
    + intros [rest Hrest]. exists "", rest. exact Hrest.
    + intros [[| d pre] [post Hs]]; simpl in Hs.
      * exists post. exact Hs.
      * discriminate.
  - rewrite orb_true_iff, prefix_app, IH. split.
    + intros [[rest Hrest] | [pre [post Hs]]].
      * exists "", rest. exact Hrest.
      * exists (String c pre), post. simpl. rewrite Hs. reflexivity.
    + intros [[| d pre] [post Hs]]; simpl in Hs.
      * left. exists post. exact Hs.
      * right. inversion Hs. exists pre, post. reflexivity.
Qed.

Lemma lower_app (a b : string) :
  PyStr.lower (a ++ b) = PyStr.lower a ++ PyStr.lower b.
Proof.
  induction a as [| c a IH]; simpl; [reflexivity |].
  rewrite IH. reflexivity.
Qed.

Lemma lower_app_inv (t u v : string) :
  PyStr.lower t = u ++ v ->
  exists a b, t = a ++ b /\ PyStr.lower a = u /\ PyStr.lower b = v.
Proof.
  revert t. induction u as [| c u IH]; intros t Ht; simpl in Ht.
  - exists "", t. auto.
  - destruct t as [| d t]; simpl in Ht; [discriminate |].
    inversion Ht as [[Hc Hrest]].
    destruct (IH t Hrest) as [a [b [-> [Ha Hb]]]].
    exists (String d a), b. simpl. rewrite Ha. auto.
Qed.

(** The test of the code, lower-casing the text and searching the phrase,
    is containment up to case. *)
Lemma contains_lower_mentions (phrase text : string) :
  PyStr.contains phrase (PyStr.lower text) = true <-> mentions phrase text.
Proof.
  unfold mentions. rewrite contains_app. split.
  - intros [pre [post Hl]].
    destruct (lower_app_inv text pre (phrase ++ post) Hl)
      as [a [rest [-> [Ha Hrest]]]].
    destruct (lower_app_inv rest phrase post Hrest)
      as [b [c [-> [Hb Hc]]]].
    exists a, b, c. auto.
  - intros [a [b [c [-> Hb]]]].
    exists (PyStr.lower a), (PyStr.lower c).
    rewrite !lower_app, Hb. reflexivity.
Qed.

Lemma asks_for_human_spec (msg : chat_content) :
  Voicebot.asks_for_human (Voicebot.flatten_content msg) = Ok true
  <-> asks_human msg.
Proof.
  unfold asks_human, escalation_phrases.
  destruct (Voicebot.flatten_content msg) as [text |];
    cbn [Voicebot.asks_for_human].
  - split.
    + intros Hask. injection Hask as Hor.
      exists text.
      apply orb_true_iff in Hor. destruct Hor as [Hor | H3].
      * apply orb_true_iff in Hor. destruct Hor as [H1 | H2].
        -- exists "speak to human". split; [reflexivity |].
           split; [simpl; auto |].
           apply contains_lower_mentions, H1.
        -- exists "talk to agent". split; [reflexivity |].
           split; [simpl; auto |].
           apply contains_lower_mentions, H2.
      * exists "agent please". split; [reflexivity |].
        split; [simpl; auto |].
        apply contains_lower_mentions, H3.
    + intros [text' [phrase [Htext [Hin Hm]]]].
      injection Htext as <-.
      apply contains_lower_mentions in Hm.
      destruct Hin as [<- | [<- | [<- | []]]]; rewrite Hm;
        rewrite ?orb_true_r; reflexivity.
  - split; [discriminate |].
    intros [text [phrase [Htext _]]]. discriminate.
Qed.

(** The user-speech callback raises the flag exactly when the utterance
    asks for a human, and never lowers it. *)
Lemma on_user_speech_escalation (msg : chat_content) (x : Voicebot.session) :
  Voicebot.escalation_requested (Voicebot.on_user_speech_committed msg x)
    = true
  <-> Voicebot.escalation_requested x = true \/ asks_human msg.
Proof.
  rewrite <- asks_for_human_spec.
  unfold Voicebot.on_user_speech_committed. simpl.
  destruct (Voicebot.asks_for_human (Voicebot.flatten_content msg))
    as [[|] | err]; split; auto; intros [H | H]; auto; discriminate.
Qed.

(** *** The session variables along a call *)

Lemma operation_session (T : PyText) (op : operation) (s : Voicebot.state) :
  all_leaves
    (fun rs => Voicebot.sess (snd rs) = session_step op (Voicebot.sess s))
    (perform_operation op s).
Proof.
  pose proof (function_calls_keep_state T op) as Hop.
  destruct op;
    try (eapply all_leaves_impl; [| apply Hop];
         intros rs Hrs; apply only_fnc_profile, Hrs).
  - simpl. reflexivity.
  - simpl. reflexivity.
Qed.

Lemma operations_session (T : PyText) (ops : list operation)
  (s : Voicebot.state) :
  all_leaves
    (fun s' =>
       Voicebot.sess s'
       = fold_left (fun x op => session_step op x) ops (Voicebot.sess s))
    (perform_all ops s).
Proof.
  revert s. induction ops as [| op ops IH]; intros s; simpl.
  - reflexivity.
  - apply all_leaves_pbind.
    eapply all_leaves_impl; [| apply operation_session].
    intros rs Hrs. simpl in Hrs.
    eapply all_leaves_impl; [| apply IH].
    intros s' Hs'. simpl in Hs'. rewrite Hs', Hrs. reflexivity.
Qed.

Lemma session_step_escalation (T : PyText) (op : operation)
  (x : Voicebot.session) :
  Voicebot.escalation_requested (session_step op x) = true
  <-> Voicebot.escalation_requested x = true
      \/ exists msg, op = UserSpeechCommitted msg /\ asks_human msg.
Proof.
  destruct op; cbn [session_step];
    try (split; [auto | intros [H | [msg [Hop _]]]; [auto | discriminate]]).
  - rewrite on_user_speech_escalation. split.
    + intros [H | H]; [auto |]. right. exists msg. auto.
    + intros [H | [msg' [Hop H]]]; [auto |]. inversion Hop. auto.
  - split; [auto | intros [H | [msg' [Hop _]]]; [exact H | discriminate]].
Qed.

Lemma session_steps_escalation (T : PyText) (ops : list operation)
  (x : Voicebot.session) :
  Voicebot.escalation_requested
    (fold_left (fun x op => session_step op x) ops x) = true
  <-> Voicebot.escalation_requested x = true
      \/ exists msg, In (UserSpeechCommitted msg) ops /\ asks_human msg.
Proof.
  revert x. induction ops as [| op ops IH]; intros x; simpl.
  - split; [auto | intros [H | [msg [[] _]]]; exact H].
  - rewrite IH, session_step_escalation. split.
    + intros [[H | [msg [Hop H]]] | [msg [Hin H]]].
      * auto.
      * right. exists msg. auto.
      * right. exists msg. auto.
    + intros [H | [msg [[Hop | Hin] H]]].
      * auto.
      * left. right. exists msg. auto.
      * right. exists msg. auto.
Qed.

Lemma session_steps_intent (T : PyText) (ops : list operation)
  (x : Voicebot.session) :
  Voicebot.detected_intent (fold_left (fun x op => session_step op x) ops x)
  = Voicebot.detected_intent x.
Proof.
  revert x. induction ops as [| op ops IH]; intros x; simpl.
  - reflexivity.
  - rewrite IH. destruct op; reflexivity.
Qed.

(** The session [entrypoint] creates: no intent, no escalation. *)
Lemma entrypoint_session (T : PyText) (room : string) (s : Voicebot.state) :
  all_leaves
    (fun rs =>
       fst rs = Ok tt ->
       Voicebot.escalation_requested (Voicebot.sess (snd rs)) = false
       /\ Voicebot.detected_intent (Voicebot.sess (snd rs)) = None
       /\ Voicebot.conversation_log (Voicebot.sess (snd rs)) = [])
    (Voicebot.entrypoint room s).
Proof.
  unfold Voicebot.entrypoint.
  repeat first
    [ leaves_step
    | match goal with
      | |- _ = Ok tt -> _ => intros Hok; try discriminate Hok
      | |- _ /\ _ => split
      | |- _ = _ => reflexivity
      end ].
Qed.

(** C10.  The flag is false when the session starts.  The user-speech
    callback leaves it true if it was, and otherwise sets it exactly when
    the utterance contains, case ignored, [speak to human], [talk to agent]
    or [agent please].  Along any sequence of session operations the flag is
    true at the end exactly when it was true before or some committed
    utterance asked for a human; once true it stays true.  The record
    assembled at call end carries the flag under [Escalation]. *)
Theorem C10_escalation_flag_is_monotone :
  forall T : PyText,
    (forall (room : string) (s : Voicebot.state),
        all_leaves
          (fun rs =>
             fst rs = Ok tt ->
             Voicebot.escalation_requested (Voicebot.sess (snd rs)) = false)
          (Voicebot.entrypoint room s))
    /\ (forall (msg : chat_content) (x : Voicebot.session),
           Voicebot.escalation_requested
             (Voicebot.on_user_speech_committed msg x) = true
           <-> Voicebot.escalation_requested x = true \/ asks_human msg)
    /\ (forall (ops : list operation) (s : Voicebot.state),
           all_leaves
             (fun s' =>
                Voicebot.escalation_requested (Voicebot.sess s') = true
                <-> Voicebot.escalation_requested (Voicebot.sess s) = true
                    \/ exists msg,
                         In (UserSpeechCommitted msg) ops /\ asks_human msg)
             (perform_all ops s))
    /\ (forall (ops : list operation) (s : Voicebot.state),
           Voicebot.escalation_requested (Voicebot.sess s) = true ->
           all_leaves
             (fun s' =>
                Voicebot.escalation_requested (Voicebot.sess s') = true)
             (perform_all ops s))
    /\ (forall (x : Voicebot.session) (now : Z),
           PyDict.lookup "Escalation" (Voicebot.conversation_data_of x now)
           = Some (VBool (Voicebot.escalation_requested x))).
Proof.
  intros T.
  split.
  { intros room s. eapply all_leaves_impl; [| apply entrypoint_session].
    intros rs Hrs Hok. apply Hrs, Hok. }
  split; [exact on_user_speech_escalation |].
  split.
  { intros ops s. eapply all_leaves_impl; [| apply operations_session].
    intros s' Hs'. simpl in Hs'. rewrite Hs'.
    apply session_steps_escalation. }
  split.
  { intros ops s Hs. eapply all_leaves_impl; [| apply operations_session].
    intros s' Hs'. simpl in Hs'. rewrite Hs'.
    apply session_steps_escalation. auto. }
  intros x now. reflexivity.
Qed.

(** C10 on a short call: the caller greets, asks for an agent in capitals,
    the agent answers; the flag is raised by the second utterance and is
    still raised at the end. *)
Lemma C10_witness :
  let ops :=
    [UserSpeechCommitted (ContentStr "Hello");
     UserSpeechCommitted (ContentStr "I want to TALK TO AGENT now");
     AgentSpeechCommitted (ContentStr "One moment.")] in
  let s :=
    Voicebot.mkState None None None None None None false true
      (Voicebot.mkFnc None Voicebot.NoShopify None) fresh_session in
  Voicebot.escalation_requested (Voicebot.sess s) = false
  /\ asks_human (ContentStr "I want to TALK TO AGENT now")
  /\ all_leaves
       (fun s' => Voicebot.escalation_requested (Voicebot.sess s') = true)
       (@perform_all World.plain_text ops s).
Proof.
  intros ops s.
  destruct (C10_escalation_flag_is_monotone World.plain_text)
    as [_ [Huser [Hall _]]].
  assert (Hasks : asks_human (ContentStr "I want to TALK TO AGENT now")).
  { destruct (Huser (ContentStr "I want to TALK TO AGENT now") fresh_session)
      as [Hraised _].
    destruct (Hraised eq_refl) as [Hbefore | Hasks];
      [discriminate Hbefore | exact Hasks]. }
  split; [reflexivity | split; [exact Hasks |]].
  eapply all_leaves_impl; [| apply (Hall ops s)].
  intros s' Hs'. apply Hs'. right.
  exists (ContentStr "I want to TALK TO AGENT now").
  split; [simpl; auto | exact Hasks].
Defined.

(** ** C6: the detected intent *)

(** C6 (the code departs from the claim).  The user-speech callback
    declares [nonlocal detected_intent] and, under the comment [Detect
    intent from user message], has the classification commented out: it
    never assigns the variable.  So when the caller says [Where is my
    order?], an example the classifier itself lists for the intent [order],
    the detected intent is still [None] after the callback and the record
    assembled at call end has a null [Query_Type].  This holds of every
    call: [entrypoint] sets the detected intent to [None], every session
    operation, and so every sequence of them, leaves it as it was, and the
    record of a session started by [entrypoint] has a null [Query_Type],
    where the claim has the intent of the caller's utterances. *)
Theorem C6_detected_intent_stays_none :
  forall T : PyText,
    (let x :=
       Voicebot.on_user_speech_committed order_utterance fresh_session in
     In "Where is my order?"
       (match PyDict.lookup "order"
                (map (fun kv => (fst kv, VList (map VStr (snd kv))))
                   IntentClassifier.intent_examples) with
        | Some (VList l) =>
            map (fun v => match v with VStr t => t | _ => "" end) l
        | _ => []
        end)
     /\ Voicebot.conversation_log x
        = ["USER:" ++ Voicebot.nl ++ "Where is my order?" ++ Voicebot.nl
             ++ Voicebot.nl]
     /\ Voicebot.detected_intent x = None
     /\ PyDict.lookup "Query_Type"
          (Voicebot.conversation_data_of x 60000000)
        = Some VNone)
    /\ (forall (room : string) (s : Voicebot.state),
           all_leaves
             (fun rs =>
                fst rs = Ok tt ->
                Voicebot.detected_intent (Voicebot.sess (snd rs)) = None)
             (Voicebot.entrypoint room s))
    /\ (forall (msg : chat_content) (x : Voicebot.session),
           Voicebot.detected_intent (Voicebot.on_user_speech_committed msg x)
           = Voicebot.detected_intent x)
    /\ (forall (ops : list operation) (s : Voicebot.state),
           all_leaves
             (fun s' =>
                Voicebot.detected_intent (Voicebot.sess s')
                = Voicebot.detected_intent (Voicebot.sess s))
             (perform_all ops s))
    /\ (forall (ops : list operation) (s : Voicebot.state) (now : Z),
           Voicebot.detected_intent (Voicebot.sess s) = None ->
           all_leaves
             (fun s' =>
                PyDict.lookup "Query_Type"
                  (Voicebot.conversation_data_of (Voicebot.sess s') now)
                = Some VNone)
             (perform_all ops s)).
Proof.
  intros T.
  split.
  { simpl. split; [auto |]. split; [reflexivity |]. split; reflexivity. }
  split.
  { intros room s. eapply all_leaves_impl; [| apply entrypoint_session].
    intros rs Hrs Hok. apply Hrs, Hok. }
  split; [reflexivity |].
  split.
  { intros ops s. eapply all_leaves_impl; [| apply operations_session].
    intros s' Hs'. simpl in Hs'. rewrite Hs'. apply session_steps_intent. }
  intros ops s now Hnone.
  eapply all_leaves_impl; [| apply operations_session].
  intros s' Hs'. simpl in Hs'. rewrite Hs'.
  unfold Voicebot.conversation_data_of. simpl.
  rewrite session_steps_intent, Hnone. reflexivity.
Qed.

(** C6 on a call with two caller utterances, each with an intent the
    classifier knows: the record has a null [Query_Type]. *)
Lemma C6_witness :
  let ops :=
    [UserSpeechCommitted order_utterance;
     AgentSpeechCommitted (ContentStr "Let me check that order.");
     UserSpeechCommitted (ContentStr "Please cancel order #12345")] in
  let s :=
    Voicebot.mkState None None None None None None false true
      (Voicebot.mkFnc None Voicebot.NoShopify None) fresh_session in
  Voicebot.detected_intent (Voicebot.sess s) = None
  /\ all_leaves
       (fun s' =>
          PyDict.lookup "Query_Type"
            (Voicebot.conversation_data_of (Voicebot.sess s') 60000000)
          = Some VNone)
       (@perform_all World.plain_text ops s).
Proof.
  intros ops s.
  destruct (C6_detected_intent_stays_none World.plain_text)
    as [_ [_ [_ [_ Hrecord]]]].
  split; [reflexivity |].
  apply (Hrecord ops s 60000000%Z). reflexivity.
Defined.

(** ** C5: filtered search with a threshold *)

Lemma In_app_single A (l : list A) (a c : A) :
  In c (l ++ [a])%list <-> In c l \/ c = a.
Proof.
  rewrite in_app_iff. simpl. intuition.
Qed.

(** The conditions [search_products] builds are the ones the claim lists,
    no more and no less. *)
Lemma product_conditions_correct
  (store_name product_type vendor : option string)
  (tags : option (list string)) (c : condition) :
  In c (Qdrant.product_conditions store_name product_type vendor tags)
  <-> product_conditions_spec store_name product_type vendor tags c.
Proof.
  unfold Qdrant.product_conditions, product_conditions_spec,
    Qdrant.append_if, Qdrant.field_eq.
  destruct (opt_truthy store_name), (opt_truthy product_type),
    (opt_truthy vendor), tags as [[| tag rest] |];
    repeat rewrite In_app_single; simpl;
    split;
    intros H;
    repeat match goal with
    | H : _ \/ _ |- _ => destruct H
    | H : _ /\ _ |- _ => destruct H
    | H : exists _, _ |- _ => destruct H
    | H : False |- _ => destruct H
    | H : false = true |- _ => discriminate H
    | H : Some _ = Some _ |- _ => injection H as ? ?; subst
    | H : None = Some _ |- _ => discriminate H
    | H : Some [] = Some (_ :: _) |- _ => discriminate H
    end; subst; auto 10;
    try (right; right; right; right; eexists; eexists; split; reflexivity).
Qed.

Lemma document_conditions_correct
  (store_name doc_type source : option string) (c : condition) :
  In c (Qdrant.document_conditions store_name doc_type source)
  <-> document_conditions_spec store_name doc_type source c.
Proof.
  unfold Qdrant.document_conditions, document_conditions_spec,
    Qdrant.append_if, Qdrant.field_eq.
  destruct (opt_truthy store_name), (opt_truthy doc_type),
    (opt_truthy source);
    repeat rewrite In_app_single; simpl;
    split;
    intros H;
    repeat match goal with
    | H : _ \/ _ |- _ => destruct H
    | H : _ /\ _ |- _ => destruct H
    | H : False |- _ => destruct H
    | H : false = true |- _ => discriminate H
    end; subst; auto 10.
Qed.

(** C5 (amended).  Whatever the index answers, [search_products] embeds the
    query and sends one search: of the product collection, with the
    embedding, the given limit and threshold, and the conjunction ([must])
    of exactly the conditions the claim lists (the product type always;
    store, product type and vendor when given; one alternative over the tags
    when given).  It returns the points of the answer, formatted one by one
    and in the order of the answer, each with the identifier and the score
    of its point; when the embedding raises no search is sent, and when the
    embedding or the search raises the result is the empty list.  The same
    holds of [search_documents] on the document collection, whose conditions
    are the store, the type and the source when given and nothing else, and
    whose search has no filter when none is given.  The function itself
    neither truncates nor tests a score: the bound and the threshold are
    those of the index.  So in a world whose index keeps its contract, and
    for a limit that is not negative, the result has at most [limit] items,
    each the formatted form of a point whose score reaches the threshold. *)
Theorem C5_search_is_filtered_and_bounded :
  forall S (h : handler S) (self : Qdrant.searcher) (query : string)
         (store_name product_type vendor doc_type source : option string)
         (tags : option (list string)) (limit : Z) (score_threshold : Q)
         (w : S),
    (forall c,
        In c (Qdrant.product_conditions store_name product_type vendor tags)
        <-> product_conditions_spec store_name product_type vendor tags c)
    /\ (forall c,
           In c (Qdrant.document_conditions store_name doc_type source)
           <-> document_conditions_spec store_name doc_type source c)
    /\ (forall p,
           exists fields,
             Qdrant.format_product p
             = VDict (("id", sp_id p) :: ("score", VFloat (sp_score p))
                      :: fields))
    /\ (forall p,
           exists fields,
             Qdrant.format_document p
             = VDict (("id", sp_id p) :: ("score", VFloat (sp_score p))
                      :: fields))
    /\ (let out :=
          run_log h
            (Qdrant.search_products self query store_name product_type
               vendor tags limit score_threshold) w in
        match h _ (EmbedQuery query) w with
        | (Raise err, w1) =>
            out = (Ok (VList []), w1, [IO (EmbedQuery query) (Raise err)])
        | (Ok vector, w1) =>
            let req :=
              mkSearch (Qdrant.product_collection self) vector
                (Some (Filter
                         (Qdrant.product_conditions store_name product_type
                            vendor tags) [] None))
                limit (Some score_threshold) in
            match h _ (QdrantSearch req) w1 with
            | (Raise err, w2) =>
                out = (Ok (VList []), w2,
                       [IO (EmbedQuery query) (Ok vector);
                        IO (QdrantSearch req) (Raise err)])
            | (Ok pts, w2) =>
                out = (Ok (VList (map Qdrant.format_product pts)), w2,
                       [IO (EmbedQuery query) (Ok vector);
                        IO (QdrantSearch req) (Ok pts)])
            end
        end)
    /\ (let out :=
          run_log h
            (Qdrant.search_documents self query store_name doc_type source
               limit score_threshold) w in
        match h _ (EmbedQuery query) w with
        | (Raise err, w1) =>
            out = (Ok (VList []), w1, [IO (EmbedQuery query) (Raise err)])
        | (Ok vector, w1) =>
            let req :=
              mkSearch (Qdrant.document_collection self) vector
                (match Qdrant.document_conditions store_name doc_type source
                 with
                 | [] => None
                 | conditions => Some (Filter conditions [] None)
                 end)
                limit (Some score_threshold) in
            match h _ (QdrantSearch req) w1 with
            | (Raise err, w2) =>
                out = (Ok (VList []), w2,
                       [IO (EmbedQuery query) (Ok vector);
                        IO (QdrantSearch req) (Raise err)])
            | (Ok pts, w2) =>
                out = (Ok (VList (map Qdrant.format_document pts)), w2,
                       [IO (EmbedQuery query) (Ok vector);
                        IO (QdrantSearch req) (Ok pts)])
            end
        end)
    /\ (honest h ->
        (0 <= limit)%Z ->
        (exists pts,
            fst (fst (run_log h
                        (Qdrant.search_products self query store_name
                           product_type vendor tags limit score_threshold)
                        w))
            = Ok (VList (map Qdrant.format_product pts))
            /\ (Z.of_nat (length (map Qdrant.format_product pts))
                <= limit)%Z
            /\ Forall (fun p => Qle score_threshold (sp_score p)) pts)
        /\ (exists pts,
               fst (fst (run_log h
                           (Qdrant.search_documents self query store_name
                              doc_type source limit score_threshold) w))
               = Ok (VList (map Qdrant.format_document pts))
               /\ (Z.of_nat (length (map Qdrant.format_document pts))
                   <= limit)%Z
               /\ Forall (fun p => Qle score_threshold (sp_score p)) pts)).
Proof.
  intros S h self query store_name product_type vendor doc_type source tags
    limit score_threshold w.
  split; [intros c; apply product_conditions_correct |].
  split; [intros c; apply document_conditions_correct |].
  split; [intros p; eexists; reflexivity |].
  split; [intros p; eexists; reflexivity |].
  assert (Hproducts :
            let out :=
              run_log h
                (Qdrant.search_products self query store_name product_type
                   vendor tags limit score_threshold) w in
            match h _ (EmbedQuery query) w with
            | (Raise err, w1) =>
                out = (Ok (VList []), w1, [IO (EmbedQuery query) (Raise err)])
            | (Ok vector, w1) =>
                let req :=
                  mkSearch (Qdrant.product_collection self) vector
                    (Some (Filter
                             (Qdrant.product_conditions store_name
                                product_type vendor tags) [] None))
                    limit (Some score_threshold) in
                match h _ (QdrantSearch req) w1 with
                | (Raise err, w2) =>
                    out = (Ok (VList []), w2,
                           [IO (EmbedQuery query) (Ok vector);
                            IO (QdrantSearch req) (Raise err)])
                | (Ok pts, w2) =>
                    out = (Ok (VList (map Qdrant.format_product pts)), w2,
                           [IO (EmbedQuery query) (Ok vector);
                            IO (QdrantSearch req) (Ok pts)])
                end
            end).
  { unfold Qdrant.search_products, Qdrant._get_embedding,
      Qdrant.must_filter.
    simpl.
    destruct (h _ (EmbedQuery query) w) as [[vector | err] w1]; simpl;
      [| reflexivity].
    destruct (h _ (QdrantSearch _) w1) as [[pts | err] w2]; reflexivity. }
  assert (Hdocuments :
            let out :=
              run_log h
                (Qdrant.search_documents self query store_name doc_type
                   source limit score_threshold) w in
            match h _ (EmbedQuery query) w with
            | (Raise err, w1) =>
                out = (Ok (VList []), w1, [IO (EmbedQuery query) (Raise err)])
            | (Ok vector, w1) =>
                let req :=
                  mkSearch (Qdrant.document_collection self) vector
                    (match
                        Qdrant.document_conditions store_name doc_type source
                      with
                      | [] => None
                      | conditions => Some (Filter conditions [] None)
                      end)
                    limit (Some score_threshold) in
                match h _ (QdrantSearch req) w1 with
                | (Raise err, w2) =>
                    out = (Ok (VList []), w2,
                           [IO (EmbedQuery query) (Ok vector);
                            IO (QdrantSearch req) (Raise err)])
                | (Ok pts, w2) =>
                    out = (Ok (VList (map Qdrant.format_document pts)), w2,
                           [IO (EmbedQuery query) (Ok vector);
                            IO (QdrantSearch req) (Ok pts)])
                end
            end).
  { unfold Qdrant.search_documents, Qdrant._get_embedding,
      Qdrant.must_filter.
    simpl.
    destruct (h _ (EmbedQuery query) w) as [[vector | err] w1]; simpl;
      [| reflexivity].
    destruct (Qdrant.document_conditions store_name doc_type source);
      destruct (h _ (QdrantSearch _) w1) as [[pts | err] w2]; reflexivity. }
  split; [exact Hproducts |]. split; [exact Hdocuments |].
  intros Hhonest Hlimit. cbv zeta in Hproducts, Hdocuments. split.
  - clear - Hproducts Hhonest Hlimit. revert Hproducts.
    destruct (h _ (EmbedQuery query) w) as [[vector | err] w1];
      [| intros ->; exists []; repeat split;
         [exact Hlimit | constructor]].
    destruct (h _ (QdrantSearch _) w1) as [[pts | err] w2] eqn:Hsearch;
      intros ->;
      [| exists []; repeat split; [exact Hlimit | constructor]].
    destruct (Hhonest _ _ _ _ Hsearch) as [Hcount Hscores].
    exists pts. split; [reflexivity |].
    split; [rewrite length_map; exact Hcount |].
    apply Hscores. reflexivity.
  - clear - Hdocuments Hhonest Hlimit. revert Hdocuments.
    destruct (h _ (EmbedQuery query) w) as [[vector | err] w1];
      [| intros ->; exists []; repeat split;
         [exact Hlimit | constructor]].
    destruct (h _ (QdrantSearch _) w1) as [[pts | err] w2] eqn:Hsearch;
      intros ->;
      [| exists []; repeat split; [exact Hlimit | constructor]].
    destruct (Hhonest _ _ _ _ Hsearch) as [Hcount Hscores].
    exists pts. split; [reflexivity |].
    split; [rewrite length_map; exact Hcount |].
    apply Hscores. reflexivity.
Qed.

Lemma In_firstn A (n : nat) (l : list A) (a : A) :
  In a (firstn n l) -> In a l.
Proof.
  revert l. induction n as [| n IH]; intros [| b l]; simpl;
    try contradiction.
  intros [H | H]; [left; exact H | right; apply IH, H].
Qed.

(** The scripted world with the reference search keeps the contract. *)
Lemma honest_oracle_honest : honest honest_oracle.
Proof.
  intros req w w1 pts. unfold honest_oracle.
  destruct (World.oracle (QdrantSearch req) w) as [[found | err] w'];
    [| discriminate].
  destruct (search_limit req <? 0)%Z eqn:Hneg; [discriminate |].
  intros Hfound. injection Hfound as <- _.
  apply Z.ltb_ge in Hneg. split.
  - rewrite length_firstn.
    pose proof (Nat.le_min_l (Z.to_nat (search_limit req))
                  (length (List.filter (reaches (search_threshold req))
                             found))).
    lia.
  - intros t Ht. rewrite Ht. apply Forall_forall. intros p Hp.
    apply In_firstn in Hp. apply filter_In in Hp. destruct Hp as [_ Hp].
    simpl in Hp. apply Qle_bool_iff. exact Hp.
Qed.

(** C5 as stated fails for a negative limit: the index refuses the search,
    the result is the empty list, and its length is above the limit
    [-1]. *)
Lemma C5_counterexample :
  exists items,
    fst (fst (run_log honest_oracle
                (Qdrant.search_products Qdrant.default_searcher "shirt"
                   (Some "demo") None None None (-1) (6 # 10))
                (World.scripted [World.AVector (Ok [(1 # 2)%Q]);
                                 World.APoints (Ok demo_points)])))
    = Ok (VList items)
    /\ ~ (Z.of_nat (length items) <= -1)%Z.
Proof.
  exists []. split; [reflexivity |]. simpl. lia.
Qed.

(** C5 (amended) on the demo index: of the two products only the one that
    reaches the threshold sixty percent comes back. *)
Lemma C5_witness :
  honest honest_oracle
  /\ (0 <= 3)%Z
  /\ fst (fst (run_log honest_oracle
                 (Qdrant.search_products Qdrant.default_searcher "shirt"
                    (Some "demo") None None None 3 (6 # 10))
                 (World.scripted [World.AVector (Ok [(1 # 2)%Q]);
                                  World.APoints (Ok demo_points)])))
     = Ok (VList [VDict [("id", VInt 1); ("score", VFloat (9 # 10));
                         ("title", VStr "Blue shirt");
                         ("product_id", VStr ""); ("vendor", VStr "");
                         ("product_type", VStr ""); ("tags", VList []);
                         ("store", VStr "demo")]])
  /\ exists pts,
       fst (fst (run_log honest_oracle
                   (Qdrant.search_products Qdrant.default_searcher "shirt"
                      (Some "demo") None None None 3 (6 # 10))
                   (World.scripted [World.AVector (Ok [(1 # 2)%Q]);
                                    World.APoints (Ok demo_points)])))
       = Ok (VList (map Qdrant.format_product pts))
       /\ (Z.of_nat (length (map Qdrant.format_product pts)) <= 3)%Z
       /\ Forall (fun p => Qle (6 # 10) (sp_score p)) pts.
Proof.
  assert (Hlimit : (0 <= 3)%Z) by lia.
  pose proof
    (@C5_search_is_filtered_and_bounded World.world honest_oracle
       Qdrant.default_searcher "shirt" (Some "demo") None None None None None
       3%Z (6 # 10)%Q
       (World.scripted [World.AVector (Ok [(1 # 2)%Q]);
                        World.APoints (Ok demo_points)]))
    as [_ [_ [_ [_ [_ [_ Hbounded]]]]]].
  destruct (Hbounded honest_oracle_honest Hlimit) as [Hproducts _].
  split; [exact honest_oracle_honest |].
  split; [exact Hlimit |].
  split; [reflexivity |].
  exact Hproducts.
Defined.

(** * Further properties *)

(** ** The commerce client *)

Lemma handle_auth_error_no_credentials (self : Shopify.collector)
  (func : M value) :
  has_credentials self = false ->
  Shopify._handle_auth_error self func = ret VNone.
Proof.
  unfold has_credentials, Shopify._handle_auth_error. intros H.
  destruct (truthy _); simpl in *.
  - rewrite H. reflexivity.
  - reflexivity.
Qed.

(** X1.  Without credentials (no headers, or no base URL) every method of
    the collector returns [None] at once: no request is sent, no file is
    written; [cancel_order], whose other results are booleans, returns
    [None] as well. *)
Theorem shopify_without_credentials_sends_nothing :
  forall (T : PyText) (self : Shopify.collector) (phone : option string)
         (customer_id : value)
         (id order_id : string)
         (reason email new_phone address1 address2 city last_name
            province_code country zip1 : option string),
    has_credentials self = false ->
    Shopify.fetch_customer_id self phone = ret VNone
    /\ Shopify.get_customer_by_id self id = ret VNone
    /\ Shopify.get_all_customers self = ret VNone
    /\ Shopify.get_customer_orders self customer_id = ret VNone
    /\ Shopify.get_all_orders self = ret VNone
    /\ Shopify.cancel_order self order_id reason = ret VNone
    /\ Shopify.update_order self order_id email new_phone address1 address2
         city last_name province_code country zip1 = ret VNone
    /\ Shopify.get_all_products self = ret VNone
    /\ Shopify.get_product_by_id self id = ret VNone
    /\ Shopify.get_shop_details self = ret VNone.
Proof.
  intros T self phone customer_id id order_id reason email new_phone address1
    address2 city last_name province_code country zip1 H.
  repeat split; apply handle_auth_error_no_credentials; exact H.
Qed.

Lemma shopify_without_credentials_witness :
  has_credentials (Shopify.mkCollector "temp_data" None
                     (Some "https://None/admin/api/2025-01") None None)
  = false
  /\ Shopify.get_all_orders
       (Shopify.mkCollector "temp_data" None
          (Some "https://None/admin/api/2025-01") None None)
     = ret VNone.
Proof.
  split; [reflexivity |].
  apply (@shopify_without_credentials_sends_nothing World.plain_text
           (Shopify.mkCollector "temp_data" None
              (Some "https://None/admin/api/2025-01") None None)
           None VNone "1" "1" None None None None None None None None None
           None).
  reflexivity.
Defined.

Lemma leaves_try_catch_returned A (m : M A) (h : exn -> M A) :
  (forall e, all_leaves returned (h e)) ->
  all_leaves returned (try_catch m h).
Proof.
  intros Hh. induction m as [[a | e] | X e k IH]; simpl; auto.
Qed.

Ltac contained_step :=
  first
    [ progress cbn [all_runs bind ret raise call lift try_catch
                      Shopify.get_checked Shopify.raise_for_status
                      Shopify.json as_dict negb]
    | match goal with
      | |- forall x : result _, _ => intros [? | ?]
      | |- all_runs _ ?p =>
          match p with
          | context [if ?c then _ else _] => destruct c eqn:?
          | context [match ?x with _ => _ end] => destruct x eqn:?
          end
      end ].

Ltac contained_leaf :=
  cbn [all_runs]; cbv beta; unfold contained;
  eexists; split; [reflexivity |];
  unfold went_wrong, io_raised, raised, is_error_status;
  cbn [existsb orb];
  repeat match goal with
         | H : (_ && _)%bool = _ |- _ => rewrite H
         end;
  cbn [orb]; intros; try discriminate; reflexivity.

Ltac walk_contained :=
  unfold Shopify._handle_auth_error, Shopify.get_checked,
    Shopify.raise_for_status, Shopify.json;
  repeat contained_step; contained_leaf.

(** X2.  Every method of the collector whose body is wrapped in
    [try ... except Exception] returns in every run, whatever the server
    answers or raises, and a failure shows in the value returned: when an
    exchange of the run raised, or the server answered a request with an
    error status, the method returns [None] ([False] for
    [cancel_order]). *)
Theorem shopify_methods_contain_errors :
  forall (T : PyText) (self : Shopify.collector) (customer_id : value)
         (id order_id : string)
         (reason email phone address1 address2 city last_name province_code
            country zip1 : option string),
    all_runs (contained VNone) (Shopify.get_customer_by_id self id)
    /\ all_runs (contained VNone) (Shopify.get_all_customers self)
    /\ all_runs (contained VNone)
         (Shopify.get_customer_orders self customer_id)
    /\ all_runs (contained VNone) (Shopify.get_all_orders self)
    /\ all_runs (contained (VBool false))
         (Shopify.cancel_order self order_id reason)
    /\ all_runs (contained VNone)
         (Shopify.update_order self order_id email phone address1 address2
            city last_name province_code country zip1)
    /\ all_runs (contained VNone) (Shopify.get_all_products self)
    /\ all_runs (contained VNone) (Shopify.get_product_by_id self id)
    /\ all_runs (contained VNone) (Shopify.get_shop_details self).
Proof.
  intros. repeat split.
  - unfold Shopify.get_customer_by_id. walk_contained.
  - unfold Shopify.get_all_customers. walk_contained.
  - unfold Shopify.get_customer_orders. walk_contained.
  - unfold Shopify.get_all_orders. walk_contained.
  - unfold Shopify.cancel_order. walk_contained.
  - unfold Shopify.update_order. walk_contained.
  - unfold Shopify.get_all_products. walk_contained.
  - unfold Shopify.get_product_by_id. walk_contained.
  - unfold Shopify.get_shop_details. walk_contained.
Qed.

(** X3.  [fetch_customer_id] has no [try] of its own, so the decorator
    decides: on a 401 answer it returns [None], on any other error status
    the [HTTPError] of [raise_for_status] reaches the caller. *)
Theorem fetch_customer_id_raises_on_error_status :
  forall (T : PyText) S (h : handler S) (self : Shopify.collector)
         (phone : option string) (w w1 : S) (resp : response),
    has_credentials self = true ->
    h _ (HttpRequest GET (customers_url self phone) (Shopify.headers self)
           None) w = (Ok resp, w1) ->
    is_error_status (status_code resp) = true ->
    run h (Shopify.fetch_customer_id self phone) w
    = (if (status_code resp =? 401)%Z then Ok VNone
       else Raise (HTTPError (status_code resp)), w1).
Proof.
  intros T S h self phone w w1 resp Hcred Hh Herr.
  unfold has_credentials in Hcred. apply andb_prop in Hcred.
  destruct Hcred as [Hhd Hurl].
  unfold Shopify.fetch_customer_id, Shopify._handle_auth_error.
  rewrite Hhd, Hurl. cbn [negb orb].
  rewrite run_try_catch.
  cbv zeta.
  rewrite run_bind, run_get_checked.
  unfold customers_url in Hh. cbv zeta in Hh. rewrite Hh. cbn [fst snd].
  unfold is_error_status in Herr. rewrite Herr. cbn [fst snd].
  destruct (status_code resp =? 401)%Z; reflexivity.
Qed.

Lemma fetch_customer_id_raises_witness :
  run World.oracle (Shopify.fetch_customer_id demo_collector (Some "+15551234567"))
    (World.scripted [World.AResponse (Ok (mkResponse 500 None))])
  = (Raise (HTTPError 500), World.scripted []).
Proof.
  apply (@fetch_customer_id_raises_on_error_status World.plain_text
           World.world World.oracle demo_collector (Some "+15551234567")
           (World.scripted [World.AResponse (Ok (mkResponse 500 None))])
           (World.scripted []) (mkResponse 500 None));
    reflexivity.
Defined.

(** X4.  The requests of the collector by method: the read methods send
    [GET] requests only, [cancel_order] sends [POST] requests only, and
    [update_order] sends nothing but [GET] and [PUT] requests and writes
    its file. *)
Theorem shopify_requests_by_method :
  forall (T : PyText) (self : Shopify.collector) (phone : option string)
         (customer_id : value) (id order_id : string)
         (reason email new_phone address1 address2 city last_name
            province_code country zip1 : option string),
    let gets (p : M value) :=
      all_events (fun X e => is_http GET e = true) p in
    gets (Shopify.fetch_customer_id self phone)
    /\ gets (Shopify.get_customer_by_id self id)
    /\ gets (Shopify.get_all_customers self)
    /\ gets (Shopify.get_customer_orders self customer_id)
    /\ gets (Shopify.get_all_orders self)
    /\ gets (Shopify.get_all_products self)
    /\ gets (Shopify.get_product_by_id self id)
    /\ gets (Shopify.get_shop_details self)
    /\ all_events (fun X e => is_http POST e = true)
         (Shopify.cancel_order self order_id reason)
    /\ all_events
         (fun X e => is_http GET e || is_http PUT e || is_write_file e = true)
         (Shopify.update_order self order_id email new_phone address1
            address2 city last_name province_code country zip1).
Proof.
  intros. subst gets.
  unfold Shopify.fetch_customer_id, Shopify.get_customer_by_id,
    Shopify.get_all_customers, Shopify.get_customer_orders,
    Shopify.get_all_orders, Shopify.get_all_products,
    Shopify.get_product_by_id, Shopify.get_shop_details,
    Shopify.cancel_order, Shopify.update_order,
    Shopify._handle_auth_error, Shopify.get_checked,
    Shopify.raise_for_status, Shopify.json.
  repeat match goal with |- _ /\ _ => split end; walk; reflexivity.
Qed.

(** X5.  In the payload of an update the ZIP code is sent under the key
    [province]: the shipping address never has a key [zip], and its
    [province] is the ZIP code when one is given and absent otherwise.  The
    shipping address is part of the payload exactly when one of the seven
    address arguments is given. *)
Theorem update_payload_sends_zip_as_province :
  forall (order_id : string)
         (email phone address1 address2 city last_name province_code country
            zip1 : option string),
    match shipping_address_of
            (Shopify.update_payload order_id email phone address1 address2
               city last_name province_code country zip1) with
    | Some (VDict shipping_address) =>
        existsb opt_truthy
          [address1; address2; city; last_name; country; province_code; zip1]
        = true
        /\ PyDict.lookup "zip" shipping_address = None
        /\ PyDict.lookup "province" shipping_address
           = (if opt_truthy zip1 then Some (opt_value zip1) else None)
        /\ PyDict.lookup "province_code" shipping_address
           = (if opt_truthy province_code then Some (opt_value province_code)
              else None)
    | Some _ => False
    | None =>
        existsb opt_truthy
          [address1; address2; city; last_name; country; province_code; zip1]
        = false
    end.
Proof.
  intros. unfold shipping_address_of, Shopify.update_payload, set_if.
  cbn [existsb].
  destruct (opt_truthy email), (opt_truthy phone), (opt_truthy address1),
    (opt_truthy address2), (opt_truthy city), (opt_truthy last_name),
    (opt_truthy country), (opt_truthy province_code), (opt_truthy zip1);
    cbn; repeat split; reflexivity.
Qed.

(** X6.  With credentials [cancel_order] is one [POST] to
    [<base>/orders/<id>/cancel.json], whose body is the reason when one is
    given and the empty object otherwise; it returns [True] when the answer
    carries no error status and [False] when it does or when the request
    fails.  The state of the order is not read first. *)
Theorem collector_cancel_order_is_one_post :
  forall S (h : handler S) (self : Shopify.collector) (order_id : string)
         (reason : option string) (w : S),
    has_credentials self = true ->
    let request :=
      HttpRequest POST
        (opt_str (Shopify.BASE_URL self) ++ "/orders/" ++ order_id
         ++ "/cancel.json")
        (Shopify.headers self)
        (Some (VDict (if opt_truthy reason
                      then [("reason", opt_value reason)] else []))) in
    run_log h (Shopify.cancel_order self order_id reason) w
    = (Ok (VBool match fst (h _ request w) with
                 | Ok resp => negb (is_error_status (status_code resp))
                 | Raise _ => false
                 end),
       snd (h _ request w),
       [IO request (fst (h _ request w))]).
Proof.
  intros S h self order_id reason w Hcred request.
  unfold has_credentials in Hcred. apply andb_prop in Hcred.
  destruct Hcred as [Hhd Hurl].
  unfold Shopify.cancel_order, Shopify._handle_auth_error.
  rewrite Hhd, Hurl. cbn [negb orb]. cbv zeta. fold request.
  unfold Shopify.raise_for_status, is_error_status. simpl.
  destruct (h _ request w) as [[resp | err] w1]; simpl; [| reflexivity].
  destruct ((400 <=? status_code resp) && (status_code resp <? 600))%Z;
    reflexivity.
Qed.

Lemma collector_cancel_order_witness :
  run_log World.oracle
    (Shopify.cancel_order demo_collector "1001" (Some "changed my mind"))
    (World.scripted [World.AResponse (Ok (mkResponse 422 None))])
  = (Ok (VBool false), World.scripted [],
     [IO (HttpRequest POST
            "https://demo.myshopify.com/admin/api/2025-01/orders/1001/cancel.json"
            (Shopify.headers demo_collector)
            (Some (VDict [("reason", VStr "changed my mind")])))
         (Ok (mkResponse 422 None))]).
Proof.
  apply (@collector_cancel_order_is_one_post World.world World.oracle
           demo_collector "1001" (Some "changed my mind")
           (World.scripted [World.AResponse (Ok (mkResponse 422 None))])).
  reflexivity.
Defined.

(** *** The shop name inside the base URL *)

Lemma prefix_empty (s : string) : prefix "" s = true.
Proof. destruct s; reflexivity. Qed.

Lemma append_nil_r (s : string) : s ++ "" = s.
Proof. induction s as [| c s IH]; simpl; [| rewrite IH]; reflexivity. Qed.

Lemma append_assoc (a b c : string) : (a ++ b) ++ c = a ++ b ++ c.
Proof. induction a as [| x a IH]; simpl; [| rewrite IH]; reflexivity. Qed.

(** A text without the first character of the separator is passed over. *)
Lemma split_go_free (c : ascii) (sep' name t cur : string) :
  free_of c name = true ->
  PyStr.split_go (String c sep') (name ++ t) 0 cur
  = PyStr.split_go (String c sep') t 0 (cur ++ name).
Proof.
  revert cur. induction name as [| x name IH]; intros cur Hfree.
  - simpl. rewrite append_nil_r. reflexivity.
  - simpl in Hfree. apply andb_prop in Hfree. destruct Hfree as [Hx Hname].
    cbn [append PyStr.split_go prefix].
    destruct (ascii_dec c x) as [Heq | Hneq].
    + subst x. rewrite Ascii.eqb_refl in Hx. discriminate.
    + rewrite IH by assumption. rewrite append_assoc. reflexivity.
Qed.

(** The first piece of a split starts with what was gathered so far. *)
Lemma split_go_head (sep s cur : string) :
  exists r rest, PyStr.split_go sep s 0 cur = (cur ++ r) :: rest.
Proof.
  revert cur. induction s as [| x s IH]; intros cur.
  - exists "", []. simpl. rewrite append_nil_r. reflexivity.
  - cbn [PyStr.split_go]. destruct (prefix sep (String x s)).
    + exists "". eexists. rewrite append_nil_r. reflexivity.
    + destruct (IH (cur ++ String x "")) as [r [rest H]].
      exists (String x r), rest. rewrite H, append_assoc. reflexivity.
Qed.

(** X7.  The shop name of a collector is the first label of the host of its
    base URL: for [https://<name>.<rest>], where [<name>] has neither a dot
    nor a slash, it is [<name>], whatever follows the dot. *)
Theorem shop_name_is_first_label :
  forall name rest : string,
    free_of "." name = true ->
    free_of "/" name = true ->
    Shopify.shop_name_of (Some ("https://" ++ name ++ "." ++ rest))
    = Some name.
Proof.
  intros name rest Hdot Hslash.
  unfold Shopify.shop_name_of, PyStr.split.
  cbn [opt_truthy opt_str append PyStr.is_empty negb].
  cbn [PyStr.split_go prefix].
  repeat match goal with
         | |- context [ascii_dec ?a ?b] =>
             let d := eval vm_compute in (ascii_dec a b) in
             change (ascii_dec a b) with d; cbv iota
         end.
  cbn [append String.length Nat.sub PyStr.split_go].
  rewrite prefix_empty.
  cbn [String.length Nat.sub PyStr.split_go].
  rewrite (split_go_free "/" "/" name (String "." rest) "" Hslash).
  cbn [append PyStr.split_go prefix].
  destruct (ascii_dec "/" ".") as [Habs | _]; [discriminate Habs |].
  destruct (split_go_head "//" rest (name ++ ".")) as [r1 [tl1 H1]].
  rewrite H1. cbn [hd].
  rewrite append_assoc.
  rewrite (split_go_free "/" "" name ("." ++ r1) "" Hslash).
  cbn [append PyStr.split_go prefix].
  destruct (ascii_dec "/" ".") as [Habs | _]; [discriminate Habs |].
  destruct (split_go_head "/" r1 (name ++ ".")) as [r2 [tl2 H2]].
  rewrite H2. cbn [hd].
  rewrite append_assoc.
  rewrite (split_go_free "." "" name ("." ++ r2) "" Hdot).
  cbn [append PyStr.split_go prefix].
  destruct (ascii_dec "." ".") as [_ | Habs]; [| contradiction Habs; reflexivity].
  rewrite prefix_empty. reflexivity.
Qed.

Lemma shop_name_witness :
  Shopify.shop_name_of
    (Some "https://softmaxai-parshva.myshopify.com/admin/api/2025-01")
  = Some "softmaxai-parshva".
Proof.
  apply (shop_name_is_first_label "softmaxai-parshva"
           "myshopify.com/admin/api/2025-01");
    reflexivity.
Defined.

(** ** The searcher *)

Lemma leaves_bind A B (Q : result B -> Prop) (m : M A) (k : A -> M B) :
  all_leaves (fun r => match r with
                       | Ok a => all_leaves Q (k a)
                       | Raise e => Q (Raise e)
                       end) m ->
  all_leaves Q (bind m k).
Proof. induction m as [[a | e] | X e h IH]; simpl; auto. Qed.

Lemma leaves_try_catch A (Q : result A -> Prop) (m : M A) (h : exn -> M A) :
  all_leaves (fun r => match r with
                       | Ok a => Q (Ok a)
                       | Raise e => all_leaves Q (h e)
                       end) m ->
  all_leaves Q (try_catch m h).
Proof. induction m as [[a | e] | X e k IH]; simpl; auto. Qed.

Lemma leaves_gather A B (P : A -> Prop) (Q : B -> Prop) (p : prog A)
  (q : prog B) :
  all_leaves P p -> all_leaves Q q ->
  all_leaves (fun ab => P (fst ab) /\ Q (snd ab)) (gather p q).
Proof.
  revert q. induction p as [a | X e k IHp]; intros q Hp Hq.
  - induction q as [b | Y e' k' IHq]; simpl in *; auto.
  - induction q as [b | Y e' k' IHq]; simpl in *.
    + intros x. apply IHp; auto.
    + intros [|]; simpl; intros x.
      * apply IHp; auto.
      * apply IHq; auto.
Qed.

Lemma search_documents_list self query store_name doc_type source limit
  score_threshold :
  all_leaves is_list
    (Qdrant.search_documents self query store_name doc_type source limit
       score_threshold).
Proof.
  unfold Qdrant.search_documents, Qdrant._get_embedding. simpl.
  intros [emb | e]; simpl; [| eexists; reflexivity].
  intros [res | e]; simpl; eexists; reflexivity.
Qed.

Lemma search_products_list self query store_name product_type vendor tags
  limit score_threshold :
  all_leaves is_list
    (Qdrant.search_products self query store_name product_type vendor tags
       limit score_threshold).
Proof.
  unfold Qdrant.search_products, Qdrant._get_embedding. simpl.
  intros [emb | e]; simpl; [| eexists; reflexivity].
  intros [res | e]; simpl; eexists; reflexivity.
Qed.

Lemma search_all_both self query store_name limit score_threshold :
  all_leaves is_search_all_result
    (Qdrant.search_all self query store_name limit score_threshold).
Proof.
  unfold Qdrant.search_all.
  pose proof (leaves_gather is_list is_list _ _
                (search_documents_list self query store_name None None limit
                   score_threshold)
                (search_products_list self query store_name None None None
                   limit score_threshold)) as Hg.
  revert Hg.
  generalize (gather
                (Qdrant.search_documents self query store_name None None
                   limit score_threshold)
                (Qdrant.search_products self query store_name None None None
                   limit score_threshold)).
  intros g. induction g as [[r1 r2] | X e k IH]; simpl.
  - intros [[docs Hd] [prods Hp]]. subst. simpl. eexists. eexists.
    reflexivity.
  - intros Hk x. apply IH, Hk.
Qed.

(** X8.  No query operation of the searcher raises, whatever the embedding
    service and the index answer: the three searches return a list (the
    empty one after a failure), [get_store_details] a dictionary or [None],
    [search_all] a dictionary with the two lists [documents] and [products]
    under every interleaving of its two searches, and the loop of
    [get_all_store_names], when it ends, a list. *)
Theorem searcher_operations_never_raise :
  forall (U : PySet) (self : Qdrant.searcher) (query field : string)
         (store_name doc_type source product_type vendor collection_name
            : option string)
         (tags : option (list string)) (v : value) (limit : Z)
         (score_threshold : Q) (fuel : nat),
    all_leaves is_dict_or_none (Qdrant.get_store_details self store_name)
    /\ all_leaves is_list
         (Qdrant.search_documents self query store_name doc_type source
            limit score_threshold)
    /\ all_leaves is_list
         (Qdrant.search_products self query store_name product_type vendor
            tags limit score_threshold)
    /\ all_leaves is_search_all_result
         (Qdrant.search_all self query store_name limit score_threshold)
    /\ all_leaves is_list
         (Qdrant.search_by_metadata self field v collection_name limit)
    /\ all_leaves is_names_result (Qdrant.get_all_store_names fuel self).
Proof.
  intros. split; [| split; [| split; [| split; [| split]]]].
  - unfold Qdrant.get_store_details, Qdrant._get_embedding. simpl.
    intros [[points next] | e]; simpl; [| left; reflexivity].
    destruct (Qdrant.first_with_details store_name points) as [details |] eqn:Hd.
    + simpl. revert Hd. clear. induction points as [| p points IH]; simpl.
      * discriminate.
      * destruct (PyDict.has_key "store_details" (rec_payload p)).
        -- intros H. injection H as <-. right. eexists. reflexivity.
        -- exact IH.
    + destruct points as [| p points]; simpl; [left; reflexivity |].
      intros [emb | e]; simpl; [| left; reflexivity].
      intros [[| r res] | e]; try (simpl; left; reflexivity).
      cbn [bind try_catch lift ret all_leaves].
      match goal with
      | |- context [map_result ?f ?l] => destruct (map_result f l)
      end;
        cbn [bind try_catch lift ret all_leaves];
        [right; eexists; reflexivity | left; reflexivity].
  - apply search_documents_list.
  - apply search_products_list.
  - apply search_all_both.
  - unfold Qdrant.search_by_metadata. simpl.
    intros [[points next] | e]; simpl; eexists; reflexivity.
  - unfold Qdrant.get_all_store_names.
    apply leaves_try_catch, leaves_bind.
    generalize (Qdrant.scroll_loop fuel self None []).
    intros p. induction p as [[[names |] | e] | X e k IH]; simpl; auto.
    + destruct (sorted names); simpl;
        right; eexists; reflexivity.
    + left; reflexivity.
    + right. eexists. reflexivity.
Qed.

(** X9.  When the embedding of the query fails, [search_documents] and
    [search_products] return the empty list and the index is not asked:
    the embedding request is the only exchange. *)
Theorem search_without_embedding_is_empty :
  forall S (h : handler S) (self : Qdrant.searcher) (query : string)
         (store_name doc_type source product_type vendor : option string)
         (tags : option (list string)) (limit : Z) (score_threshold : Q)
         (w w1 : S) (err : exn),
    h _ (EmbedQuery query) w = (Raise err, w1) ->
    run_log h
      (Qdrant.search_documents self query store_name doc_type source limit
         score_threshold) w
    = (Ok (VList []), w1, [IO (EmbedQuery query) (Raise err)])
    /\ run_log h
         (Qdrant.search_products self query store_name product_type vendor
            tags limit score_threshold) w
       = (Ok (VList []), w1, [IO (EmbedQuery query) (Raise err)]).
Proof.
  intros S h self query store_name doc_type source product_type vendor tags
    limit score_threshold w w1 err Hh.
  unfold Qdrant.search_documents, Qdrant.search_products,
    Qdrant._get_embedding.
  simpl. rewrite Hh. split; reflexivity.
Qed.

Lemma search_without_embedding_witness :
  run_log World.oracle
    (Qdrant.search_documents Qdrant.default_searcher "opening hours"
       (Some "demo") None None 3%Z (6 # 10)%Q)
    (World.scripted [World.AVector (Raise (ExternalError "quota"))])
  = (Ok (VList []), World.scripted [],
     [IO (EmbedQuery "opening hours") (Raise (ExternalError "quota"))]).
Proof.
  apply (@search_without_embedding_is_empty World.world World.oracle
           Qdrant.default_searcher "opening hours" (Some "demo") None None
           None None None 3%Z (6 # 10)%Q
           (World.scripted [World.AVector (Raise (ExternalError "quota"))])
           (World.scripted []) (ExternalError "quota")).
  reflexivity.
Defined.

(** *** Dictionaries *)

Lemma lookup_set_same (k : string) (v : value) (d : dict) :
  PyDict.lookup k (PyDict.set k v d) = Some v.
Proof.
  induction d as [| [k' v'] d IH]; simpl.
  - rewrite String.eqb_refl. reflexivity.
  - destruct (String.eqb k k') eqn:E; simpl.
    + rewrite String.eqb_refl. reflexivity.
    + rewrite E. exact IH.
Qed.

Lemma lookup_set_other (k k0 : string) (v : value) (d : dict) :
  k <> k0 -> PyDict.lookup k (PyDict.set k0 v d) = PyDict.lookup k d.
Proof.
  intros Hne. induction d as [| [k' v'] d IH]; simpl.
  - destruct (String.eqb k k0) eqn:E; [| reflexivity].
    apply String.eqb_eq in E. contradiction.
  - destruct (String.eqb k0 k') eqn:E0; simpl.
    + apply String.eqb_eq in E0. subst k'.
      destruct (String.eqb k k0) eqn:E; [| reflexivity].
      apply String.eqb_eq in E. contradiction.
    + destruct (String.eqb k k'); [reflexivity | exact IH].
Qed.

Lemma lookup_absent (k : string) (d : dict) :
  ~ In k (PyDict.keys d) -> PyDict.lookup k d = None.
Proof.
  induction d as [| [k' v'] d IH]; simpl; intros Hn; [reflexivity |].
  destruct (String.eqb k k') eqn:E.
  - apply String.eqb_eq in E. subst. exfalso. apply Hn. left. reflexivity.
  - apply IH. intros Hin. apply Hn. right. exact Hin.
Qed.

(** [d.update(other)] and [{**d, **other}]: the entries of [other] come
    over those of [d]. *)
Lemma lookup_update (k : string) (d other : dict) :
  NoDup (PyDict.keys other) ->
  PyDict.lookup k (PyDict.update d other)
  = match PyDict.lookup k other with
    | Some v => Some v
    | None => PyDict.lookup k d
    end.
Proof.
  unfold PyDict.update. revert d.
  induction other as [| [k0 v0] other IH]; intros d Hnd; simpl.
  - reflexivity.
  - inversion Hnd as [| x l Hnotin Hnd']; subst.
    rewrite IH by assumption.
    destruct (String.eqb k k0) eqn:E.
    + apply String.eqb_eq in E. subst k0.
      rewrite (lookup_absent k other Hnotin).
      apply lookup_set_same.
    + destruct (PyDict.lookup k other); [reflexivity |].
      apply lookup_set_other. intros Heq. subst.
      rewrite String.eqb_refl in E. discriminate.
Qed.

(** X10.  [search_by_metadata] asks one page of the collection named, or of
    the document collection when no name (or an empty one) is given, and
    returns one dictionary per point of that page: the payload of the point
    with the key [id] in front.  A payload that has a field [id] of its own
    keeps it, so the identifier of the point is hidden; what follows the
    first page is not read. *)
Theorem search_by_metadata_items :
  forall S (h : handler S) (self : Qdrant.searcher) (field : string)
         (v : value) (collection_name : option string) (limit : Z)
         (w w1 : S) (points : list record) (next : option value),
    let collection :=
      if opt_truthy collection_name then opt_str collection_name
      else Qdrant.document_collection self in
    h _ (QdrantScroll
           (mkScroll collection
              (Some (Filter [FieldCondition field v] [] None)) limit None))
      w = (Ok (points, next), w1) ->
    Forall (fun point => NoDup (PyDict.keys (rec_payload point))) points ->
    exists items,
      run h (Qdrant.search_by_metadata self field v collection_name limit) w
      = (Ok (VList items), w1)
      /\ Forall2
           (fun point item =>
              exists d,
                item = VDict d
                /\ PyDict.lookup "id" d
                   = Some (PyDict.get_default "id" (rec_id point)
                             (rec_payload point))
                /\ forall k, k <> "id" ->
                             PyDict.lookup k d
                             = PyDict.lookup k (rec_payload point))
           points items.
Proof.
  intros S h self field v collection_name limit w w1 points next collection
    Hh Hnd.
  unfold Qdrant.search_by_metadata. fold collection.
  unfold Qdrant.must_filter, Qdrant.field_eq. simpl.
  rewrite Hh. simpl.
  eexists. split; [reflexivity |].
  clear Hh. induction points as [| p points IH]; simpl.
  - constructor.
  - inversion Hnd as [| x l Hp Hrest]; subst.
    constructor; [| apply IH; assumption].
    eexists. split; [reflexivity |]. split.
    + rewrite lookup_update by assumption.
      unfold PyDict.get_default.
      destruct (PyDict.lookup "id" (rec_payload p)); reflexivity.
    + intros k Hk. rewrite lookup_update by assumption.
      destruct (PyDict.lookup k (rec_payload p)); [reflexivity |].
      simpl. destruct (String.eqb k "id") eqn:E; [| reflexivity].
      apply String.eqb_eq in E. contradiction.
Qed.

Lemma search_by_metadata_witness :
  exists items,
    run World.oracle
      (Qdrant.search_by_metadata Qdrant.default_searcher "store"
         (VStr "demo") (Some "") 10%Z)
      (World.scripted
         [World.APage
            (Ok ([mkRecord (VInt 7) [("store", VStr "demo");
                                     ("id", VStr "sku-1")]],
                 Some (VInt 8)))])
    = (Ok (VList items), World.scripted [])
    /\ Forall2
         (fun point item =>
            exists d,
              item = VDict d
              /\ PyDict.lookup "id" d
                 = Some (PyDict.get_default "id" (rec_id point)
                           (rec_payload point))
              /\ forall k, k <> "id" ->
                           PyDict.lookup k d
                           = PyDict.lookup k (rec_payload point))
         [mkRecord (VInt 7) [("store", VStr "demo"); ("id", VStr "sku-1")]]
         items.
Proof.
  apply (@search_by_metadata_items World.world World.oracle
           Qdrant.default_searcher "store" (VStr "demo") (Some "") 10%Z
           (World.scripted
              [World.APage
                 (Ok ([mkRecord (VInt 7) [("store", VStr "demo");
                                          ("id", VStr "sku-1")]],
                      Some (VInt 8)))])
           (World.scripted [])
           [mkRecord (VInt 7) [("store", VStr "demo"); ("id", VStr "sku-1")]]
           (Some (VInt 8))).
  - reflexivity.
  - constructor; [| constructor].
    simpl. constructor.
    + simpl. intros [H | []]. discriminate H.
    + constructor; [intros [] | constructor].
Defined.

Lemma first_with_details_app (store_name : option string)
  (before : list record) (point : record) (after : list record) :
  forallb lacks_details before = true ->
  lacks_details point = false ->
  Qdrant.first_with_details store_name (before ++ point :: after)%list
  = Some (VDict
            [("store_name", opt_value store_name);
             ("store_details",
              PyDict.get "store_details" (rec_payload point));
             ("source",
              PyDict.get_default "source" (VStr "Unknown")
                (rec_payload point))]).
Proof.
  unfold lacks_details. intros Hbefore Hpoint.
  apply negb_false_iff in Hpoint.
  induction before as [| b before IH]; simpl in *.
  - rewrite Hpoint. reflexivity.
  - apply andb_prop in Hbefore. destruct Hbefore as [Hb Hrest].
    apply negb_true_iff in Hb. rewrite Hb. apply IH, Hrest.
Qed.

(** X11.  [get_store_details] reads one page of at most 100 points of the
    store and answers from the first point whose payload has the key
    [store_details]: its details, and its [source] or [Unknown].  In that
    case nothing is embedded and no search is made. *)
Theorem get_store_details_first_carrier :
  forall S (h : handler S) (self : Qdrant.searcher)
         (store_name : option string) (w w1 : S)
         (before after : list record) (point : record)
         (next : option value),
    let scroll :=
      QdrantScroll
        (mkScroll (Qdrant.document_collection self)
           (Some (Filter [FieldCondition "store" (opt_value store_name)] []
                    None))
           100 None) in
    h _ scroll w = (Ok ((before ++ point :: after)%list, next), w1) ->
    forallb lacks_details before = true ->
    lacks_details point = false ->
    run_log h (Qdrant.get_store_details self store_name) w
    = (Ok (VDict
             [("store_name", opt_value store_name);
              ("store_details",
               PyDict.get "store_details" (rec_payload point));
              ("source",
               PyDict.get_default "source" (VStr "Unknown")
                 (rec_payload point))]),
       w1,
       [IO scroll (Ok ((before ++ point :: after)%list, next))]).
Proof.
  intros S h self store_name w w1 before after point next scroll Hh Hbefore
    Hpoint.
  unfold Qdrant.get_store_details.
  unfold Qdrant.must_filter, Qdrant.field_eq. cbv zeta.
  cbn [try_catch bind call run_log]. fold scroll. rewrite Hh.
  cbn [fst].
  rewrite (first_with_details_app store_name before point after Hbefore
             Hpoint).
  reflexivity.
Qed.

Lemma get_store_details_witness :
  run_log World.oracle
    (Qdrant.get_store_details Qdrant.default_searcher (Some "demo"))
    (World.scripted
       [World.APage
          (Ok ([mkRecord (VInt 1) [("store", VStr "demo")];
                mkRecord (VInt 2) [("store", VStr "demo");
                                   ("store_details", VStr "Open 9 to 5")]],
               None))])
  = (Ok (VDict [("store_name", VStr "demo");
                ("store_details", VStr "Open 9 to 5");
                ("source", VStr "Unknown")]),
     World.scripted [],
     [IO (QdrantScroll
            (mkScroll "document_store"
               (Some (Filter [FieldCondition "store" (VStr "demo")] [] None))
               100 None))
         (Ok ([mkRecord (VInt 1) [("store", VStr "demo")];
               mkRecord (VInt 2) [("store", VStr "demo");
                                  ("store_details", VStr "Open 9 to 5")]],
              None))]).
Proof.
  apply (@get_store_details_first_carrier World.world World.oracle
           Qdrant.default_searcher (Some "demo")
           (World.scripted
              [World.APage
                 (Ok ([mkRecord (VInt 1) [("store", VStr "demo")];
                       mkRecord (VInt 2)
                         [("store", VStr "demo");
                          ("store_details", VStr "Open 9 to 5")]],
                      None))])
           (World.scripted [])
           [mkRecord (VInt 1) [("store", VStr "demo")]] []
           (mkRecord (VInt 2) [("store", VStr "demo");
                               ("store_details", VStr "Open 9 to 5")])
           None);
    reflexivity.
Defined.

(** *** Reading the collection page by page *)

Lemma add_stores_app (U : PySet) (a b : list record) (names : list value) :
  Qdrant.add_stores (a ++ b)%list names
  = match Qdrant.add_stores a names with
    | Ok names' => Qdrant.add_stores b names'
    | Raise e => Raise e
    end.
Proof.
  revert names. induction a as [| p a IH]; intros names; simpl.
  - reflexivity.
  - destruct (PyDict.has_key "store" (rec_payload p)); [| apply IH].
    destruct (set_add names _); [apply IH | reflexivity].
Qed.

Lemma concat_skipn A (pages : list (list A)) (i : nat) :
  concat (skipn i pages)
  = (nth i pages [] ++ concat (skipn (S i) pages))%list.
Proof.
  revert i. induction pages as [| page pages IH]; intros i.
  - destruct i; reflexivity.
  - destruct i as [| i]; [reflexivity |]. simpl. apply IH.
Qed.

Lemma concat_skipn_last A (pages : list (list A)) (i : nat) :
  length pages <= S i -> concat (skipn (S i) pages) = [].
Proof.
  intros H. rewrite skipn_all2 by exact H. reflexivity.
Qed.

Lemma scroll_loop_paged (U : PySet) (self : Qdrant.searcher)
  (pages : list (list record)) (w : World.world) (fuel : nat) :
  forall (offset : option value) (names : list value),
    length pages - page_of offset <= fuel -> 1 <= fuel ->
    run (paged_index pages)
      (Qdrant.scroll_loop fuel self offset names) w
    = (match Qdrant.add_stores (concat (skipn (page_of offset) pages))
               names with
       | Ok names' => Ok (Some names')
       | Raise e => Raise e
       end, w).
Proof.
  induction fuel as [| fuel IH]; intros offset names Hrem Hone; [lia |].
  cbn [Qdrant.scroll_loop].
  rewrite run_bind, run_call.
  cbn [paged_index scroll_offset fst snd].
  rewrite run_bind. cbn [lift run fst snd].
  rewrite (concat_skipn pages (page_of offset)), add_stores_app.
  destruct (Qdrant.add_stores (nth (page_of offset) pages []) names)
    as [names' | e]; [| reflexivity].
  destruct (S (page_of offset) <? length pages)%nat eqn:Hlt.
  - apply Nat.ltb_lt in Hlt.
    rewrite IH.
    + cbn [page_of]. rewrite Nat2Z.id. reflexivity.
    + cbn [page_of]. rewrite Nat2Z.id. lia.
    + lia.
  - apply Nat.ltb_ge in Hlt.
    rewrite concat_skipn_last by exact Hlt. reflexivity.
Qed.

(** X12.  Over a collection that is served page by page,
    [get_all_store_names] follows the offsets to the last page: fuel for one
    round more than there are pages is enough for the loop to end, and the
    names returned are those gathered from the points of all the pages, in
    order, then sorted. *)
Theorem get_all_store_names_reads_every_page :
  forall (U : PySet) (self : Qdrant.searcher) (pages : list (list record))
         (fuel : nat) (w : World.world),
    length pages < fuel ->
    run (paged_index pages) (Qdrant.get_all_store_names fuel self) w
    = (names_answer (Qdrant.add_stores (concat pages) []), w).
Proof.
  intros U self pages fuel w Hfuel.
  unfold Qdrant.get_all_store_names.
  rewrite run_try_catch, run_bind.
  rewrite scroll_loop_paged by (cbn [page_of]; lia).
  cbn [page_of skipn fst snd].
  unfold names_answer.
  destruct (Qdrant.add_stores (concat pages) []) as [names | e];
    [| reflexivity].
  rewrite run_bind. cbn [lift run fst snd].
  destruct (sorted names); reflexivity.
Qed.

Lemma get_all_store_names_witness :
  run (paged_index
         [[mkRecord (VInt 1) [("store", VStr "north")]];
          [mkRecord (VInt 2) [("text", VStr "no store")];
           mkRecord (VInt 3) [("store", VStr "east")];
           mkRecord (VInt 4) [("store", VStr "north")]]])
    (Qdrant.get_all_store_names 3 Qdrant.default_searcher)
    (World.scripted [])
  = (Ok (Some (VList [VStr "east"; VStr "north"])), World.scripted []).
Proof.
  eapply eq_trans.
  - apply (@get_all_store_names_reads_every_page plain_set
             Qdrant.default_searcher
             [[mkRecord (VInt 1) [("store", VStr "north")]];
              [mkRecord (VInt 2) [("text", VStr "no store")];
               mkRecord (VInt 3) [("store", VStr "east")];
               mkRecord (VInt 4) [("store", VStr "north")]]]
             3 (World.scripted [])).
    simpl. lia.
  - reflexivity.
Defined.

(** ** The intent classifier *)

(** X13.  [extract_entities] returns in every run and for every intent: a
    failure of the prompted extraction ends in the fallback of the intent.
    For an intent it has no prompt for, [general] among them, it asks
    nothing and returns the query alone. *)
Theorem extract_entities_never_raises :
  forall query intent : string,
    all_leaves returned (IntentClassifier.extract_entities query intent)
    /\ (if PyStr.mem intent prompted_intents then True
        else IntentClassifier.extract_entities query intent
             = ret (VDict [("query", VStr query)])).
Proof.
  intros query intent.
  unfold IntentClassifier.extract_entities, PyStr.mem, prompted_intents.
  cbn [existsb].
  destruct (intent =? "order") eqn:E1;
    [split; [apply leaves_try_catch_returned; intros; exact I | exact I] |].
  destruct (intent =? "update_order") eqn:E2;
    [split; [apply leaves_try_catch_returned; intros; exact I | exact I] |].
  destruct (intent =? "cancel_order") eqn:E3;
    [split; [apply leaves_try_catch_returned; intros; exact I | exact I] |].
  destruct (intent =? "product") eqn:E4;
    [split; [apply leaves_try_catch_returned; intros; exact I | exact I] |].
  destruct (intent =? "store_info") eqn:E5;
    [split; [apply leaves_try_catch_returned; intros; exact I | exact I] |].
  split; [exact I | reflexivity].
Qed.

(** X14.  [classify_intent] has no fallback for a failing call: when the
    chain raises, the exception reaches the caller and no label is
    returned; the default label is for answers outside the label set
    only. *)
Theorem classify_intent_propagates_failure :
  forall S (h : handler S) (history query : string) (w w1 : S) (err : exn),
    h _ (LlmClassify IntentClassifier.examples_text history query) w
      = (Raise err, w1) ->
    run h (IntentClassifier.classify_intent history query) w
    = (Raise err, w1).
Proof.
  intros S h history query w w1 err Hh.
  unfold IntentClassifier.classify_intent.
  rewrite run_bind_call, Hh. reflexivity.
Qed.

Lemma classify_intent_failure_witness :
  run World.oracle (IntentClassifier.classify_intent "" "Where is my order?")
    (World.scripted [World.AString (Raise (ExternalError "timeout"))])
  = (Raise (ExternalError "timeout"), World.scripted []).
Proof.
  apply (@classify_intent_propagates_failure World.world World.oracle ""
           "Where is my order?"
           (World.scripted [World.AString (Raise (ExternalError "timeout"))])
           (World.scripted []) (ExternalError "timeout")).
  reflexivity.
Defined.

(** X15.  [process_query] never returns a result: it calls
    [classify_intent] with the query alone, one argument short, so the call
    is a [TypeError] before the model is asked anything. *)
Theorem process_query_always_raises :
  forall S (h : handler S) (query : string) (w : S),
    run_log h (IntentClassifier.process_query query) w
    = (Raise TypeError, w, []).
Proof. intros. reflexivity. Qed.

(** *** The matcher takes what the pattern can consume *)

Lemma go_sound (icase : bool) (r : Re.regex) :
  forall c caps k res,
    Re.go icase r c caps k = Some res ->
    exists c1 caps1, consumes icase r c c1 /\ k c1 caps1 = Some res.
Proof.
  induction r as [| ch | neg items | | r1 IH1 r2 IH2 | r1 IH1 r2 IH2
                  | body IH mn mx | n body IH];
    intros c caps k res H; cbn [Re.go] in H; cbn [consumes].
  - exists c, caps. split; [reflexivity | exact H].
  - destruct (Re.step_char (Re.lit_matches icase ch) c) as [c' |] eqn:E;
      [| discriminate].
    exists c', caps. split; [reflexivity | exact H].
  - destruct (Re.step_char _ c) as [c' |] eqn:E; [| discriminate].
    exists c', caps. split; [reflexivity | exact H].
  - destruct (Re.at_boundary c) eqn:E; [| discriminate].
    exists c, caps. repeat split; assumption.
  - apply IH1 in H. destruct H as [c1 [caps1 [H1 H]]].
    apply IH2 in H. destruct H as [c2 [caps2 [H2 H]]].
    exists c2, caps2. split; [exists c1; split; assumption | exact H].
  - destruct (Re.go icase r1 c caps k) as [m |] eqn:E.
    + apply IH1 in E. destruct E as [c1 [caps1 [H1 Hk]]].
      exists c1, caps1. split; [left; exact H1 |].
      rewrite Hk. exact H.
    + apply IH2 in H. destruct H as [c1 [caps1 [H1 Hk]]].
      exists c1, caps1. split; [right; exact H1 | exact Hk].
  - assert (Hgen : forall fuel count c caps,
               (fix loop (fuel count : nat) (c : Re.cursor)
                         (caps : Re.captures) {struct fuel}
                  : option (Re.cursor * Re.captures) :=
                  match fuel with
                  | O => None
                  | S fuel' =>
                      match
                        (if Re.under count mx
                         then Re.go icase body c caps
                                (fun c' caps' =>
                                   if (Re.cur_pos c <? Re.cur_pos c')%nat
                                   then loop fuel' (S count) c' caps'
                                   else None)
                         else None)
                      with
                      | Some m => Some m
                      | None => if (mn <=? count)%nat then k c caps else None
                      end
                  end) fuel count c caps = Some res ->
               exists n c1 caps1,
                 mn <= count + n
                 /\ iterated n (consumes icase body) c c1
                 /\ k c1 caps1 = Some res).
    { clear H c caps.
      induction fuel as [| fuel IHf]; intros count c caps H;
        [discriminate |].
      match type of H with
      | match ?more with Some _ => _ | None => _ end = _ =>
          destruct more as [m |] eqn:Emore
      end.
      - destruct (Re.under count mx); [| discriminate].
        apply IH in Emore. destruct Emore as [c1 [caps1 [Hbody Hk]]].
        destruct (Re.cur_pos c <? Re.cur_pos c1)%nat; [| discriminate].
        rewrite H in Hk. apply IHf in Hk.
        destruct Hk as [n [c2 [caps2 [Hn [Hit Hk]]]]].
        exists (S n), c2, caps2. split; [lia |]. split; [| exact Hk].
        exists c1. split; assumption.
      - destruct (mn <=? count)%nat eqn:Hmn; [| discriminate].
        apply Nat.leb_le in Hmn.
        exists 0, c, caps. split; [lia |]. split; [reflexivity | exact H]. }
    pose proof (Hgen (S (length (Re.cur_rest c))) 0 c caps H) as H'.
    destruct H' as [n [c1 [caps1 [Hn [Hit Hk]]]]].
    exists c1, caps1. split; [exists n; split; [lia | exact Hit] | exact Hk].
  - apply IH in H. destruct H as [c1 [caps1 [H1 Hk]]].
    exists c1, ((n, (Re.cur_pos c, Re.cur_pos c1)) :: caps1).
    split; [exact H1 | exact Hk].
Qed.

Lemma step_char_spec (p : ascii -> bool) (c c' : Re.cursor) :
  Re.step_char p c = Some c' ->
  exists x, p x = true
            /\ Re.cur_rest c = x :: Re.cur_rest c'
            /\ Re.cur_pos c' = S (Re.cur_pos c).
Proof.
  unfold Re.step_char. destruct (Re.cur_rest c) as [| x rest]; [discriminate |].
  destruct (p x) eqn:Hp; [| discriminate].
  intros H. injection H as <-. exists x. repeat split. exact Hp.
Qed.

Lemma skipn_cons A (l : list A) (n : nat) (x : A) (r : list A) :
  skipn n l = x :: r -> skipn (S n) l = r.
Proof.
  revert l. induction n as [| n IH]; intros l H.
  - simpl in H. subst l. reflexivity.
  - destruct l as [| y l]; [discriminate |]. simpl in *. apply IH, H.
Qed.

Lemma step_char_inside (subject : list ascii) (p : ascii -> bool)
  (c c' : Re.cursor) :
  Re.step_char p c = Some c' -> inside subject c -> inside subject c'.
Proof.
  intros H Hin. apply step_char_spec in H.
  destruct H as [x [_ [Hrest Hpos]]].
  unfold inside in *. rewrite Hpos. symmetry.
  apply skipn_cons with (x := x). rewrite <- Hin. exact Hrest.
Qed.

Lemma consumes_inside (subject : list ascii) (icase : bool) (r : Re.regex) :
  forall c c', consumes icase r c c' -> inside subject c -> inside subject c'.
Proof.
  induction r as [| ch | neg items | | r1 IH1 r2 IH2 | r1 IH1 r2 IH2
                  | body IH mn mx | n body IH];
    intros c c' H Hin; cbn [consumes] in H.
  - subst. exact Hin.
  - eapply step_char_inside; eassumption.
  - eapply step_char_inside; eassumption.
  - destruct H as [_ ->]. exact Hin.
  - destruct H as [c1 [H1 H2]]. eauto.
  - destruct H as [H | H]; eauto.
  - destruct H as [n [_ Hit]]. revert c Hin Hit.
    induction n as [| n IHn]; intros c Hin Hit; simpl in Hit.
    + subst. exact Hin.
    + destruct Hit as [c1 [H1 Hit]]. eauto.
  - eauto.
Qed.

Lemma in_class_digit (icase : bool) (x : ascii) :
  Re.in_class icase [Re.CDigit] x = true -> PyStr.is_digit x = true.
Proof.
  destruct icase; destruct x as [[] [] [] [] [] [] [] []];
    vm_compute; intros H; congruence.
Qed.

(** A repetition of [\d] consumes digits, as many as its minimum at least. *)
Lemma digits_run (icase : bool) (mn : nat) (mx : option nat)
  (c c' : Re.cursor) :
  consumes icase (Re.Repeat (Re.Class false [Re.CDigit]) mn mx) c c' ->
  exists ds,
    forallb PyStr.is_digit ds = true
    /\ mn <= length ds
    /\ Re.cur_rest c = (ds ++ Re.cur_rest c')%list
    /\ Re.cur_pos c' = Re.cur_pos c + length ds.
Proof.
  cbn [consumes]. intros [n [Hn Hit]].
  assert (H : exists ds,
             forallb PyStr.is_digit ds = true
             /\ length ds = n
             /\ Re.cur_rest c = (ds ++ Re.cur_rest c')%list
             /\ Re.cur_pos c' = Re.cur_pos c + length ds).
  { clear Hn. revert c Hit. induction n as [| n IHn]; intros c Hit;
      simpl in Hit.
    - subst. exists []. repeat split. simpl. lia.
    - destruct Hit as [c1 [H1 Hit]].
      apply step_char_spec in H1. destruct H1 as [x [Hx [Hrest Hpos]]].
      simpl in Hx. apply in_class_digit in Hx.
      destruct (IHn c1 Hit) as [ds [Hds [Hlen [Hrest1 Hpos1]]]].
      exists (x :: ds). simpl. rewrite Hx, Hds, Hlen, Hrest, Hrest1.
      repeat split. lia. }
  destruct H as [ds [Hds [Hlen [Hrest Hpos]]]].
  exists ds. repeat split; try assumption. lia.
Qed.

Lemma go_group (icase : bool) (n : nat) (body : Re.regex) c caps k :
  Re.go icase (Re.Group n body) c caps k
  = Re.go icase body c caps
      (fun c' caps' => k c' ((n, (Re.cur_pos c, Re.cur_pos c')) :: caps')).
Proof. reflexivity. Qed.

Lemma go_seq (icase : bool) (r1 r2 : Re.regex) c caps k :
  Re.go icase (Re.Seq r1 r2) c caps k
  = Re.go icase r1 c caps (fun c' caps' => Re.go icase r2 c' caps' k).
Proof. reflexivity. Qed.

(** The group 1 of a pattern that ends in [(\d+)]: its span, and the digits
    it holds. *)
Lemma go_ends_in_digits (subject : list ascii) (icase : bool)
  (r : Re.regex) :
  ends_in_digits r = true ->
  forall c caps c' caps',
    inside subject c ->
    Re.go icase r c caps (fun c' caps' => Some (c', caps')) = Some (c', caps') ->
    exists c1 caps1 ds,
      caps' = (1, (Re.cur_pos c1, Re.cur_pos c')) :: caps1
      /\ inside subject c1
      /\ forallb PyStr.is_digit ds = true
      /\ 1 <= length ds
      /\ Re.cur_rest c1 = (ds ++ Re.cur_rest c')%list
      /\ Re.cur_pos c' = Re.cur_pos c1 + length ds.
Proof.
  induction r as [| ch | neg items | | r1 IH1 r2 IH2 | r1 IH1 r2 IH2
                  | body IH mn mx | n body IH];
    intros Hend c caps c' caps' Hin H; try discriminate Hend.
  - cbn [ends_in_digits] in Hend. rewrite go_seq in H.
    apply go_sound in H. destruct H as [c1 [caps1 [H1 H]]].
    apply (IH2 Hend c1 caps1 c' caps'); [| exact H].
    eapply consumes_inside; eassumption.
  - cbn [ends_in_digits] in Hend.
    destruct n as [| [| n]]; try discriminate Hend.
    destruct body as [| | | | | | body mn mx |]; try discriminate Hend.
    destruct body as [| | [] items | | | | |]; try discriminate Hend.
    destruct items as [| [] [| ? ?]]; try discriminate Hend.
    destruct mn as [| mn]; [discriminate Hend |].
    destruct mx; [discriminate Hend |].
    rewrite go_group in H. apply go_sound in H.
    destruct H as [c1 [caps1 [H1 H]]].
    injection H as <- <-.
    apply digits_run in H1.
    destruct H1 as [ds [Hds [Hlen [Hrest Hpos]]]].
    exists c, caps1, ds. repeat split; try assumption. lia.
Qed.

Lemma search_from_spec (icase : bool) (r : Re.regex) (subject : list ascii)
  (fuel : nat) :
  forall c m,
    inside subject c ->
    Re.search_from icase r subject fuel c = Some m ->
    exists c0 c' caps',
      inside subject c0
      /\ Re.go icase r c0 [] (fun c' caps' => Some (c', caps'))
         = Some (c', caps')
      /\ m = Re.mkMatch subject (Re.cur_pos c0) (Re.cur_pos c') caps'.
Proof.
  induction fuel as [| fuel IH]; intros c m Hin H; cbn [Re.search_from] in H;
    destruct (Re.go icase r c [] (fun c' caps' => Some (c', caps')))
      as [[c' caps'] |] eqn:Hgo.
  - injection H as <-. exists c, c', caps'. repeat split; assumption.
  - discriminate.
  - injection H as <-. exists c, c', caps'. repeat split; assumption.
  - destruct (Re.cur_rest c) as [| x rest] eqn:Hrest; [discriminate |].
    apply IH in H; [exact H |].
    unfold inside in *. cbn [Re.cur_rest Re.cur_pos].
    symmetry. apply skipn_cons with (x := x). rewrite <- Hin. exact Hrest.
Qed.

Lemma group_1_digits (r : Re.regex) (query : string) (m : Re.match_object) :
  ends_in_digits r = true ->
  Re.search true r query = Some m ->
  Re.group m 1 <> "" /\ all_digits (Re.group m 1) = true.
Proof.
  intros Hend H. unfold Re.search in H.
  apply search_from_spec in H; [| reflexivity].
  destruct H as [c0 [c' [caps' [Hin [Hgo ->]]]]].
  destruct (@go_ends_in_digits (list_ascii_of_string query) true r Hend
              c0 [] c' caps' Hin Hgo)
    as [c1 [caps1 [ds [-> [Hin1 [Hds [Hlen [Hrest Hpos]]]]]]]].
  cbn [Re.group Re.m_caps Re.m_subject Re.find_cap Nat.eqb].
  unfold Re.slice. rewrite <- Hin1, Hrest, Hpos.
  replace (Re.cur_pos c1 + length ds - Re.cur_pos c1) with (length ds) by lia.
  rewrite firstn_app, firstn_all, Nat.sub_diag, firstn_O, app_nil_r.
  split.
  - destruct ds; [simpl in Hlen; lia | discriminate].
  - unfold all_digits. rewrite list_ascii_of_string_of_list_ascii. exact Hds.
Qed.

(** X16.  On a query of the model, a string of code points below 256, an
    order number found by the regex fallback is a non-empty string of the
    digits [0] to [9]: each of the four patterns ends in a group of digits,
    and that group is what is returned.  (On a [str] the class [\d] also
    matches the decimal digits of other scripts, all from U+0660 on; a query
    with such characters is outside the model.) *)
Theorem extract_order_id_regex_is_digits :
  forall query id : string,
    IntentClassifier.extract_order_id_regex query = Some id ->
    id <> "" /\ all_digits id = true.
Proof.
  intros query id. unfold IntentClassifier.extract_order_id_regex.
  assert (Hall : forallb ends_in_digits IntentClassifier.order_id_patterns
                 = true) by reflexivity.
  revert Hall. generalize IntentClassifier.order_id_patterns.
  intros patterns. induction patterns as [| p patterns IH]; simpl;
    intros Hall H; [discriminate |].
  apply andb_prop in Hall. destruct Hall as [Hp Hrest].
  destruct (Re.search true p query) as [m |] eqn:Hs.
  - injection H as <-. eapply group_1_digits; eassumption.
  - apply IH; assumption.
Qed.

Lemma extract_order_id_regex_witness :
  IntentClassifier.extract_order_id_regex "Where is order #12345?"
  = Some "12345"
  /\ "12345" <> "" /\ all_digits "12345" = true.
Proof.
  split; [vm_compute; reflexivity |].
  apply (@extract_order_id_regex_is_digits "Where is order #12345?" "12345").
  vm_compute. reflexivity.
Defined.

(** The text a pattern consumes, and the digits in it. *)
Lemma consumes_text (icase : bool) (r : Re.regex) :
  forall c c',
    consumes icase r c c' ->
    exists text,
      Re.cur_rest c = (text ++ Re.cur_rest c')%list
      /\ Re.cur_pos c' = Re.cur_pos c + length text
      /\ min_digits r <= count_digits text.
Proof.
  induction r as [| ch | neg items | | r1 IH1 r2 IH2 | r1 IH1 r2 IH2
                  | body IH mn mx | n body IH];
    intros c c' H; cbn [consumes] in H.
  - subst. exists []. repeat split; simpl; lia.
  - apply step_char_spec in H. destruct H as [x [_ [Hrest Hpos]]].
    exists [x]. repeat split; simpl; [assumption | lia | lia].
  - apply step_char_spec in H. destruct H as [x [Hx [Hrest Hpos]]].
    exists [x]. split; [assumption |]. split; [simpl; lia |].
    destruct neg; [simpl; lia |].
    destruct items as [| [] [| ? ?]]; try (simpl; lia).
    simpl in Hx. apply in_class_digit in Hx.
    unfold count_digits. simpl. rewrite Hx. simpl. lia.
  - destruct H as [_ ->]. exists []. repeat split; simpl; lia.
  - destruct H as [c1 [H1 H2]].
    apply IH1 in H1. destruct H1 as [t1 [Hr1 [Hp1 Hd1]]].
    apply IH2 in H2. destruct H2 as [t2 [Hr2 [Hp2 Hd2]]].
    exists (t1 ++ t2)%list. rewrite Hr1, Hr2, Hp2, Hp1.
    unfold count_digits in *.
    rewrite <- app_assoc, filter_app, !length_app. simpl.
    repeat split; lia.
  - destruct H as [H | H].
    + apply IH1 in H. destruct H as [t [Hr [Hp Hd]]].
      exists t. repeat split; try assumption. simpl. lia.
    + apply IH2 in H. destruct H as [t [Hr [Hp Hd]]].
      exists t. repeat split; try assumption. simpl. lia.
  - destruct H as [n [Hn Hit]].
    assert (Hn' : exists text,
               Re.cur_rest c = (text ++ Re.cur_rest c')%list
               /\ Re.cur_pos c' = Re.cur_pos c + length text
               /\ n * min_digits body <= count_digits text).
    { clear Hn. revert c Hit. induction n as [| n IHn]; intros c Hit;
        simpl in Hit.
      - subst. exists []. repeat split; simpl; lia.
      - destruct Hit as [c1 [H1 Hit]].
        apply IH in H1. destruct H1 as [t1 [Hr1 [Hp1 Hd1]]].
        destruct (IHn c1 Hit) as [t2 [Hr2 [Hp2 Hd2]]].
        exists (t1 ++ t2)%list. rewrite Hr1, Hr2, Hp2, Hp1.
        unfold count_digits in *.
        rewrite <- app_assoc, filter_app, !length_app. simpl.
        repeat split; lia. }
    destruct Hn' as [text [Hr [Hp Hd]]].
    exists text. repeat split; try assumption. simpl. nia.
  - apply IH in H. exact H.
Qed.

Lemma keep_digits_plus_chars (s : string) :
  digits_and_plus (Re.keep_digits_plus s) = true.
Proof.
  unfold digits_and_plus. induction s as [| c s IH]; simpl; [reflexivity |].
  destruct (PyStr.is_digit c || Ascii.eqb c "+"%char) eqn:E; [| exact IH].
  simpl. rewrite E. exact IH.
Qed.

Lemma keep_digits_plus_count (text : list ascii) :
  count_digits
    (list_ascii_of_string (Re.keep_digits_plus (string_of_list_ascii text)))
  = count_digits text.
Proof.
  unfold count_digits. induction text as [| c text IH]; [reflexivity |].
  cbn [string_of_list_ascii Re.keep_digits_plus List.filter].
  destruct (PyStr.is_digit c) eqn:Hd; cbn [orb].
  - cbn [list_ascii_of_string List.filter]. rewrite Hd. simpl. rewrite IH.
    reflexivity.
  - destruct (Ascii.eqb c "+"%char); [| exact IH].
    cbn [list_ascii_of_string List.filter]. rewrite Hd. exact IH.
Qed.

Lemma group_0_digits (r : Re.regex) (query : string) (m : Re.match_object) :
  Re.search false r query = Some m ->
  min_digits r
  <= count_digits
       (list_ascii_of_string (Re.keep_digits_plus (Re.group m 0))).
Proof.
  intros H. unfold Re.search in H.
  apply search_from_spec in H; [| reflexivity].
  destruct H as [c0 [c' [caps' [Hin [Hgo ->]]]]].
  apply go_sound in Hgo. destruct Hgo as [c1 [caps1 [Hc H]]].
  injection H as <- <-.
  apply consumes_text in Hc. destruct Hc as [text [Hrest [Hpos Hd]]].
  cbn [Re.group Re.m_subject Re.m_start Re.m_end].
  unfold Re.slice. rewrite <- Hin, Hrest, Hpos.
  replace (Re.cur_pos c0 + length text - Re.cur_pos c0) with (length text)
    by lia.
  rewrite firstn_app, firstn_all, Nat.sub_diag, firstn_O, app_nil_r.
  rewrite keep_digits_plus_count. exact Hd.
Qed.

(** X17.  On a query of the model, a string of code points below 256, a
    phone number found by the regex fallback has seven digits at least and
    is made of the digits [0] to [9] and plus signs only.  (On a [str] the
    class [\d] also matches the decimal digits of other scripts, all from
    U+0660 on; a query with such characters is outside the model.) *)
Theorem extract_phone_regex_is_a_number :
  forall query phone : string,
    IntentClassifier.extract_phone_regex query = Some phone ->
    7 <= count_digits (list_ascii_of_string phone)
    /\ digits_and_plus phone = true.
Proof.
  intros query phone. unfold IntentClassifier.extract_phone_regex.
  assert (Hall : forallb (fun r => 7 <=? min_digits r)%nat
                   IntentClassifier.phone_patterns = true) by reflexivity.
  revert Hall. generalize IntentClassifier.phone_patterns.
  intros patterns. induction patterns as [| p patterns IH];
    cbn [forallb IntentClassifier.extract_phone_from];
    intros Hall H; [discriminate |].
  apply andb_prop in Hall. destruct Hall as [Hp Hrest].
  apply Nat.leb_le in Hp.
  destruct (Re.search false p query) as [m |] eqn:Hs.
  - injection H as <-. split; [| apply keep_digits_plus_chars].
    apply group_0_digits in Hs. cbn [Re.group] in Hs. lia.
  - apply IH; assumption.
Qed.

Lemma extract_phone_regex_witness :
  IntentClassifier.extract_phone_regex "call me at (555) 123-4567"
  = Some "5551234567"
  /\ 7 <= count_digits (list_ascii_of_string "5551234567")
  /\ digits_and_plus "5551234567" = true.
Proof.
  split; [vm_compute; reflexivity |].
  apply (@extract_phone_regex_is_a_number "call me at (555) 123-4567"
           "5551234567").
  vm_compute. reflexivity.
Defined.

(** *** The e-mail pattern *)

Lemma consumes_char (ch : ascii) (r : Re.regex) :
  forall c c',
    consumes false r c c' ->
    exists text,
      Re.cur_rest c = (text ++ Re.cur_rest c')%list
      /\ Re.cur_pos c' = Re.cur_pos c + length text
      /\ min_char ch r <= count_char ch text.
Proof.
  induction r as [| lit | neg items | | r1 IH1 r2 IH2 | r1 IH1 r2 IH2
                  | body IH mn mx | n body IH];
    intros c c' H; cbn [consumes] in H.
  - subst. exists []. repeat split; simpl; lia.
  - apply step_char_spec in H. destruct H as [x [Hx [Hrest Hpos]]].
    exists [x]. split; [assumption |]. split; [simpl; lia |].
    cbn [Re.lit_matches] in Hx. apply Ascii.eqb_eq in Hx. subst x.
    unfold count_char. simpl.
    destruct (Ascii.eqb ch lit); simpl; lia.
  - apply step_char_spec in H. destruct H as [x [_ [Hrest Hpos]]].
    exists [x]. repeat split; simpl; [assumption | lia | lia].
  - destruct H as [_ ->]. exists []. repeat split; simpl; lia.
  - destruct H as [c1 [H1 H2]].
    apply IH1 in H1. destruct H1 as [t1 [Hr1 [Hp1 Hd1]]].
    apply IH2 in H2. destruct H2 as [t2 [Hr2 [Hp2 Hd2]]].
    exists (t1 ++ t2)%list. rewrite Hr1, Hr2, Hp2, Hp1.
    unfold count_char in *.
    rewrite <- app_assoc, filter_app, !length_app. simpl.
    repeat split; lia.
  - destruct H as [H | H].
    + apply IH1 in H. destruct H as [t [Hr [Hp Hd]]].
      exists t. repeat split; try assumption. simpl. lia.
    + apply IH2 in H. destruct H as [t [Hr [Hp Hd]]].
      exists t. repeat split; try assumption. simpl. lia.
  - destruct H as [n [Hn Hit]].
    assert (Hn' : exists text,
               Re.cur_rest c = (text ++ Re.cur_rest c')%list
               /\ Re.cur_pos c' = Re.cur_pos c + length text
               /\ n * min_char ch body <= count_char ch text).
    { clear Hn. revert c Hit. induction n as [| n IHn]; intros c Hit;
        simpl in Hit.
      - subst. exists []. repeat split; simpl; lia.
      - destruct Hit as [c1 [H1 Hit]].
        apply IH in H1. destruct H1 as [t1 [Hr1 [Hp1 Hd1]]].
        destruct (IHn c1 Hit) as [t2 [Hr2 [Hp2 Hd2]]].
        exists (t1 ++ t2)%list. rewrite Hr1, Hr2, Hp2, Hp1.
        unfold count_char in *.
        rewrite <- app_assoc, filter_app, !length_app. simpl.
        repeat split; lia. }
    destruct Hn' as [text [Hr [Hp Hd]]].
    exists text. repeat split; try assumption. simpl. nia.
  - apply IH in H. exact H.
Qed.

Lemma count_char_contains (ch : ascii) (text : list ascii) :
  1 <= count_char ch text ->
  PyStr.contains (String ch "") (string_of_list_ascii text) = true.
Proof.
  unfold count_char. induction text as [| x text IH]; simpl; [lia |].
  destruct (Ascii.eqb ch x) eqn:E.
  - intros _. apply Ascii.eqb_eq in E. subst x.
    destruct (ascii_dec ch ch) as [_ | Hne]; [| contradiction Hne; reflexivity].
    rewrite prefix_empty. reflexivity.
  - intros H. rewrite (IH H). apply orb_true_r.
Qed.

(** X18.  An e-mail address found by the regex fallback contains an at sign
    and a dot, whatever the query. *)
Theorem extract_email_regex_has_at_and_dot :
  forall query email : string,
    IntentClassifier.extract_email_regex query = Some email ->
    PyStr.contains "@" email = true /\ PyStr.contains "." email = true.
Proof.
  intros query email. unfold IntentClassifier.extract_email_regex.
  destruct (Re.search false IntentClassifier.email_pattern query)
    as [m |] eqn:Hs; [| discriminate].
  intros H. injection H as <-.
  unfold Re.search in Hs.
  apply search_from_spec in Hs; [| reflexivity].
  destruct Hs as [c0 [c' [caps' [Hin [Hgo ->]]]]].
  apply go_sound in Hgo. destruct Hgo as [c1 [caps1 [Hc H]]].
  injection H as <- <-.
  cbn [Re.group Re.m_subject Re.m_start Re.m_end]. unfold Re.slice.
  assert (Hslice : forall text,
             Re.cur_rest c0 = (text ++ Re.cur_rest c1)%list ->
             Re.cur_pos c1 = Re.cur_pos c0 + length text ->
             firstn (Re.cur_pos c1 - Re.cur_pos c0)
               (skipn (Re.cur_pos c0) (list_ascii_of_string query))
             = text).
  { intros text Hrest Hpos. rewrite <- Hin, Hrest, Hpos.
    replace (Re.cur_pos c0 + length text - Re.cur_pos c0)
      with (length text) by lia.
    rewrite firstn_app, firstn_all, Nat.sub_diag, firstn_O, app_nil_r.
    reflexivity. }
  split.
  - destruct (consumes_char "@" _ _ _ Hc) as [text [Hrest [Hpos Hcount]]].
    rewrite (Hslice text Hrest Hpos).
    apply count_char_contains.
    change (min_char "@" IntentClassifier.email_pattern) with 1 in Hcount.
    exact Hcount.
  - destruct (consumes_char "." _ _ _ Hc) as [text [Hrest [Hpos Hcount]]].
    rewrite (Hslice text Hrest Hpos).
    apply count_char_contains.
    change (min_char "." IntentClassifier.email_pattern) with 1 in Hcount.
    exact Hcount.
Qed.

Lemma extract_email_regex_witness :
  IntentClassifier.extract_email_regex "write to ann@shop.example, please"
  = Some "ann@shop.example"
  /\ PyStr.contains "@" "ann@shop.example" = true
  /\ PyStr.contains "." "ann@shop.example" = true.
Proof.
  split; [vm_compute; reflexivity |].
  apply (@extract_email_regex_has_at_and_dot
           "write to ann@shop.example, please" "ann@shop.example").
  vm_compute. reflexivity.
Defined.

(** ** The call session *)

Lemma all_runs_run_log S R (h : handler S) (P : list io -> R -> Prop)
  (p : prog R) (s : S) :
  all_runs P p ->
  P (snd (run_log h p s)) (fst (fst (run_log h p s))).
Proof.
  revert P s. induction p as [r | X e k IH]; simpl; intros P s Hp.
  - exact Hp.
  - destruct (h X e s) as [x s']. specialize (IH x _ s' (Hp x)).
    destruct (run_log h (k x) s') as [[r s''] log]. exact IH.
Qed.

(** X19.  [insert_conversation_to_db] gives back the connection it opened:
    in every run [close] is called once for each successful [connect] (one
    or none), whether the statement or the commit raises or not.  [close]
    runs in the [finally] clause and may raise itself, and then its
    exception replaces the value about to be returned: the function raises
    exactly when [connect] or [close] raised.  When it returns, it returns
    [True] exactly when the commit succeeded and [False] on any failure of
    the statement or of the commit; without an engine it returns [False]
    and does nothing. *)
Theorem insert_conversation_closes_connection :
  forall (engine : bool) (conversation_data : dict),
    all_runs
      (fun log r =>
         count (io_is is_close) log = count (succeeded is_connect) log
         /\ count (io_is is_connect) log = (if engine then 1 else 0)
         /\ (if engine then True else log = [])
         /\ match r with
            | Ok b =>
                b = existsb (succeeded is_commit) log
                /\ existsb (failed is_connect) log = false
                /\ existsb (failed is_close) log = false
            | Raise _ =>
                existsb (failed is_connect) log
                || existsb (failed is_close) log = true
            end)
      (Voicebot.insert_conversation_to_db engine conversation_data).
Proof.
  intros engine conversation_data.
  unfold Voicebot.insert_conversation_to_db.
  destruct engine; cbn [negb]; [| repeat split].
  cbn [bind call all_runs]. intros [[] | e]; cbn [bind all_runs].
  - destruct (Voicebot.parameters_of conversation_data) as [parameters | e];
      cbn [lift bind try_catch try_finally call ret all_runs].
    + intros [[] | e];
        cbn [bind try_catch try_finally call ret all_runs].
      * intros [[] | e];
          cbn [bind try_catch try_finally call ret all_runs];
          intros [[] | e']; cbn [bind all_runs]; repeat split.
      * intros [[] | e']; cbn [bind all_runs]; repeat split.
    + intros [[] | e']; cbn [bind all_runs]; repeat split.
  - repeat split.
Qed.

Lemma session_step_log (T : PyText) (op : operation) (x : Voicebot.session) :
  Voicebot.conversation_log (session_step op x)
  = (Voicebot.conversation_log x ++ entry_of op)%list
  /\ Voicebot.session_id (session_step op x) = Voicebot.session_id x
  /\ Voicebot.session_start_time (session_step op x)
     = Voicebot.session_start_time x.
Proof.
  destruct op; cbn [session_step entry_of];
    try (rewrite app_nil_r; repeat split).
  - repeat split.
  - repeat split.
Qed.

Lemma session_steps_log (T : PyText) (ops : list operation)
  (x : Voicebot.session) :
  let x' := fold_left (fun x op => session_step op x) ops x in
  Voicebot.conversation_log x'
  = (Voicebot.conversation_log x ++ flat_map entry_of ops)%list
  /\ Voicebot.session_id x' = Voicebot.session_id x
  /\ Voicebot.session_start_time x' = Voicebot.session_start_time x.
Proof.
  revert x. induction ops as [| op ops IH]; intros x; cbn [fold_left flat_map].
  - rewrite app_nil_r. repeat split.
  - destruct (IH (session_step op x)) as [Hlog [Hid Htime]].
    destruct (session_step_log T op x) as [Hlog1 [Hid1 Htime1]].
    cbv zeta. rewrite Hlog, Hid, Htime, Hlog1, Hid1, Htime1.
    rewrite app_assoc. repeat split.
Qed.

(** X20.  The transcript is accumulated in commit order: after any sequence
    of session operations, in every run, the record assembled for the
    database carries as [Conversation] the log the sequence started from
    followed by one block per committed message ([USER:] or [AGENT:], the
    text, a blank line), in the order of the commits; function calls add
    nothing to it, and the session identifier and start time are the ones
    the session began with. *)
Theorem transcript_accumulates_in_order :
  forall (T : PyText) (ops : list operation) (s : Voicebot.state) (now : Z),
    all_leaves
      (fun s' =>
         let data := Voicebot.conversation_data_of (Voicebot.sess s') now in
         PyDict.get "Conversation" data
         = VStr (String.concat ""
                   (Voicebot.conversation_log (Voicebot.sess s)
                    ++ flat_map entry_of ops))
         /\ PyDict.get "Session_ID" data
            = VStr (Voicebot.session_id (Voicebot.sess s))
         /\ PyDict.get "Session_Time" data
            = VDatetime (Voicebot.session_start_time (Voicebot.sess s)))
      (perform_all ops s).
Proof.
  intros T ops s now.
  eapply all_leaves_impl; [| apply operations_session].
  intros s' Hs'. cbv zeta.
  destruct (session_steps_log T ops (Voicebot.sess s)) as [Hlog [Hid Htime]].
  cbv zeta in Hlog, Hid, Htime. rewrite <- Hs' in Hlog, Hid, Htime.
  unfold Voicebot.conversation_data_of, PyDict.get. cbn [PyDict.lookup].
  cbn. rewrite Hlog, Hid, Htime. repeat split.
Qed.

(** X21.  The duration recorded for a call is the [seconds] field of the
    time difference, not the whole difference: it lies between 0 and 86399
    and whole days are dropped, so a call that lasts a day longer is
    recorded with the same duration. *)
Theorem duration_drops_whole_days :
  forall (x : Voicebot.session) (now days : Z),
    exists secs,
      PyDict.get "Duration_of_Call" (Voicebot.conversation_data_of x now)
      = VInt secs
      /\ (0 <= secs < day_seconds)%Z
      /\ PyDict.get "Duration_of_Call"
           (Voicebot.conversation_data_of x (now + days * day_us))
         = VInt secs.
Proof.
  intros x now days.
  exists (Voicebot.timedelta_seconds now (Voicebot.session_start_time x)).
  split; [reflexivity |]. split.
  - unfold Voicebot.timedelta_seconds, day_seconds.
    apply Z.mod_pos_bound. lia.
  - unfold Voicebot.conversation_data_of, PyDict.get. cbn [PyDict.lookup].
    cbn. f_equal.
    unfold Voicebot.timedelta_seconds, day_us.
    replace (now + days * 86400000000 - Voicebot.session_start_time x)%Z
      with ((now - Voicebot.session_start_time x)
            + (days * 86400) * 1000000)%Z by lia.
    rewrite Z.div_add by lia.
    rewrite Z.mod_add by lia. reflexivity.
Qed.

(** *** The function calls *)

Lemma leaves_any A B (Q : B -> Prop) (p : prog A) (k : A -> prog B) :
  (forall a, all_leaves Q (k a)) -> all_leaves Q (Voicebot.pbind p k).
Proof. intros Hk. induction p as [a | X e h IH]; simpl; auto. Qed.

Lemma leaves_stry_dict (m : Voicebot.SM value) (hdl : exn -> Voicebot.SM value)
  (s : Voicebot.state) :
  all_leaves dict_or_raise (m s) ->
  (forall e s', all_leaves answers_dict (hdl e s')) ->
  all_leaves answers_dict (Voicebot.stry m hdl s).
Proof.
  intros Hm Hh. unfold Voicebot.stry. apply all_leaves_pbind.
  eapply all_leaves_impl; [| exact Hm].
  intros [[v | e] s']; unfold dict_or_raise; cbn [fst snd].
  - intros [d ->]. exists d. reflexivity.
  - intros _. apply Hh.
Qed.

Lemma run_after_say S (h : handler S) (text : string)
  (body : Voicebot.SM value) (s : Voicebot.state) (w : S) :
  fst (h _ (AgentSay text) w) = Ok tt ->
  run h (Voicebot.sbind (Voicebot.io_ (call (AgentSay text)))
           (fun _ => body) s) w
  = run h (body s) (snd (h _ (AgentSay text) w)).
Proof.
  intros Hsay. unfold Voicebot.sbind, Voicebot.io_. simpl.
  destruct (h _ (AgentSay text) w) as [r w1]. simpl in *. subst r.
  reflexivity.
Qed.

Ltac dict_step :=
  match goal with
  | |- all_leaves _ (Voicebot.sbind _ _ _) =>
      unfold Voicebot.sbind at 1; apply leaves_any;
      intros [[? | ?] ?]; cbn [fst snd]
  | |- all_leaves _ (Ret _) =>
      cbn [all_leaves]; unfold dict_or_raise, answers_dict; cbn [fst snd];
      first [exact I | eexists; reflexivity]
  | |- all_leaves _ (Voicebot.sret _ _) =>
      unfold Voicebot.sret; cbn [all_leaves];
      unfold dict_or_raise, answers_dict; cbn [fst snd];
      first [exact I | eexists; reflexivity]
  | |- all_leaves _ (if ?b then _ else _) => destruct b
  | |- all_leaves _ ((if ?b then _ else _) _) => destruct b
  | |- all_leaves _ (match ?x with _ => _ end) => destruct x
  | |- all_leaves _ ((match ?x with _ => _ end) _) => destruct x
  | |- all_leaves _ ((fun _ => _) _) => cbv beta
  | |- all_leaves _ (let _ := _ in _) => cbv zeta
  | |- all_leaves _ ((let _ := _ in _) _) => cbv zeta
  end.

(** X22.  Once its announcement has been spoken, a function call always
    answers with a dictionary: whatever the shop, the index, Redis or the
    telephony API answer or raise, the exception is caught and the model
    receives a dictionary (with an [error] entry after a failure), never an
    exception. *)
Theorem function_calls_answer_dictionaries :
  forall (T : PyText) (op : operation) (s : Voicebot.state) S
         (h : handler S) (w : S),
    is_tool op = true ->
    (forall text, fst (h _ (AgentSay text) w) = Ok tt) ->
    answers_dict (fst (run h (perform_operation op s) w)).
Proof.
  intros T op s S h w.
  intros Htool Hsay.
  destruct op; try discriminate Htool; cbn [perform_operation].
  - unfold Voicebot.get_product_information.
    rewrite run_after_say by apply Hsay. apply all_leaves_run.
    apply leaves_stry_dict; [| intros; dict_step].
    repeat dict_step.
  - unfold Voicebot.get_order_status.
    rewrite run_after_say by apply Hsay. apply all_leaves_run.
    apply leaves_stry_dict; [| intros; dict_step].
    repeat dict_step.
  - unfold Voicebot.update_order.
    rewrite run_after_say by apply Hsay. apply all_leaves_run.
    apply leaves_stry_dict; [| intros; dict_step].
    repeat dict_step.
  - unfold Voicebot.cancel_order.
    rewrite run_after_say by apply Hsay. apply all_leaves_run.
    apply leaves_stry_dict; [| intros; dict_step].
    repeat dict_step.
  - unfold Voicebot.get_store_information.
    rewrite run_after_say by apply Hsay. apply all_leaves_run.
    apply leaves_stry_dict; [| intros; dict_step].
    repeat dict_step.
  - unfold Voicebot.transfer_to_agent.
    rewrite run_after_say by apply Hsay. apply all_leaves_run.
    apply leaves_stry_dict; [| intros; unfold Voicebot.failure; dict_step].
    unfold Voicebot.failure. repeat dict_step.
Qed.

Lemma function_calls_answer_witness :
  answers_dict
    (fst (run World.oracle
            (@perform_operation World.plain_text
               (GetOrderStatus (Some "1001")) idle_state)
            (World.scripted []))).
Proof.
  apply (@function_calls_answer_dictionaries World.plain_text
           (GetOrderStatus (Some "1001")) idle_state World.world
           World.oracle (World.scripted []));
    [reflexivity | intros text; reflexivity].
Defined.

Ltac exec_step :=
  first
    [ progress
        (unfold Voicebot.stry, Voicebot.sbind, Voicebot.ensure_shopify,
           Voicebot.get_state, Voicebot._get_order_by_id, Voicebot.io_,
           Voicebot.sret, Voicebot.put_state,
           Shopify.get_all_orders, Shopify.fetch_customer_id,
           Shopify.get_customer_orders, Shopify.update_order,
           Shopify.cancel_order)
    | match goal with
      | Hc : has_credentials ?c = false
        |- context [Shopify._handle_auth_error ?c ?f] =>
          rewrite (handle_auth_error_no_credentials c f Hc)
      end
    | progress cbn [Voicebot.pbind all_events fst snd negb andb orb
                      Voicebot.shopify_truthy Voicebot.the_collector
                      Voicebot.shopify Voicebot.fnc PyStr.is_empty
                      Voicebot.caller_number iterate as_dict
                      call perform lift bind try_catch ret raise]
    | exact I
    | reflexivity
    | match goal with
      | |- _ /\ _ => split
      | |- forall _, _ => intro
      | |- all_events _ (match ?x with _ => _ end) => destruct x
      | |- all_events _ (if ?b then _ else _) => destruct b
      | |- all_events _ (Voicebot.pbind (if ?b then _ else _) _) =>
          destruct b
      | |- all_events _ (Voicebot.pbind (match ?x with _ => _ end) _) =>
          destruct x
      | |- context [(if ?b then _ else _) _] => destruct b
      end ].

(** X23.  A function context without a usable collector never reaches the
    shop.  That is the case when the collector has no credentials (the
    store profile had no access token), and when the room name stands where
    the collector should be (the entry point passes it in that position,
    and it stays there until a participant has connected).  In both cases
    the function calls on orders send not one request. *)
Theorem order_calls_without_collector_send_nothing :
  forall (T : PyText) (op : operation) (s : Voicebot.state),
    blind (Voicebot.shopify (Voicebot.fnc s)) = true ->
    is_order_tool op = true ->
    all_events (fun X e => is_request e = false) (perform_operation op s).
Proof.
  intros T op s Hs Hop.
  destruct s as [a b c d e f g hh [rn sh qs] x].
  cbn [Voicebot.fnc Voicebot.shopify] in Hs.
  destruct sh as [| room | col]; cbn [blind] in Hs; [discriminate | |].
  - destruct room as [| ch room]; [discriminate |].
    destruct op; try discriminate Hop; cbn [perform_operation].
    + unfold Voicebot.get_order_status. repeat exec_step.
    + unfold Voicebot.update_order. repeat exec_step.
    + unfold Voicebot.cancel_order. repeat exec_step.
  - apply negb_true_iff in Hs.
    destruct op; try discriminate Hop; cbn [perform_operation].
    + unfold Voicebot.get_order_status. repeat exec_step.
    + unfold Voicebot.update_order. repeat exec_step.
    + unfold Voicebot.cancel_order. repeat exec_step.
Qed.

Lemma order_calls_without_collector_witness :
  all_events (fun X e => is_request e = false)
    (@perform_operation World.plain_text (CancelOrder "1001" None)
       idle_state).
Proof.
  apply (@order_calls_without_collector_send_nothing World.plain_text
           (CancelOrder "1001" None) idle_state);
    reflexivity.
Defined.

Lemma init_without_token (token base_url : option string) (path : string) :
  opt_truthy token = false ->
  all_leaves (fun r => match r with
                       | Ok c => has_credentials c = false
                       | Raise _ => True
                       end)
    (Shopify.__init__ token base_url path).
Proof.
  intros Htoken. unfold Shopify.__init__. rewrite Htoken.
  simpl. intros [|]; simpl; [reflexivity |].
  intros [[] | e]; simpl; [reflexivity | exact I].
Qed.

(** X24.  When the profile read for the called number has no access token
    (Redis has no entry for the number, or fails, or the entry lacks the
    field), [on_participant_connected] goes on all the same: a function
    context that could not reach the shop before still cannot after it,
    whether the callback ends or raises. *)
Theorem connection_without_token_stays_blind :
  forall S (h : handler S) (p : Voicebot.participant)
         (s : Voicebot.state) (w : S),
    let called :=
      Voicebot.attr "sip.trunkPhoneNumber" (Voicebot.attributes p) in
    blind (Voicebot.shopify (Voicebot.fnc s)) = true ->
    opt_truthy
      (profile_token
         (profile_of_answer called
            (fst (h _ (RedisHGetAll ("store:" ++ opt_str called)) w))))
    = false ->
    blind
      (Voicebot.shopify
         (Voicebot.fnc
            (snd (fst (run h (Voicebot.on_participant_connected p s) w)))))
    = true.
Proof.
  intros S h p s w called Hblind Htoken.
  unfold Voicebot.on_participant_connected. fold called.
  unfold Voicebot.sbind at 1. simpl Voicebot.pbind.
  unfold Voicebot.sbind at 1. simpl Voicebot.pbind.
  unfold Voicebot.sbind at 1. rewrite run_pbind.
  unfold Voicebot.io_ at 1. rewrite !run_pbind. simpl fst at 2.
  rewrite run_get_store_from_redis.
  revert Htoken.
  generalize (profile_of_answer called
                (fst (h _ (RedisHGetAll ("store:" ++ opt_str called)) w))).
  intros [[[name details] token] base_url] Htoken.
  unfold profile_token in Htoken. cbn [fst snd] in Htoken.
  cbn iota beta.
  match goal with
  | |- blind (Voicebot.shopify (Voicebot.fnc (snd (fst (run h ?prog ?w1)))))
       = true =>
      apply (all_leaves_run h
               (fun rs => blind (Voicebot.shopify (Voicebot.fnc (snd rs)))
                          = true) prog w1)
  end.
  match goal with
  | |- all_leaves _ (Voicebot.sbind _ _ ?st) => generalize st; intros s1
  end.
  unfold Voicebot.sbind at 1. cbn [Voicebot.put_state Voicebot.pbind fst snd].
  unfold Voicebot.sbind at 1. apply all_leaves_pbind.
  unfold Voicebot.io_ at 1. apply all_leaves_pbind.
  eapply all_leaves_impl; [| apply init_without_token; exact Htoken].
  intros [c | e] Hc; cbn [all_leaves fst snd]; [| exact Hblind].
  repeat first
    [ match goal with
      | |- blind _ = true =>
          cbn [blind Voicebot.shopify Voicebot.fnc snd];
          rewrite Hc; reflexivity
      end
    | leaves_step
    | progress cbn [all_leaves perform call Voicebot.io_ Voicebot.pbind
                      Voicebot.task try_catch bind ret fst snd]
    | intro
    | match goal with
      | |- all_leaves _ (match ?x with _ => _ end) => destruct x
      | |- all_leaves _ (Voicebot.pbind (try_catch (bind ?m _) _) _) =>
          generalize m; intros ?m
      | |- all_leaves _ (try_catch (match ?x with _ => _ end) _) =>
          destruct x
      end ].
Qed.

Lemma connection_without_token_witness :
  blind
    (Voicebot.shopify
       (Voicebot.fnc
          (snd (fst (run World.oracle
                       (Voicebot.on_participant_connected
                          (Voicebot.mkParticipant "caller"
                             [("sip.trunkPhoneNumber", "+15550001111");
                              ("sip.phoneNumber", "+15552223333")])
                          idle_state)
                       (World.scripted [World.AHash (Ok [])]))))))
  = true.
Proof.
  apply (@connection_without_token_stays_blind World.world World.oracle
           (Voicebot.mkParticipant "caller"
              [("sip.trunkPhoneNumber", "+15550001111");
               ("sip.phoneNumber", "+15552223333")])
           idle_state (World.scripted [World.AHash (Ok [])]));
    reflexivity.
Defined.

(** X25.  A call of the [update_order] function without any new value (no
    e-mail, no phone, no part of an address) changes nothing: in no run is a
    [PUT] sent; the call ends with the request for update information, or
    earlier when the order is not found. *)
Theorem update_call_without_fields_sends_no_put :
  forall (T : PyText) (order_id : string)
         (email phone address1 address2 city last_name province_code country
            zip_code : option string) (s : Voicebot.state),
    existsb opt_truthy
      [email; phone; address1; address2; city; last_name; province_code;
       country; zip_code] = false ->
    all_events (fun X e => is_http PUT e = false)
      (Voicebot.update_order order_id email phone address1 address2 city
         last_name province_code country zip_code s).
Proof.
  intros T order_id email phone address1 address2 city last_name
    province_code country zip_code s H.
  cbn [existsb] in H.
  repeat match type of H with
         | _ || _ = false =>
             apply orb_false_elim in H;
             let H1 := fresh "Hf" in destruct H as [H1 H]
         end.
  unfold Voicebot.update_order.
  cbn [existsb]. rewrite Hf, Hf0, Hf1, Hf2, Hf3, Hf4, Hf5, Hf6, Hf7.
  cbn [orb app].
  unfold Voicebot._get_order_by_id, Voicebot.ensure_shopify,
    Voicebot.create_shopify, Shopify.__init__, Shopify.get_all_orders,
    Shopify._handle_auth_error, Shopify.get_checked,
    Shopify.raise_for_status, Shopify.json.
  walk_state.
Qed.

Lemma update_call_without_fields_witness :
  all_events (fun X e => is_http PUT e = false)
    (@Voicebot.update_order World.plain_text "1001" None (Some "") None None
       None None None None None idle_state).
Proof.
  apply (@update_call_without_fields_sends_no_put World.plain_text "1001"
           None (Some "") None None None None None None None idle_state).
  reflexivity.
Defined.

Ltac runs_step :=
  first
    [ progress cbn [Voicebot.pbind all_runs fst snd negb andb call perform]
    | match goal with
      | |- forall x : result _, _ => intros [? | ?]
      | |- forall x : _, _ => intro
      | |- all_runs _ (if negb (opt_truthy ?o) then _ else _) =>
          destruct (opt_truthy o) eqn:?
      | |- all_runs _ (Voicebot.pbind (if negb (opt_truthy ?o) then _ else _)
                         _) =>
          destruct (opt_truthy o) eqn:?
      | |- all_runs _ (if negb (opt_truthy ?a && opt_truthy ?b
                                && opt_truthy ?c) then _ else _) =>
          destruct (opt_truthy a) eqn:?, (opt_truthy b) eqn:?,
            (opt_truthy c) eqn:?
      | |- all_runs _ ?p =>
          match p with
          | context [if negb (opt_truthy ?a && opt_truthy ?b
                              && opt_truthy ?c) then _ else _] =>
              destruct (opt_truthy a) eqn:?, (opt_truthy b) eqn:?,
                (opt_truthy c) eqn:?
          | context [if negb (opt_truthy ?o) then _ else _] =>
              destruct (opt_truthy o) eqn:?
          end
      end ].

Ltac runs_leaf :=
  cbn [all_runs]; cbv beta;
  unfold count, succeeded, io_is, io_raised, env_set, participant_known,
    is_transfer, is_hget, success_of, returned, raised;
  cbn [List.filter existsb length fst snd String.eqb Ascii.eqb Bool.eqb
         andb orb negb PyDict.lookup];
  repeat match goal with
         | H : opt_truthy _ = _ |- _ => rewrite H
         end;
  cbn [andb orb negb List.filter existsb length];
  repeat split; intros; try discriminate; try contradiction;
  try reflexivity; try lia.

(** X26.  One invocation of [transfer_to_agent] asks the telephony API for
    at most one transfer (a session that invokes the function again may ask
    again), and only after it has found the participant of the call and the
    three LiveKit settings in the environment; Redis is asked for a transfer
    number only when the environment has none.  The answer says
    [success: True] exactly when the transfer was made, and
    [success: False] in every other run that got past the announcement. *)
Theorem transfer_is_guarded :
  forall (T : PyText) (reason : option string) (s : Voicebot.state),
    all_runs
      (fun log rs =>
         count (io_is is_transfer) log <= 1
         /\ (existsb (io_is is_transfer) log = true ->
             existsb participant_known log = true
             /\ existsb (env_set "LIVEKIT_URL") log = true
             /\ existsb (env_set "LIVEKIT_API_KEY") log = true
             /\ existsb (env_set "LIVEKIT_API_SECRET") log = true)
         /\ (existsb (io_is is_hget) log = true ->
             existsb (env_set "TRANSFER_PHONE_NUMBER") log = false)
         /\ (returned (fst rs) ->
             success_of (fst rs)
             = Some (VBool (existsb (succeeded is_transfer) log))))
      (Voicebot.transfer_to_agent reason s).
Proof.
  intros T reason s.
  unfold Voicebot.transfer_to_agent, Voicebot.failure.
  unfold Voicebot.stry, Voicebot.sbind, Voicebot.io_, Voicebot.get_state,
    Voicebot.sret.
  match goal with |- all_runs ?P0 _ => set (P := P0) end.
  repeat runs_step; subst P; runs_leaf.
Qed.

Lemma map_result_length A B (f : A -> result B) (l : list A) (bs : list B) :
  map_result f l = Ok bs -> length bs = length l.
Proof.
  revert bs. induction l as [| a l IH]; simpl; intros bs H.
  - injection H as <-. reflexivity.
  - destruct (f a); [| discriminate].
    destruct (map_result f l) as [bs' |]; [| discriminate].
    injection H as <-. simpl. rewrite (IH bs' eq_refl). reflexivity.
Qed.

Lemma first_three_bounded B (f : dict -> result B) (orders recent : value)
  (l : list B) :
  Voicebot.first_three orders = Ok recent ->
  Voicebot.for_dicts f recent = Ok l ->
  length l <= 3.
Proof.
  unfold Voicebot.first_three, Voicebot.for_dicts.
  destruct orders as [| | | | x | l0 | |]; intros H; try discriminate H;
    injection H as <-; cbn [iterate]; intros H.
  - destruct (list_ascii_of_string (substring 0 3 x)) as [| c cs];
      simpl in H; [injection H as <-; simpl; lia | discriminate].
  - apply map_result_length in H. rewrite H.
    exact (firstn_le_length 3 l0).
Qed.

Ltac bounded_step :=
  match goal with
  | |- all_leaves _ (Voicebot.sbind (Voicebot.io_ (lift ?r)) _ _) =>
      unfold Voicebot.sbind at 1, Voicebot.io_ at 1;
      cbn [lift Voicebot.pbind fst snd];
      destruct r eqn:?
  | |- all_leaves _ (Voicebot.sbind _ _ _) =>
      unfold Voicebot.sbind at 1; apply leaves_any;
      intros [[? | ?] ?]; cbn [fst snd]
  | |- all_leaves _ (Voicebot.stry _ _ _) =>
      unfold Voicebot.stry at 1; apply all_leaves_pbind
  | |- all_leaves _ (Ret _) =>
      cbn [all_leaves]; unfold lists_at_most;
      cbn [fst snd PyDict.lookup String.eqb Ascii.eqb Bool.eqb length]
  | |- all_leaves _ (Voicebot.sret _ _) => unfold Voicebot.sret
  | |- all_leaves _ (if ?b then _ else _) => destruct b
  | |- all_leaves _ ((if ?b then _ else _) _) => destruct b
  | |- all_leaves _ (match ?x with _ => _ end) => destruct x
  | |- all_leaves _ ((fun _ => _) _) => cbv beta
  | |- all_leaves _ (let _ := _ in _) => cbv zeta
  | |- all_leaves _ ((let _ := _ in _) _) => cbv zeta
  | |- True => exact I
  | |- 0 <= 3 => lia
  | H1 : Voicebot.first_three _ = Ok ?recent,
    H2 : Voicebot.for_dicts _ ?recent = Ok ?l |- length ?l <= 3 =>
      exact (first_three_bounded _ _ H1 H2)
  end.

(** X27.  [get_order_status] never lists more than three orders: every
    answer it gives, the error answers included, has a list of at most three
    under [orders], however many orders the shop returns for the
    customer. *)
Theorem order_status_lists_at_most_three :
  forall (T : PyText) (order_id : option string) (s : Voicebot.state),
    all_leaves (lists_at_most 3) (Voicebot.get_order_status order_id s).
Proof.
  intros T order_id s. unfold Voicebot.get_order_status.
  unfold Voicebot.sbind at 1. apply leaves_any.
  intros [[[] | e] s1]; cbn [fst snd]; [| exact I].
  repeat bounded_step.
Qed.

Lemma next_order_first (T : PyText) (order_id : string)
  (before : list dict) (o : dict) (after : list value) :
  forallb (fun order => negb (names_order order_id order)) before = true ->
  names_order order_id o = true ->
  Voicebot.next_order order_id (map VDict before ++ VDict o :: after)%list
  = Ok (VDict o).
Proof.
  unfold names_order. intros Hbefore Ho.
  induction before as [| order before IH]; cbn [map app Voicebot.next_order
                                                  as_dict].
  - rewrite Ho. reflexivity.
  - cbn [forallb] in Hbefore. apply andb_prop in Hbefore.
    destruct Hbefore as [Horder Hbefore].
    apply negb_true_iff in Horder. rewrite Horder. apply IH, Hbefore.
Qed.

Lemma fulfilled_is_truthy (o : dict) :
  eq_str (PyDict.get "fulfillment_status" o) "fulfilled" = true ->
  truthy (VDict o) = true.
Proof.
  destruct o as [| kv o]; [discriminate | reflexivity].
Qed.

(** X28.  The [cancel_order] function refuses an order that is fulfilled.
    [_get_order_by_id] takes the first order of the shop's list whose id or
    whose number is the one asked for; when that order has the fulfillment
    status [fulfilled], the call answers that the order cannot be canceled,
    whatever the orders after it are, and the announcement and the one [GET]
    of the orders are the only exchanges; no [POST] is sent. *)
Theorem cancel_call_refuses_fulfilled_order :
  forall (T : PyText) S (h : handler S) (order_id : string)
         (reason : option string) (s : Voicebot.state)
         (c : Shopify.collector) (w w1 w2 : S) (resp : response)
         (d o : dict) (before : list dict) (after : list value),
    let say := AgentSay "I'm processing your cancellation request." in
    let get :=
      HttpRequest GET (opt_str (Shopify.BASE_URL c) ++ "/orders.json")
        (Shopify.headers c) None in
    Voicebot.shopify (Voicebot.fnc s) = Voicebot.Collector c ->
    has_credentials c = true ->
    h _ say w = (Ok tt, w1) ->
    h _ get w1 = (Ok resp, w2) ->
    is_error_status (status_code resp) = false ->
    body resp = Some (VDict d) ->
    PyDict.get_default "orders" (VList []) d
      = VList (map VDict before ++ VDict o :: after)%list ->
    forallb (fun order => negb (names_order order_id order)) before = true ->
    names_order order_id o = true ->
    eq_str (PyDict.get "fulfillment_status" o) "fulfilled" = true ->
    run_log h (Voicebot.cancel_order order_id reason s) w
    = (Ok (VDict
             [("success", VBool false);
              ("error",
               VStr ("Order #" ++ order_id
                     ++ " has already been fulfilled and cannot be canceled. Please contact customer support for assistance."))]),
       s, w2,
       [IO say (Ok tt); IO get (Ok resp)]).
Proof.
  intros T S h order_id reason s c w w1 w2 resp d o before after say get
    Hs Hcred Hsay Hget Herr Hbody Horders Hbefore Ho Hful.
  pose proof (@next_order_first T order_id before o after Hbefore Ho) as Hnext.
  pose proof (@fulfilled_is_truthy o Hful) as Htruthy.
  unfold has_credentials in Hcred. apply andb_prop in Hcred.
  destruct Hcred as [Hhd Hurl].
  destruct s as [sn sd tok url cd cr ci en [rn sh qs] x].
  cbn [Voicebot.fnc Voicebot.shopify] in Hs. subst sh.
  unfold is_error_status in Herr.
  unfold Voicebot.cancel_order. fold say.
  repeat first
    [ progress
        (unfold Voicebot.stry, Voicebot.sbind, Voicebot.io_,
           Voicebot.ensure_shopify, Voicebot.get_state,
           Voicebot._get_order_by_id, Voicebot.sret,
           Shopify.get_all_orders, Shopify._handle_auth_error,
           Shopify.get_checked, Shopify.raise_for_status, Shopify.json)
    | progress fold get
    | progress
        cbn [Voicebot.pbind call run_log fst snd Voicebot.shopify_truthy
               negb orb Voicebot.fnc Voicebot.shopify
               Voicebot.the_collector lift bind try_catch ret as_dict
               iterate]
    | rewrite Hsay | rewrite Hhd | rewrite Hurl | rewrite Hget
    | rewrite Herr | rewrite Hbody | rewrite Horders | rewrite Hnext
    | rewrite Htruthy | rewrite Hful ].
  reflexivity.
Qed.

(** On a shop whose list has an open order before the fulfilled one that is
    asked for. *)
Lemma cancel_call_refuses_witness :
  let s :=
    Voicebot.mkState (Some "Demo") None (Some "token")
      (Some "demo.myshopify.com") None None true true
      (Voicebot.mkFnc None (Voicebot.Collector demo_collector) None)
      fresh_session in
  let resp :=
    mkResponse 200
      (Some (VDict
               [("orders",
                 VList [VDict [("id", VInt 1000);
                               ("fulfillment_status", VNone)];
                        VDict [("id", VInt 1001);
                               ("fulfillment_status", VStr "fulfilled")]])])) in
  fst (fst (fst (run_log World.oracle
                   (@Voicebot.cancel_order World.plain_text "1001" None s)
                   (World.scripted [World.AResponse (Ok resp)]))))
  = Ok (VDict
          [("success", VBool false);
           ("error",
            VStr "Order #1001 has already been fulfilled and cannot be canceled. Please contact customer support for assistance.")]).
Proof.
  intros s resp.
  rewrite (@cancel_call_refuses_fulfilled_order World.plain_text World.world
             World.oracle "1001" None s demo_collector
             (World.scripted [World.AResponse (Ok resp)])
             (World.scripted [World.AResponse (Ok resp)])
             (World.scripted []) resp
             [("orders",
               VList [VDict [("id", VInt 1000);
                             ("fulfillment_status", VNone)];
                      VDict [("id", VInt 1001);
                             ("fulfillment_status", VStr "fulfilled")]])]
             [("id", VInt 1001); ("fulfillment_status", VStr "fulfilled")]
             [[("id", VInt 1000); ("fulfillment_status", VNone)]]
             []);
    reflexivity.
Defined.

(** *** Addresses *)

Lemma join_values_strings (sep : string) (l : list value) :
  Forall (fun v => exists s, v = VStr s) l ->
  exists text, Voicebot.join_values sep l = Ok text.
Proof.
  induction l as [| v l IH]; intros H.
  - exists "". reflexivity.
  - inversion H as [| x l' [s ->] Hl]; subst.
    destruct (IH Hl) as [text Ht].
    destruct l as [| v' l].
    + exists s. reflexivity.
    + cbn [Voicebot.join_values] in *. rewrite Ht. eexists. reflexivity.
Qed.

Lemma truthy_items_strings (keys : list string) (address : dict) :
  forallb (fun k => text_or_missing (PyDict.get k address)) keys = true ->
  Forall (fun v => exists s, v = VStr s) (Voicebot.truthy_items keys address).
Proof.
  unfold Voicebot.truthy_items.
  induction keys as [| k keys IH]; simpl; intros H; [constructor |].
  apply andb_prop in H. destruct H as [Hk Hrest].
  destruct (PyDict.get k address) as [| | | | s | | |]; try discriminate Hk;
    simpl.
  - apply IH, Hrest.
  - destruct (negb (PyStr.is_empty s)); [| apply IH, Hrest].
    constructor; [exists s; reflexivity | apply IH, Hrest].
Qed.

Lemma truthy_items_none (keys : list string) (address : dict) :
  existsb (fun k => truthy (PyDict.get k address)) keys = false ->
  Voicebot.truthy_items keys address = [].
Proof.
  unfold Voicebot.truthy_items.
  induction keys as [| k keys IH]; simpl; intros H; [reflexivity |].
  apply orb_false_elim in H. destruct H as [Hk Hrest].
  rewrite Hk. apply IH, Hrest.
Qed.

(** X29.  [_format_address] never fails on an address whose fields are
    strings or missing, whichever of them are present; when none of the
    seven fields it reads has a value, an empty address included, the text
    is [No address information available]. *)
Theorem format_address_on_text_fields :
  forall address : dict,
    forallb (fun k => text_or_missing (PyDict.get k address)) address_keys
    = true ->
    exists text,
      Voicebot._format_address (VDict address) = Ok text
      /\ (if existsb (fun k => truthy (PyDict.get k address)) address_keys
          then True
          else text = "No address information available").
Proof.
  intros address H.
  unfold Voicebot._format_address.
  destruct (truthy (VDict address)) eqn:Hd; cbn [negb].
  2: { exists "No address information available". split; [reflexivity |].
       destruct (existsb _ address_keys); [exact I | reflexivity]. }
  cbn [as_dict].
  assert (H1 : forallb (fun k => text_or_missing (PyDict.get k address))
                 ["name"; "address1"; "address2"] = true).
  { cbn [forallb address_keys] in *.
    repeat (apply andb_prop in H; destruct H as [? H]).
    repeat (apply andb_true_intro; split); assumption. }
  assert (H2 : forallb (fun k => text_or_missing (PyDict.get k address))
                 ["city"; "province_code"; "zip"] = true).
  { cbn [forallb address_keys] in *.
    repeat (apply andb_prop in H; destruct H as [? H]).
    repeat (apply andb_true_intro; split); assumption. }
  assert (H3 : forallb (fun k => text_or_missing (PyDict.get k address))
                 ["country"] = true).
  { cbn [forallb address_keys] in *.
    repeat (apply andb_prop in H; destruct H as [? H]).
    repeat (apply andb_true_intro; split); assumption. }
  apply truthy_items_strings in H1, H2, H3.
  destruct (existsb (fun k => truthy (PyDict.get k address)) address_keys)
    eqn:Hany.
  - destruct (Voicebot.truthy_items ["city"; "province_code"; "zip"] address)
      as [| v l] eqn:Hcsz.
    + destruct (Voicebot.truthy_items ["name"; "address1"; "address2"]
                  address ++ Voicebot.truthy_items ["country"] address)%list
        as [| v l] eqn:Hall.
      * eexists. split; [reflexivity | exact I].
      * destruct (join_values_strings Voicebot.nl (l := v :: l)) as [text Ht].
        { rewrite <- Hall. apply Forall_app. split; assumption. }
        exists text. split; [exact Ht | exact I].
    + destruct (join_values_strings ", " H2) as [line Hline].
      rewrite Hline.
      destruct ((Voicebot.truthy_items ["name"; "address1"; "address2"]
                   address ++ [VStr line])
                ++ Voicebot.truthy_items ["country"] address)%list
        as [| v' l'] eqn:Hall.
      * eexists. split; [reflexivity | exact I].
      * destruct (join_values_strings Voicebot.nl (l := v' :: l'))
          as [text Ht].
        { rewrite <- Hall. apply Forall_app. split; [| assumption].
          apply Forall_app. split; [assumption |].
          constructor; [exists line; reflexivity | constructor]. }
        exists text. split; [exact Ht | exact I].
  - cbn [existsb address_keys] in Hany.
    assert (Ha : Voicebot.truthy_items ["name"; "address1"; "address2"]
                   address = []).
    { apply truthy_items_none. cbn [existsb].
      repeat (apply orb_false_elim in Hany; destruct Hany as [? Hany]).
      repeat (apply orb_false_intro; try assumption). }
    assert (Hb : Voicebot.truthy_items ["city"; "province_code"; "zip"]
                   address = []).
    { apply truthy_items_none. cbn [existsb].
      repeat (apply orb_false_elim in Hany; destruct Hany as [? Hany]).
      repeat (apply orb_false_intro; try assumption). }
    assert (Hc : Voicebot.truthy_items ["country"] address = []).
    { apply truthy_items_none. cbn [existsb].
      repeat (apply orb_false_elim in Hany; destruct Hany as [? Hany]).
      repeat (apply orb_false_intro; try assumption). }
    rewrite Ha, Hb, Hc. cbn [app].
    exists "No address information available". split; reflexivity.
Qed.

Lemma format_address_witness :
  exists text,
    Voicebot._format_address
      (VDict [("name", VStr "Ann"); ("city", VStr "Paris");
              ("zip", VStr "75001"); ("phone", VInt 5)]) = Ok text
    /\ (if existsb
             (fun k =>
                truthy (PyDict.get k
                          [("name", VStr "Ann"); ("city", VStr "Paris");
                           ("zip", VStr "75001"); ("phone", VInt 5)]))
             address_keys
        then True
        else text = "No address information available").
Proof.
  apply (format_address_on_text_fields
           [("name", VStr "Ann"); ("city", VStr "Paris");
            ("zip", VStr "75001"); ("phone", VInt 5)]).
  reflexivity.
Defined.

(** *** An update that goes through *)

(** X30.  On an order that is open, [update_order] of the collector sends
    the fetch and then one [PUT] to the same URL with the payload of the new
    values; when the answer carries the updated order, that order is written
    to [order_<id>.json] and returned. *)
Theorem collector_update_order_goes_through :
  forall (T : PyText) S (h : handler S) (self : Shopify.collector)
         (order_id : string)
         (email phone address1 address2 city last_name province_code country
            zip1 : option string)
         (w w1 w2 w3 : S) (fetched answer : response) (o d : dict)
         (updated : value),
    let url := opt_str (Shopify.BASE_URL self) ++ "/orders/" ++ order_id
               ++ ".json" in
    let get := HttpRequest GET url (Shopify.headers self) None in
    let put :=
      HttpRequest PUT url (Shopify.headers self)
        (Some (Shopify.update_payload order_id email phone address1 address2
                 city last_name province_code country zip1)) in
    let save := WriteFile ("order_" ++ order_id ++ ".json") updated in
    has_credentials self = true ->
    h _ get w = (Ok fetched, w1) ->
    open_order fetched = Some o ->
    h _ put w1 = (Ok answer, w2) ->
    is_error_status (status_code answer) = false ->
    body answer = Some (VDict d) ->
    PyDict.get "order" d = updated ->
    truthy updated = true ->
    h _ save w2 = (Ok tt, w3) ->
    run_log h
      (Shopify.update_order self order_id email phone address1 address2 city
         last_name province_code country zip1) w
    = (Ok updated, w3,
       [IO get (Ok fetched); IO put (Ok answer); IO save (Ok tt)]).
Proof.
  intros T S h self order_id email phone address1 address2 city last_name
    province_code country zip1 w w1 w2 w3 fetched answer o d updated
    url get put save Hcred Hget Hopen Hput Herr Hbody Horder Htruthy Hsave.
  unfold has_credentials in Hcred. apply andb_prop in Hcred.
  destruct Hcred as [Hhd Hurl].
  apply open_order_Some in Hopen.
  destruct Hopen as [Hstatus [d0 [Hbody0 [Horder0 [Ho [Hful Hcan]]]]]].
  unfold is_error_status in Herr.
  unfold Shopify.update_order, Shopify._handle_auth_error.
  rewrite Hhd, Hurl. cbn [negb orb]. cbv zeta.
  fold url. unfold Shopify.get_checked. fold get. fold put.
  repeat first
    [ progress (unfold Shopify.raise_for_status, Shopify.json)
    | progress fold save
    | progress cbn [bind call try_catch ret lift as_dict run_log fst snd negb]
    | rewrite Hget | rewrite Hstatus | rewrite Hbody0 | rewrite Horder0
    | rewrite Ho | rewrite Hful | rewrite Hcan | rewrite Hput | rewrite Herr
    | rewrite Hbody | rewrite Horder | rewrite Htruthy | rewrite Hsave ].
  reflexivity.
Qed.

Lemma collector_update_order_witness :
  run_log World.oracle
    (Shopify.update_order demo_collector "1002" (Some "ann@shop.example")
       None None None None None None None (Some "75001"))
    (World.scripted
       [World.AResponse (Ok open_order_response);
        World.AResponse (Ok open_order_response)])
  = (Ok (VDict [("id", VInt 1002); ("fulfillment_status", VNone);
                ("cancelled_at", VNone)]),
     World.scripted [],
     [IO (HttpRequest GET
            "https://demo.myshopify.com/admin/api/2025-01/orders/1002.json"
            (Shopify.headers demo_collector) None)
         (Ok open_order_response);
      IO (HttpRequest PUT
            "https://demo.myshopify.com/admin/api/2025-01/orders/1002.json"
            (Shopify.headers demo_collector)
            (Some (VDict
                     [("order",
                       VDict [("id", VStr "1002");
                              ("email", VStr "ann@shop.example");
                              ("contact_email", VStr "ann@shop.example");
                              ("shipping_address",
                               VDict [("province", VStr "75001")])])])))
         (Ok open_order_response);
      IO (WriteFile "order_1002.json"
            (VDict [("id", VInt 1002); ("fulfillment_status", VNone);
                    ("cancelled_at", VNone)]))
         (Ok tt)]).
Proof.
  apply (@collector_update_order_goes_through World.plain_text World.world
           World.oracle demo_collector "1002" (Some "ann@shop.example")
           None None None None None None None (Some "75001")
           (World.scripted
              [World.AResponse (Ok open_order_response);
               World.AResponse (Ok open_order_response)])
           (World.scripted [World.AResponse (Ok open_order_response)])
           (World.scripted []) (World.scripted [])
           open_order_response open_order_response
           [("id", VInt 1002); ("fulfillment_status", VNone);
            ("cancelled_at", VNone)]
           [("order",
             VDict [("id", VInt 1002); ("fulfillment_status", VNone);
                    ("cancelled_at", VNone)])]
           (VDict [("id", VInt 1002); ("fulfillment_status", VNone);
                   ("cancelled_at", VNone)]));
    reflexivity.
Defined.
